(** * Shortlist: the LLM response normalisation and validation pipeline

    A shallow embedding of the generation nodes of the Shortlist backend
    (backend/app/agents/nodes/*.py and backend/app/api/v1/jd.py) together
    with the properties that the specification states about them.

    Conventions of the embedding.
    - A Python [str] is a [string]; a character is the code point it
      denotes, restricted to code points below 256.
    - A parsed JSON value (and every Python dict, list, number or string
      that flows through the nodes) is a value of type [JSON]; an [int] is
      an integer, a [float] a rational (the not-a-number and the infinities
      of the Python parser are outside the model).  What the code computes
      from floats, a sum or the float of an [int], is rounded to the
      nearest binary64 value ([PyFloat]).
    - A Python exception is a value of type [exn]; a computation that may
      raise has a type [res A].
    - [json.loads] comes from outside the repository ([Externals]): on a
      text it returns a value or raises [JSONDecodeError].  It can raise
      other exceptions too ([RecursionError] on a deeply nested text,
      [ValueError] on a number with more digits than the interpreter
      converts); the nodes are embedded for the texts on which it does
      not, and [AnyParser] gives the extraction of api/v1/jd.py for a
      parser with any outcome.
    - [list.sort] is the library's stable sort; it stands here as an
      insertion sort that compares keys with Python's [<].
    - The text generator ([llm.ainvoke]) is a function from the message
      history to an outcome; a node returns the dict it produces together
      with the list of histories it invoked the generator with. *)

From Stdlib Require Import List String Ascii ZArith QArith Lia Bool Arith.
Import ListNotations.
Close Scope Q_scope.
Set Warnings "-register-all".
Local Open Scope string_scope.
Local Open Scope nat_scope.

(** ** Python string operations *)

Module PyStr.

Definition bs : ascii := ascii_of_nat 92.   (* backslash *)
Definition dq : ascii := ascii_of_nat 34.   (* double quote *)
Definition nl : ascii := ascii_of_nat 10.   (* line feed *)
Definition bt : ascii := ascii_of_nat 96.   (* backtick *)

Definition chr (c : ascii) : string := String c "".

(** [str.isspace] on code points below 256: TAB..CR, FS..US, space,
    NEL and the no-break space. *)
Definition isspace (c : ascii) : bool :=
  let n := nat_of_ascii c in
  ((9 <=? n) && (n <=? 13)) || ((28 <=? n) && (n <=? 32))
  || (n =? 133) || (n =? 160).

Definition isalpha_ascii (c : ascii) : bool :=
  let n := nat_of_ascii c in
  ((65 <=? n) && (n <=? 90)) || ((97 <=? n) && (n <=? 122)).

(** [str.lower] on one code point below 256. *)
Definition lower_char (c : ascii) : ascii :=
  let n := nat_of_ascii c in
  if ((65 <=? n) && (n <=? 90))
     || ((192 <=? n) && (n <=? 222) && negb (n =? 215))
  then ascii_of_nat (n + 32) else c.

Fixpoint lower (s : string) : string :=
  match s with
  | "" => ""
  | String c s' => String (lower_char c) (lower s')
  end.

(** [s.lstrip()] *)
Fixpoint lstrip (s : string) : string :=
  match s with
  | "" => ""
  | String c s' => if isspace c then lstrip s' else s
  end.

(** [s.rstrip()] *)
Fixpoint rstrip (s : string) : string :=
  match s with
  | "" => ""
  | String c s' =>
      match rstrip s' with
      | "" => if isspace c then "" else String c ""
      | r => String c r
      end
  end.

(** [s.strip()] *)
Definition strip (s : string) : string := lstrip (rstrip s).

(** [s.lstrip(ch)] for a one-character argument. *)
Fixpoint lstrip_char (ch : ascii) (s : string) : string :=
  match s with
  | "" => ""
  | String c s' => if Ascii.eqb c ch then lstrip_char ch s' else s
  end.

(** [ch in s] *)
Fixpoint contains_char (ch : ascii) (s : string) : bool :=
  match s with
  | "" => false
  | String c s' => Ascii.eqb c ch || contains_char ch s'
  end.

(** [s.startswith(p)] *)
Fixpoint startswith (p s : string) : bool :=
  match p, s with
  | "", _ => true
  | String _ _, "" => false
  | String a p', String b s' => Ascii.eqb a b && startswith p' s'
  end.

(** [s[n:]] and [s[:n]] for a non-negative [n]. *)
Fixpoint drop (n : nat) (s : string) : string :=
  match n, s with
  | O, _ => s
  | S n', String _ s' => drop n' s'
  | S _, "" => ""
  end.

Fixpoint take (n : nat) (s : string) : string :=
  match n, s with
  | O, _ => ""
  | S n', String c s' => String c (take n' s')
  | S _, "" => ""
  end.

(** [s.find(ch)] and [s.rfind(ch)]; [None] stands for -1. *)
Fixpoint find_char (ch : ascii) (s : string) : option nat :=
  match s with
  | "" => None
  | String c s' =>
      if Ascii.eqb c ch then Some 0
      else option_map S (find_char ch s')
  end.

Fixpoint rfind_char (ch : ascii) (s : string) : option nat :=
  match s with
  | "" => None
  | String c s' =>
      match rfind_char ch s' with
      | Some i => Some (S i)
      | None => if Ascii.eqb c ch then Some 0 else None
      end
  end.

(** [s.find(sub)] for a substring. *)
Fixpoint find (sub s : string) : option nat :=
  if startswith sub s then Some 0
  else match s with
       | "" => None
       | String _ s' => option_map S (find sub s')
       end.

(** [s.endswith(p)] *)
Fixpoint endswith (p s : string) : bool :=
  String.eqb p s ||
  match s with
  | "" => false
  | String _ s' => endswith p s'
  end.

(** [s.rsplit(ch, 1)[-1]]: what follows the last occurrence of [ch],
    the whole string when there is none. *)
Definition rsplit1_last (ch : ascii) (s : string) : string :=
  match rfind_char ch s with
  | Some i => drop (S i) s
  | None => s
  end.

(** [re.split(r"[/\\]", s)] and, generally, splitting at every character
    that satisfies [sep]. *)
Fixpoint split_where (sep : ascii -> bool) (s : string) : list string :=
  match s with
  | "" => [""]
  | String c s' =>
      if sep c then "" :: split_where sep s'
      else match split_where sep s' with
           | p :: ps => String c p :: ps
           | [] => [chr c]
           end
  end.

(** [sep.join(parts)] *)
Fixpoint join (sep : string) (parts : list string) : string :=
  match parts with
  | [] => ""
  | [p] => p
  | p :: ps => p ++ sep ++ join sep ps
  end.

(** [x in collection] for a collection of strings. *)
Definition mem (x : string) (l : list string) : bool :=
  existsb (String.eqb x) l.

(** Keep the characters that satisfy [keep]: [re.sub] of a negated
    character class by the empty string. *)
Fixpoint filter_chars (keep : ascii -> bool) (s : string) : string :=
  match s with
  | "" => ""
  | String c s' =>
      if keep c then String c (filter_chars keep s')
      else filter_chars keep s'
  end.

(** [len(s.encode("utf-8"))] for code points below 256. *)
Fixpoint utf8_len (s : string) : Z :=
  match s with
  | "" => 0%Z
  | String c s' =>
      ((if (nat_of_ascii c <? 128)%nat then 1 else 2) + utf8_len s')%Z
  end.

(** Source texts are written with an apostrophe where the Python text
    has a double quote; [q] puts the double quotes back. *)
Fixpoint q (s : string) : string :=
  match s with
  | "" => ""
  | String c s' =>
      String (if Ascii.eqb c "'"%char then dq else c) (q s')
  end.

(** [ch * n] *)
Definition replicate (n : N) (c : ascii) : string :=
  N.iter n (String c) "".

End PyStr.
Import PyStr.

(** ** The path filter of the scaffold node (scaffold_node.py) *)

Definition MAX_SCAFFOLD_CONTENT_BYTES : Z := (512 * 1024)%Z.

Definition ALLOWED_EXTENSIONS : list string :=
  [ ".py"; ".js"; ".ts"; ".jsx"; ".tsx"; ".go"; ".rs"; ".java"; ".kt";
    ".html"; ".css"; ".scss"; ".json"; ".yaml"; ".yml"; ".toml"; ".cfg";
    ".md"; ".txt"; ".sql"; ".sh"; ".bash"; ".dockerfile"; ".env";
    ".gitignore"; ".dockerignore"; ".editorconfig"; ".prettierrc";
    ".eslintrc"; ".ini"; ".lock"; ".xml"; ".gradle"; ".properties" ].

Definition FORBIDDEN_PATH_PARTS : list string :=
  [ "__pycache__"; "node_modules"; ".git"; ".."; "~" ].

(** The dot-prefixed names that line 47 of scaffold_node.py lets through. *)
Definition ALLOWED_DOT_PARTS : list string :=
  [ ".env"; ".env.example"; ".gitignore"; ".dockerignore";
    ".editorconfig"; ".prettierrc"; ".eslintrc"; ".github" ].

Definition is_path_sep (c : ascii) : bool :=
  Ascii.eqb c "/"%char || Ascii.eqb c bs.

(** The loop over [parts]: [false] as soon as one part is rejected. *)
Fixpoint parts_allowed (parts : list string) : bool :=
  match parts with
  | [] => true
  | part :: rest =>
      if mem part FORBIDDEN_PATH_PARTS then false
      else if startswith "." part && negb (mem part ALLOWED_DOT_PARTS)
           then false
           else parts_allowed rest
  end.

(** [path.strip().lstrip("/").lstrip("\\")] *)
Definition path_trim (path : string) : string :=
  lstrip_char bs (lstrip_char "/"%char (strip path)).

Definition _sanitize_path (path : string) : option string :=
  let path := path_trim path in
  if String.eqb path "" || (300 <? String.length path) then None
  else
    let parts := split_where is_path_sep path in
    if negb (parts_allowed parts) then None
    else
      let filename := last parts "" in
      if contains_char "."%char filename then
        let ext := "." ++ lower (rsplit1_last "."%char filename) in
        if negb (mem ext ALLOWED_EXTENSIONS) then None
        else Some (join "/" parts)
      else Some (join "/" parts).

(** ** Python values and exceptions *)

(** A value as [json.loads] builds it; [JNull] is Python's [None], a dict
    keeps its insertion order. *)
Inductive JSON : Type :=
| JNull
| JBool (b : bool)
| JInt (z : Z)
| JFloat (x : Q)
| JStr (s : string)
| JArr (items : list JSON)
| JObj (fields : list (string * JSON)).

Definition dict : Type := list (string * JSON).

Inductive exn_kind : Type :=
| JSONDecodeError | ValueError | KeyError | AttributeError | TypeError
| OverflowError | RuntimeError | ValidationError | OtherError.

(** An exception with the text that [str(e)] gives. *)
Inductive exn : Type := Exn (kind : exn_kind) (message : string).

Definition exn_str (e : exn) : string := let (_, m) := e in m.
Definition exn_kind_of (e : exn) : exn_kind := let (k, _) := e in k.

(** [json.JSONDecodeError] is a subclass of [ValueError]. *)
Definition is_ValueError (e : exn) : bool :=
  match exn_kind_of e with
  | JSONDecodeError | ValueError => true
  | _ => false
  end.

Definition is_JSONDecodeError (e : exn) : bool :=
  match exn_kind_of e with JSONDecodeError => true | _ => false end.

Inductive res (A : Type) : Type :=
| Ok (a : A)
| Raise (e : exn).
Arguments Ok {A} a.
Arguments Raise {A} e.

Definition bind {A B : Type} (m : res A) (f : A -> res B) : res B :=
  match m with
  | Ok a => f a
  | Raise e => Raise e
  end.

Notation "x <- m ;; k" := (bind m (fun x => k))
  (at level 61, m at next level, right associativity).

Module Py.

Definition type_name (v : JSON) : string :=
  match v with
  | JNull => "NoneType"
  | JBool _ => "bool"
  | JInt _ => "int"
  | JFloat _ => "float"
  | JStr _ => "str"
  | JArr _ => "list"
  | JObj _ => "dict"
  end.

Definition attribute_error (v : JSON) (attr : string) : exn :=
  Exn AttributeError
    ("'" ++ type_name v ++ "' object has no attribute '" ++ attr ++ "'").

Fixpoint lookup (k : string) (d : dict) : option JSON :=
  match d with
  | [] => None
  | (k', v) :: d' => if String.eqb k k' then Some v else lookup k d'
  end.

(** [d[k] = v]: the key keeps its place when it is already there. *)
Fixpoint set (k : string) (v : JSON) (d : dict) : dict :=
  match d with
  | [] => [(k, v)]
  | (k', v') :: d' =>
      if String.eqb k k' then (k, v) :: d' else (k', v') :: set k v d'
  end.

(** [d.get(k, default)] on a dict. *)
Definition dget (d : dict) (k : string) (default : JSON) : JSON :=
  match lookup k d with
  | Some v => v
  | None => default
  end.

(** [v.get(k, default)] on any value: only a dict has [get]. *)
Definition get (v : JSON) (k : string) (default : JSON) : res JSON :=
  match v with
  | JObj d => Ok (dget d k default)
  | _ => Raise (attribute_error v "get")
  end.

(** [d[k]] on a dict. *)
Definition item (d : dict) (k : string) : res JSON :=
  match lookup k d with
  | Some v => Ok v
  | None => Raise (Exn KeyError ("'" ++ k ++ "'"))
  end.

Definition num_val (v : JSON) : option Q :=
  match v with
  | JInt z => Some (inject_Z z)
  | JFloat x => Some x
  | JBool b => Some (inject_Z (if b then 1 else 0))
  | _ => None
  end.

(** Truth value of [v] ([bool(v)]). *)
Definition truthy (v : JSON) : bool :=
  match v with
  | JNull => false
  | JBool b => b
  | JInt z => negb (Z.eqb z 0)
  | JFloat x => negb (Qeq_bool x 0)
  | JStr s => negb (String.eqb s "")
  | JArr l => match l with [] => false | _ => true end
  | JObj d => match d with [] => false | _ => true end
  end.

(** [a or b] *)
Definition or_else (a b : JSON) : JSON := if truthy a then a else b.

(** [len(v)] *)
Definition len (v : JSON) : res nat :=
  match v with
  | JStr s => Ok (String.length s)
  | JArr l => Ok (List.length l)
  | JObj d => Ok (List.length d)
  | _ => Raise (Exn TypeError
                  ("object of type '" ++ type_name v ++ "' has no len()"))
  end.

Fixpoint chars (s : string) : list JSON :=
  match s with
  | "" => []
  | String c s' => JStr (chr c) :: chars s'
  end.

(** The items that [for x in v] visits. *)
Definition iter (v : JSON) : res (list JSON) :=
  match v with
  | JArr l => Ok l
  | JStr s => Ok (chars s)
  | JObj d => Ok (map (fun kv => JStr (fst kv)) d)
  | _ => Raise (Exn TypeError
                  ("'" ++ type_name v ++ "' object is not iterable"))
  end.

(** [v[:n]]: lists and strings can be sliced. *)
Definition slice_to (n : nat) (v : JSON) : res JSON :=
  match v with
  | JArr l => Ok (JArr (firstn n l))
  | JStr s => Ok (JStr (take n s))
  | _ => Raise (Exn TypeError
                  ("'" ++ type_name v ++ "' object is not subscriptable"))
  end.

(** [min(a, x)] and [max(a, x)] of two numbers, as the builtins pick
    their result: the first argument unless the second is strictly
    smaller (larger). *)
Definition min2 (a x : JSON) : JSON :=
  match num_val a, num_val x with
  | Some qa, Some qx => if Qle_bool qa qx then a else x
  | _, _ => a
  end.

Definition max2 (a x : JSON) : JSON :=
  match num_val a, num_val x with
  | Some qa, Some qx => if Qle_bool qx qa then a else x
  | _, _ => a
  end.

(** [a < b] on strings: the order of the code points. *)
Fixpoint str_lt (a b : string) : bool :=
  match a, b with
  | _, "" => false
  | "", String _ _ => true
  | String x a', String y b' =>
      if (nat_of_ascii x <? nat_of_ascii y)%nat then true
      else if (nat_of_ascii y <? nat_of_ascii x)%nat then false
      else str_lt a' b'
  end.

(** [a == b]: numbers by their value, strings and lists item by item,
    dicts key by key whatever the order of their keys. *)
Fixpoint equal (a b : JSON) : bool :=
  match a, b with
  | JNull, JNull => true
  | JStr s, JStr t => String.eqb s t
  | JArr l, JArr m =>
      (fix items (l m : list JSON) : bool :=
         match l, m with
         | [], [] => true
         | x :: l', y :: m' => equal x y && items l' m'
         | _, _ => false
         end) l m
  | JObj d, JObj e =>
      (List.length d =? List.length e)%nat
      && (fix fields (d : dict) : bool :=
            match d with
            | [] => true
            | (k, v) :: d' =>
                match lookup k e with
                | Some w => equal v w && fields d'
                | None => false
                end
            end) d
  | _, _ =>
      match num_val a, num_val b with
      | Some x, Some y => Qeq_bool x y
      | _, _ => false
      end
  end.

Definition not_supported (op : string) (a b : JSON) : exn :=
  Exn TypeError
    ("'" ++ op ++ "' not supported between instances of '"
     ++ type_name a ++ "' and '" ++ type_name b ++ "'").

(** [a < b]: numbers by their value, strings by code points, lists by
    their first items that differ (the shorter list first when there is
    none); a [TypeError] for any other pair. *)
Fixpoint less (a b : JSON) : res bool :=
  match a, b with
  | JStr s, JStr t => Ok (str_lt s t)
  | JArr l, JArr m =>
      (fix items (l m : list JSON) : res bool :=
         match l, m with
         | [], [] => Ok false
         | [], _ :: _ => Ok true
         | _ :: _, [] => Ok false
         | x :: l', y :: m' => if equal x y then items l' m' else less x y
         end) l m
  | _, _ =>
      match num_val a, num_val b with
      | Some x, Some y => Ok (negb (Qle_bool y x))
      | _, _ => Raise (not_supported "<" a b)
      end
  end.

End Py.

(** ** Python floats

    A [float] is a binary64 number.  The sum of two floats, and the float
    of an [int], is the exact result rounded to the nearest binary64 value;
    only the results of such operations are rounded here, a [JFloat] that
    the parser hands over is taken as the float it is. *)

Module PyFloat.

(** The result of an operation on finite floats: a finite float or an
    infinity. *)
Inductive double : Type :=
| Finite (x : Q)
| Infinity (negative : bool).

(** [floor(log2(n/d))] for positive [n] and [d]. *)
Definition exponent (n d : Z) : Z :=
  let k := (Z.log2 n - Z.log2 d)%Z in
  let reached :=
    if (0 <=? k)%Z then (d * 2 ^ k <=? n)%Z else (d <=? n * 2 ^ (- k))%Z in
  if reached then k else (k - 1)%Z.

(** The integer nearest to [n/d], the even one of two that are as near
    (positive [n] and [d]). *)
Definition nearest_even (n d : Z) : Z :=
  let m := (n / d)%Z in
  let r := (n mod d)%Z in
  if (d <? 2 * r)%Z then (m + 1)%Z
  else if (2 * r =? d)%Z then (if Z.even m then m else (m + 1)%Z)
  else m.

(** The binary64 value nearest to a rational, ties to even: 53 bits of
    precision, no exponent below that of the subnormal numbers, an
    infinity from 2^1024 on. *)
Definition round64 (x : Q) : double :=
  let n := Z.abs (Qnum x) in
  let d := Zpos (Qden x) in
  if (n =? 0)%Z then Finite 0
  else
    let u := Z.max (exponent n d - 52) (-1074) in
    let m := if (0 <=? u)%Z then nearest_even n (d * 2 ^ u)
             else nearest_even (n * 2 ^ (- u)) d in
    let negative := (Qnum x <? 0)%Z in
    let s := if negative then (- m)%Z else m in
    if (0 <=? u)%Z then
      if (2 ^ 1024 <=? m * 2 ^ u)%Z then Infinity negative
      else Finite (inject_Z (s * 2 ^ u))
    else Finite (Qred (Qmake s (Z.to_pos (2 ^ (- u))))).

(** The float of an [int], as [float(z)] and the arithmetic of an [int]
    with a float take it. *)
Definition of_int (z : Z) : res Q :=
  match round64 (inject_Z z) with
  | Finite x => Ok x
  | Infinity _ => Raise (Exn OverflowError "int too large to convert to float")
  end.

(** [x + y] on two floats. *)
Definition add (x y : Q) : double := round64 (x + y).

End PyFloat.

(** ** What the nodes take from outside the repository

    The JSON parser of the Python library, the conversions of the Python
    runtime, the prompt builders (whose text no claim depends on) and the
    clock. *)

Inductive task : Type :=
| JdAnalysis | Capstone | Scaffold | Portfolio | Fitness | RepoScorecard.

(** What the repo node reads from the result of the GitHub analysis. *)
Record RepoAnalysisResult : Type := {
  full_name : JSON;
  primary_language : JSON;
  total_files : JSON;
  estimated_loc : JSON
}.

Record Externals : Type := {
  (** [json.loads(text)]; [None] when it raises [JSONDecodeError].  A text
      on which it raises another exception has no outcome here. *)
  json_loads : string -> option JSON;
  (** [str(e)] of the [JSONDecodeError] that [json.loads(text)] raises. *)
  json_error : string -> string;
  (** [str(v)] for a value that is not a string. *)
  str_of_value : JSON -> string;
  (** [float(s)] for a string; [None] when it raises [ValueError]. *)
  float_of_str : string -> option Q;
  (** The system prompt of a task. *)
  system_prompt : task -> string;
  (** The user prompt that a node builds from the state, or the exception
      that building it raises (a missing key, a value of the wrong type). *)
  user_prompt : task -> dict -> res string;
  (** [analyze_github_repo(repo_url)] (services/github_analyzer.py). *)
  analyze_github_repo : JSON -> res RepoAnalysisResult;
  (** Milliseconds elapsed, as the portfolio node prints them. *)
  elapsed_ms : string
}.

Inductive role : Type := SystemMessage | HumanMessage | AIMessage.

Definition message : Type := (role * string)%type.

(** The generator: given the history, the text of its answer or the
    exception of a failed call. *)
Definition generator : Type := list message -> res string.

(** ** A JSON reader

    A reader for the JSON grammar (objects, arrays, strings with the simple
    escapes, numbers, [true], [false], [null]); it stands for [json.loads]
    where a concrete text has to be read.  A number written without
    fraction and exponent is an [int], any other a [float], the binary64
    value nearest to what is written (a number beyond the floats, which
    Python reads as an infinity, is not read); a repeated key keeps its
    last value. *)

Module JsonReader.

Definition is_ws (c : ascii) : bool :=
  let n := nat_of_ascii c in
  (n =? 32) || (n =? 9) || (n =? 10) || (n =? 13).

Fixpoint skip_ws (s : string) : string :=
  match s with
  | String c s' => if is_ws c then skip_ws s' else s
  | "" => ""
  end.

Definition digit (c : ascii) : option Z :=
  let n := nat_of_ascii c in
  if (48 <=? n) && (n <=? 57) then Some (Z.of_nat (n - 48)) else None.

(** The leading digits of [s]: their value, their number, the rest. *)
Fixpoint digits (acc : Z) (count : nat) (s : string) : Z * nat * string :=
  match s with
  | String c s' =>
      match digit c with
      | Some d => digits (acc * 10 + d)%Z (S count) s'
      | None => (acc, count, s)
      end
  | "" => (acc, count, s)
  end.

(** The characters of a string literal, after its opening quote. *)
Fixpoint string_body (s : string) : option (string * string) :=
  match s with
  | "" => None
  | String c s' =>
      if Ascii.eqb c dq then Some ("", s')
      else if Ascii.eqb c bs then
        match s' with
        | String e s'' =>
            let unescaped :=
              if Ascii.eqb e dq then Some dq
              else if Ascii.eqb e bs then Some bs
              else if Ascii.eqb e "/" then Some "/"%char
              else if Ascii.eqb e "n" then Some nl
              else if Ascii.eqb e "t" then Some (ascii_of_nat 9)
              else if Ascii.eqb e "r" then Some (ascii_of_nat 13)
              else if Ascii.eqb e "b" then Some (ascii_of_nat 8)
              else if Ascii.eqb e "f" then Some (ascii_of_nat 12)
              else None in
            match unescaped, string_body s'' with
            | Some u, Some (body, rest) => Some (String u body, rest)
            | _, _ => None
            end
        | "" => None
        end
      else if nat_of_ascii c <? 32 then None
      else match string_body s' with
           | Some (body, rest) => Some (String c body, rest)
           | None => None
           end
  end.

(** A number: [-? int frac? exp?]. *)
Definition number (s : string) : option (JSON * string) :=
  let (neg, s1) :=
    match s with
    | String "-" r => (true, r)
    | _ => (false, s)
    end in
  let '(ip, n_int, s2) := digits 0 0 s1 in
  let leading_zero :=
    match s1 with
    | String "0" _ => 1 <? n_int
    | _ => false
    end in
  if (n_int =? 0) || leading_zero then None
  else
    let sign (z : Z) := if neg then (- z)%Z else z in
    let frac :=
      match s2 with
      | String "." r =>
          let '(m, n_frac, r') := digits ip 0 r in
          if n_frac =? 0 then None else Some (Some (m, n_frac), r')
      | _ => Some (None, s2)
      end in
    match frac with
    | None => None
    | Some (fr, s3) =>
        let expo :=
          match s3 with
          | String e r =>
              if Ascii.eqb e "e" || Ascii.eqb e "E" then
                let (eneg, r1) :=
                  match r with
                  | String "-" r' => (true, r')
                  | String "+" r' => (false, r')
                  | _ => (false, r)
                  end in
                let '(ev, n_e, r2) := digits 0 0 r1 in
                if n_e =? 0 then None
                else Some (Some (if eneg then (- ev)%Z else ev), r2)
              else Some (None, s3)
          | "" => Some (None, s3)
          end in
        match expo with
        | None => None
        | Some (ex, s4) =>
            match fr, ex with
            | None, None => Some (JInt (sign ip), s4)
            | _, _ =>
                let (m, k) :=
                  match fr with
                  | Some (m, k) => (m, k)
                  | None => (ip, 0)
                  end in
                let e := match ex with Some e => e | None => 0%Z end in
                let x :=
                  Qred (Qmult (Qmake (sign m) (Pos.pow 10 (Pos.of_nat k) ))
                          (Qpower (inject_Z 10) e)) in
                let x := if k =? 0
                         then Qred (Qmult (inject_Z (sign m))
                                      (Qpower (inject_Z 10) e))
                         else x in
                match PyFloat.round64 x with
                | PyFloat.Finite y => Some (JFloat y, s4)
                | PyFloat.Infinity _ => None
                end
            end
        end
    end.

Definition literal (name : string) (v : JSON) (s : string)
  : option (JSON * string) :=
  if startswith name s then Some (v, drop (String.length name) s)
  else None.

Fixpoint value (fuel : nat) (s : string) : option (JSON * string) :=
  match fuel with
  | O => None
  | S fuel' =>
      let elements :=
        fix elements (n : nat) (acc : list JSON) (s : string)
          : option (JSON * string) :=
          match n with
          | O => None
          | S n' =>
              match value fuel' s with
              | Some (v, r) =>
                  match skip_ws r with
                  | String "," r' => elements n' (acc ++ [v])%list r'
                  | String "]" r' => Some (JArr (acc ++ [v])%list, r')
                  | _ => None
                  end
              | None => None
              end
          end in
      let members :=
        fix members (n : nat) (acc : dict) (s : string)
          : option (JSON * string) :=
          match n with
          | O => None
          | S n' =>
              match skip_ws s with
              | String c r =>
                  if Ascii.eqb c dq then
                    match string_body r with
                    | Some (k, r1) =>
                        match skip_ws r1 with
                        | String ":" r2 =>
                            match value fuel' r2 with
                            | Some (v, r3) =>
                                match skip_ws r3 with
                                | String "," r4 =>
                                    members n' (Py.set k v acc) r4
                                | String "}" r4 =>
                                    Some (JObj (Py.set k v acc), r4)
                                | _ => None
                                end
                            | None => None
                            end
                        | _ => None
                        end
                    | None => None
                    end
                  else None
              | "" => None
              end
          end in
      match skip_ws s with
      | "" => None
      | String c r =>
          if Ascii.eqb c "{" then
            match skip_ws r with
            | String "}" r' => Some (JObj [], r')
            | _ => members fuel' [] r
            end
          else if Ascii.eqb c "[" then
            match skip_ws r with
            | String "]" r' => Some (JArr [], r')
            | _ => elements fuel' [] r
            end
          else if Ascii.eqb c dq then
            match string_body r with
            | Some (body, r') => Some (JStr body, r')
            | None => None
            end
          else if Ascii.eqb c "t" then literal "true" (JBool true) (String c r)
          else if Ascii.eqb c "f" then literal "false" (JBool false) (String c r)
          else if Ascii.eqb c "n" then literal "null" JNull (String c r)
          else number (String c r)
      end
  end.

(** The whole text must be one value, with white space around it. *)
Definition loads (text : string) : option JSON :=
  match value (S (String.length text)) text with
  | Some (v, rest) =>
      match skip_ws rest with
      | "" => Some v
      | _ => None
      end
  | None => None
  end.

End JsonReader.

(** ** Fence stripping and JSON location

    The regular expressions of the sources are written out as the string
    functions they compute: an anchored pattern can only match at the one
    place the anchor allows, so each [re.sub] below removes at most one
    match. *)

Module Fences.

Definition FENCE : string := "```".

Fixpoint drop_while (p : ascii -> bool) (s : string) : string :=
  match s with
  | "" => ""
  | String c s' => if p c then drop_while p s' else s
  end.

(** [s[:-n]] *)
Definition drop_last (n : nat) (s : string) : string :=
  take (String.length s - n) s.

(** [re.sub(r'^```[a-zA-Z]*\s*', '', s)] (jd_node.py line 56, jd.py
    line 42). *)
Definition sub_leading_fence (s : string) : string :=
  if startswith FENCE s
  then drop_while isspace (drop_while isalpha_ascii (drop 3 s))
  else s.

(** [re.sub(r'```\s*$', '', s)] (jd_node.py line 57, jd.py line 44): the
    match is the fence that only white space follows. *)
Definition sub_trailing_fence (s : string) : string :=
  let t := rstrip s in
  if endswith FENCE t then drop_last 3 t else s.

(** [re.sub(r"^```(?:json)?\s*", "", s)] (fitness_node.py line 125). *)
Definition sub_leading_json_fence (s : string) : string :=
  if startswith FENCE s then
    let r := drop 3 s in
    let r := if startswith "json" r then drop 4 r else r in
    drop_while isspace r
  else s.

(** [re.sub(r"\s*```\s*$", "", s)] (fitness_node.py line 126): the match
    starts with the white space before the closing fence. *)
Definition sub_trailing_fence_ws (s : string) : string :=
  let t := rstrip s in
  if endswith FENCE t then rstrip (drop_last 3 t) else s.

(** Lines 39-44 of portfolio_node.py and 59-64 of capstone_node.py, after
    the initial [strip()]. *)
Definition strip_fence_block (text : string) : string :=
  if startswith FENCE text then
    let first_newline :=
      match find_char nl text with
      | Some i => i
      | None => 3
      end in
    let text := drop first_newline text in
    let text := if endswith FENCE text then drop_last 3 text else text in
    strip text
  else text.

(** [s[start:end]] for non-negative bounds. *)
Definition substring (start stop : nat) (s : string) : string :=
  take (stop - start) (drop start s).

End Fences.
Import Fences.

(** ** The company modifier table and node (company_node.py) *)

Record modifiers : Type := {
  emphasis_areas : list string;
  weight_adjustments : list (string * Q);
  portfolio_focus : string
}.

Definition startup_modifiers : modifiers := {|
  emphasis_areas :=
    [ "Shipping speed"; "Full-stack capability"; "MVP mindset";
      "Wearing multiple hats"; "Rapid iteration" ];
  weight_adjustments :=
    [ ("full-stack", 3%Q); ("shipping speed", 3%Q); ("react", (3#2)%Q);
      ("fastapi", (3#2)%Q); ("docker", 2%Q); ("ci/cd", (3#2)%Q);
      ("system design", (-1)%Q) ];
  portfolio_focus :=
    "Show end-to-end projects shipped solo. "
    ++ "Emphasize speed, deployment, and user-facing features."
|}.

Definition mid_level_modifiers : modifiers := {|
  emphasis_areas :=
    [ "Clean architecture"; "Code quality"; "Testing";
      "Design patterns"; "Team collaboration" ];
  weight_adjustments :=
    [ ("clean code", 3%Q); ("testing", (5#2)%Q); ("design patterns", 2%Q);
      ("code review", (3#2)%Q); ("documentation", (3#2)%Q) ];
  portfolio_focus :=
    "Show well-structured projects with tests, CI, and clean code. "
    ++ "Emphasize maintainability, modularity, and code quality metrics."
|}.

Definition faang_modifiers : modifiers := {|
  emphasis_areas :=
    [ "System design"; "Scalability"; "Data structures & algorithms";
      "Distributed systems"; "Performance optimization" ];
  weight_adjustments :=
    [ ("system design", 4%Q); ("scalability", (7#2)%Q); ("algorithms", 3%Q);
      ("distributed systems", (5#2)%Q); ("performance", 2%Q);
      ("kubernetes", (3#2)%Q) ];
  portfolio_focus :=
    "Show projects that demonstrate scale thinking. "
    ++ "Include architecture diagrams, load considerations, "
    ++ "and system design documentation."
|}.

Definition research_modifiers : modifiers := {|
  emphasis_areas :=
    [ "Novel approach"; "Rigorous evaluation"; "Paper-grade documentation";
      "Reproducibility"; "Experiment tracking" ];
  weight_adjustments :=
    [ ("machine learning", 3%Q); ("evaluation metrics", (5#2)%Q);
      ("reproducibility", 2%Q); ("research methodology", 2%Q);
      ("python", 1%Q) ];
  portfolio_focus :=
    "Show projects with clear problem formulation, novel approaches, "
    ++ "ablation studies, and paper-quality writeups."
|}.

Definition enterprise_modifiers : modifiers := {|
  emphasis_areas :=
    [ "Security"; "Reliability"; "Compliance";
      "Error handling"; "Logging & monitoring"; "Documentation" ];
  weight_adjustments :=
    [ ("security", 4%Q); ("reliability", 3%Q); ("error handling", (5#2)%Q);
      ("logging", 2%Q); ("monitoring", 2%Q); ("documentation", 2%Q);
      ("compliance", (3#2)%Q) ];
  portfolio_focus :=
    "Show projects with robust error handling, security headers, "
    ++ "structured logging, auth, and deployment pipelines."
|}.

Definition COMPANY_MODIFIERS : list (string * modifiers) :=
  [ ("startup", startup_modifiers); ("mid_level", mid_level_modifiers);
    ("faang", faang_modifiers); ("research", research_modifiers);
    ("enterprise", enterprise_modifiers) ].

Fixpoint modifiers_lookup (k : string) (table : list (string * modifiers))
  : option modifiers :=
  match table with
  | [] => None
  | (k', m) :: rest => if String.eqb k k' then Some m else modifiers_lookup k rest
  end.

(** [COMPANY_MODIFIERS.get(company_type, COMPANY_MODIFIERS["mid_level"])] *)
Definition modifiers_for (company_type : string) : modifiers :=
  match modifiers_lookup company_type COMPANY_MODIFIERS with
  | Some m => m
  | None => mid_level_modifiers
  end.

(** [sub in s] for strings. *)
Definition contains (sub s : string) : bool :=
  match find sub s with Some _ => true | None => false end.

(** [v.lower()]: only a string has the method. *)
Definition lower_value (v : JSON) : res string :=
  match v with
  | JStr s => Ok (lower s)
  | _ => Raise (Py.attribute_error v "lower")
  end.

(** The left operand of [original + adj_value], as a float: an [int] is
    converted, a value that is no number cannot be added to a float. *)
Definition float_operand (original : JSON) : res Q :=
  match original with
  | JInt z => PyFloat.of_int z
  | JBool b => Ok (inject_Z (if b then 1 else 0))
  | JFloat x => Ok x
  | JStr _ | JArr _ =>
      Raise (Exn TypeError
               (q ("can only concatenate " ++ Py.type_name original
                   ++ " (not 'float') to " ++ Py.type_name original)))
  | JNull | JObj _ =>
      Raise (Exn TypeError
               ("unsupported operand type(s) for +: '"
                ++ Py.type_name original ++ "' and 'float'"))
  end.

(** [max(0.0, min(10.0, total))] *)
Definition clamp_weight (total : PyFloat.double) : JSON :=
  match total with
  | PyFloat.Finite x => Py.max2 (JFloat 0) (Py.min2 (JFloat 10) (JFloat x))
  | PyFloat.Infinity negative => JFloat (if negative then 0 else 10)
  end.

(** [max(0.0, min(10.0, original + adj_value))] *)
Definition adjusted_weight (original : JSON) (adj_value : Q) : res JSON :=
  x <- float_operand original ;;
  Ok (clamp_weight (PyFloat.add x adj_value)).

(** The inner loop over [adjustments.items()] for one skill. *)
Fixpoint apply_adjustments (adjustments : list (string * Q))
  (skill_name_lower : string) (skill : dict) : res dict :=
  match adjustments with
  | [] => Ok skill
  | (adj_key, adj_value) :: rest =>
      if contains adj_key skill_name_lower then
        adjusted <- adjusted_weight (Py.dget skill "weight" (JFloat 5)) adj_value ;;
        apply_adjustments rest skill_name_lower (Py.set "weight" adjusted skill)
      else apply_adjustments rest skill_name_lower skill
  end.

Definition adjust_skill (adjustments : list (string * Q)) (skill : JSON)
  : res JSON :=
  name <- Py.get skill "name" (JStr "") ;;
  skill_name_lower <- lower_value name ;;
  match skill with
  | JObj d => d' <- apply_adjustments adjustments skill_name_lower d ;; Ok (JObj d')
  | _ => Raise (Py.attribute_error skill "get")
  end.

Fixpoint adjust_skills (adjustments : list (string * Q)) (skills : list JSON)
  : res (list JSON) :=
  match skills with
  | [] => Ok []
  | skill :: rest =>
      skill' <- adjust_skill adjustments skill ;;
      rest' <- adjust_skills adjustments rest ;;
      Ok (skill' :: rest')
  end.

(** The sort key [s.get("weight", 0)]. *)
Definition sort_key (skill : JSON) : res JSON :=
  Py.get skill "weight" (JInt 0).

(** Insertion into a list sorted by decreasing key, behind the elements
    whose key is greater: [x] came first in the input. *)
Fixpoint insert_desc (x : JSON * JSON) (l : list (JSON * JSON))
  : res (list (JSON * JSON)) :=
  match l with
  | [] => Ok [x]
  | y :: l' =>
      less <- Py.less (fst x) (fst y) ;;
      if less then (rest <- insert_desc x l' ;; Ok (y :: rest))
      else Ok (x :: l)
  end.

Fixpoint sort_desc (l : list (JSON * JSON)) : res (list (JSON * JSON)) :=
  match l with
  | [] => Ok []
  | x :: l' => sorted <- sort_desc l' ;; insert_desc x sorted
  end.

(** The keys of the skills, computed in the order of the list before any
    is compared. *)
Fixpoint with_keys (skills : list JSON) : res (list (JSON * JSON)) :=
  match skills with
  | [] => Ok []
  | s :: rest =>
      k <- sort_key s ;;
      rest' <- with_keys rest ;;
      Ok ((k, s) :: rest')
  end.

(** [skills.sort(key=lambda s: s.get("weight", 0), reverse=True)].  The
    sort of the Python library is stable and compares keys with [<] alone;
    it stands here as an insertion sort by decreasing key that does the
    same.  Fewer than two skills are not compared at all.  When two keys
    cannot be compared the sort raises the [TypeError] of a comparison; which
    pair the library meets first, hence the types its message names, is not
    modelled. *)
Definition sort_skills (skills : list JSON) : res (list JSON) :=
  keyed <- with_keys skills ;;
  sorted <- sort_desc keyed ;;
  Ok (map snd sorted).

Definition modifiers_dict (company_type : string) (m : modifiers) : JSON :=
  JObj [ ("company_type", JStr company_type);
         ("emphasis_areas", JArr (map JStr (emphasis_areas m)));
         ("weight_adjustments",
          JObj (map (fun kv => (fst kv, JFloat (snd kv))) (weight_adjustments m)));
         ("portfolio_focus", JStr (portfolio_focus m)) ].

Definition company_logic_node (state : dict) : res dict :=
  company_type <- lower_value (Py.dget state "company_type" (JStr "mid_level")) ;;
  let modifiers := modifiers_for company_type in
  let skill_profile := Py.or_else (Py.dget state "skill_profile" JNull) (JObj []) in
  if negb (Py.truthy skill_profile) then
    Ok [ ("skill_profile", JObj []);
         ("company_modifiers", modifiers_dict company_type modifiers);
         ("current_phase", JStr "company_logic_complete");
         ("messages", JArr []) ]
  else
    skills <- Py.get skill_profile "skills" (JArr []) ;;
    items <- Py.iter skills ;;
    adjusted <- adjust_skills (weight_adjustments modifiers) items ;;
    match skills, skill_profile with
    | JArr _, JObj profile =>
        sorted <- sort_skills adjusted ;;
        Ok [ ("skill_profile", JObj (Py.set "skills" (JArr sorted) profile));
             ("company_modifiers", modifiers_dict company_type modifiers);
             ("current_phase", JStr "company_logic_complete");
             ("messages", JArr []) ]
    | _, _ => Raise (Py.attribute_error skills "sort")
    end.

(** ** The generation nodes *)

(** A node's result: the dict it returns, or the exception that escapes
    it, with the histories the generator was invoked with, in order. *)
Definition outcome : Type := (res dict * list (list message))%type.

Definition result_of (o : outcome) : res dict := fst o.
Definition invocations (o : outcome) : nat := List.length (snd o).

(** The key ["errors"] of a returned dict. *)
Definition reported_errors (d : dict) : option JSON := Py.lookup "errors" d.

Definition reports_error (o : outcome) : bool :=
  match result_of o with
  | Ok d => match reported_errors d with Some _ => true | None => false end
  | Raise _ => false
  end.

Definition raises (o : outcome) : bool :=
  match result_of o with Ok _ => false | Raise _ => true end.

(** Lengths that the sources use as slice bounds. *)
Definition n200 : nat := N.to_nat 200.
Definition n500 : nat := N.to_nat 500.
Definition n5000 : nat := N.to_nat 5000.
Definition n8000 : nat := N.to_nat 8000.

Section Nodes.

Variable E : Externals.

(** [str(v)] *)
Definition py_str (v : JSON) : string :=
  match v with
  | JStr s => s
  | _ => str_of_value E v
  end.

(** [float(v)] *)
Definition py_float (v : JSON) : res Q :=
  match v with
  | JInt z => PyFloat.of_int z
  | JFloat x => Ok x
  | JBool b => Ok (inject_Z (if b then 1 else 0))
  | JStr s =>
      match float_of_str E s with
      | Some x => Ok x
      | None => Raise (Exn ValueError
                         ("could not convert string to float: '" ++ s ++ "'"))
      end
  | _ => Raise (Exn TypeError
                  ("float() argument must be a string or a real number, not '"
                   ++ Py.type_name v ++ "'"))
  end.

(** [json.loads(text)] as a computation that may raise. *)
Definition loads (text : string) : res JSON :=
  match json_loads E text with
  | Some v => Ok v
  | None => Raise (Exn JSONDecodeError (json_error E text))
  end.

(** The two messages every node starts from. *)
Definition initial_messages (t : task) (state : dict) : res (list message) :=
  prompt <- user_prompt E t state ;;
  Ok [ (SystemMessage, system_prompt E t); (HumanMessage, prompt) ].

(** [(state.get("errors") or []) + [msg]] *)
Definition errors_plus (state : dict) (msg : string) : res JSON :=
  match Py.or_else (Py.dget state "errors" JNull) (JArr []) with
  | JArr l => Ok (JArr (l ++ [JStr msg])%list)
  | v => Raise (Exn TypeError
                  ("unsupported operand type(s) for +: '"
                   ++ Py.type_name v ++ "' and 'list'"))
  end.

(** *** JD analysis (jd_node.py) *)

Definition JD_RETRY_MESSAGE : string :=
  "Your response was not valid JSON. Please return ONLY the JSON object "
  ++ "as specified, with no markdown, no explanation, no extra text.".

(** Lines 53-67: the text handed to [json.loads]. *)
Definition jd_candidate (content : string) : string :=
  let raw := strip content in
  let raw := sub_leading_fence raw in
  let raw := sub_trailing_fence raw in
  let raw := strip raw in
  if startswith "{" raw then raw
  else
    match find_char "{" raw with
    | Some brace =>
        let raw := drop brace raw in
        match rfind_char "}" raw with
        | Some (S e) => take (S (S e)) raw
        | _ => raw
        end
    | None => raw
    end.

(** The loop [for attempt in range(2)] with [parsed], [response] and
    [messages] as its state; a text that parses ends it ([break]), and
    [parsed] is still [None] when the attempts run out. *)
Fixpoint jd_attempts (llm : generator) (attempts : list nat)
  (messages : list message) (response : string)
  (calls : list (list message))
  : res (JSON * string) * list (list message) :=
  match attempts with
  | [] => (Ok (JNull, response), calls)
  | attempt :: rest =>
      match llm messages with
      | Raise e => (Raise e, (calls ++ [messages])%list)
      | Ok content =>
          let calls := (calls ++ [messages])%list in
          match json_loads E (jd_candidate content) with
          | Some parsed => (Ok (parsed, content), calls)
          | None =>
              let messages :=
                if attempt =? 0
                then (messages ++ [(HumanMessage, JD_RETRY_MESSAGE)])%list
                else messages in
              jd_attempts llm rest messages content calls
          end
      end
  end.

Definition jd_fallback (state : dict) (response : string) : JSON :=
  JObj [ ("skills", JArr []);
         ("experience_level", JStr "mid");
         ("domain", Py.dget state "role" (JStr "Software Engineering"));
         ("engineering_expectations", JArr []);
         ("key_responsibilities", JArr []);
         ("summary", JStr (take n8000 response)) ].

Definition jd_failed (e : exn) : dict :=
  [ ("errors", JArr [JStr ("JD analysis failed: " ++ exn_str e)]);
    ("current_phase", JStr "jd_analysis_failed");
    ("messages", JArr []) ].

Definition jd_analysis_node (state : dict) (llm : generator) : outcome :=
  match initial_messages JdAnalysis state with
  | Raise e => (Ok (jd_failed e), [])
  | Ok messages =>
      match jd_attempts llm [0; 1] messages "" [] with
      | (Raise e, calls) => (Ok (jd_failed e), calls)
      | (Ok (parsed, response), calls) =>
          let parsed :=
            match parsed with
            | JNull => jd_fallback state response
            | _ => parsed
            end in
          let finish :=
            skills <- Py.get parsed "skills" (JArr []) ;;
            _ <- Py.len skills ;;
            expectations <- Py.get parsed "engineering_expectations" (JArr []) ;;
            Ok [ ("skill_profile", parsed);
                 ("engineering_expectations", expectations);
                 ("current_phase", JStr "jd_analysis_complete");
                 ("messages", JArr [JStr response]) ] in
          match finish with
          | Ok d => (Ok d, calls)
          | Raise e => (Ok (jd_failed e), calls)
          end
      end
  end.

(** *** The JD endpoint's re-validation (api/v1/jd.py) *)

Definition _strip_markdown_fences (text : string) : string :=
  strip (sub_trailing_fence (sub_leading_fence (strip text))).

Definition _try_extract_json (text : string) : option dict :=
  if String.length text <? 10 then None
  else
    let clean := _strip_markdown_fences text in
    match find_char "{" clean with
    | None => None
    | Some brace_start =>
        match rfind_char "}" clean with
        | None => None
        | Some brace_end =>
            if brace_end <=? brace_start then None
            else
              let candidate := substring brace_start (S brace_end) clean in
              match json_loads E candidate with
              | Some (JObj parsed) => Some parsed
              | _ => None
              end
        end
    end.

Record Skill : Type := {
  skill_name : string;
  skill_category : string;
  skill_weight : Q;
  skill_source : string
}.

Record EngineeringExpectation : Type := {
  dimension : string;
  importance : Q;
  description : string
}.

Record SkillProfile : Type := {
  skills : list Skill;
  experience_level : string;
  domain : string;
  engineering_expectations : list EngineeringExpectation;
  key_responsibilities : list string;
  summary : string
}.

Definition validation_error (field : string) : exn :=
  Exn ValidationError ("validation error for " ++ field).

(** A field declared [str]. *)
Definition str_field (field : string) (v : JSON) : res string :=
  match v with
  | JStr s => Ok s
  | _ => Raise (validation_error field)
  end.

(** A field declared [float] with [ge=lo] and [le=hi]. *)
Definition bounded_field (field : string) (lo hi x : Q) : res Q :=
  if Qle_bool lo x && Qle_bool x hi then Ok x
  else Raise (validation_error field).

(** [Skill(name=..., category=..., weight=float(...), source=...)] with
    the arguments of lines 95-98 of jd.py. *)
Definition make_skill (s : JSON) : res Skill :=
  name <- Py.get s "name" (JStr "Unknown") ;;
  category <- Py.get s "category" (JStr "concept") ;;
  w <- Py.get s "weight" (JFloat 5) ;;
  weight <- py_float w ;;
  source <- Py.get s "source" (JStr "inferred") ;;
  name <- str_field "name" name ;;
  category <- str_field "category" category ;;
  weight <- bounded_field "weight" 0 10 weight ;;
  source <- str_field "source" source ;;
  Ok {| skill_name := name; skill_category := category;
        skill_weight := weight; skill_source := source |}.

Definition make_expectation (e : JSON) : res EngineeringExpectation :=
  dim <- Py.get e "dimension" (JStr "Unknown") ;;
  i <- Py.get e "importance" (JFloat 5) ;;
  imp <- py_float i ;;
  descr <- Py.get e "description" (JStr "") ;;
  dim <- str_field "dimension" dim ;;
  imp <- bounded_field "importance" 0 10 imp ;;
  descr <- str_field "description" descr ;;
  if n500 <? String.length descr then Raise (validation_error "description")
  else Ok {| dimension := dim; importance := imp; description := descr |}.

(** A loop whose body is [try: out.append(make(x)) except Exception:
    continue]. *)
Fixpoint collect_valid {A : Type} (make : JSON -> res A) (items : list JSON)
  : list A :=
  match items with
  | [] => []
  | x :: rest =>
      match make x with
      | Ok a => a :: collect_valid make rest
      | Raise _ => collect_valid make rest
      end
  end.

Definition EXPERIENCE_LEVELS : list string :=
  [ "intern"; "junior"; "mid"; "senior"; "staff"; "principal" ].

Fixpoint str_list (field : string) (l : list JSON) : res (list string) :=
  match l with
  | [] => Ok []
  | x :: rest =>
      s <- str_field field x ;;
      rest' <- str_list field rest ;;
      Ok (s :: rest')
  end.

Definition is_str (v : JSON) : bool :=
  match v with JStr _ => true | _ => false end.

(** Lines 85-89 of jd.py: the profile hidden in the fallback's summary. *)
Definition reextract_embedded (raw : dict) : dict :=
  match Py.dget raw "summary" JNull with
  | JStr text =>
      if negb (Py.truthy (Py.dget raw "skills" JNull)) then
        match _try_extract_json text with
        | Some embedded =>
            match embedded, Py.dget embedded "skills" JNull with
            | _ :: _, JArr (_ :: _) => embedded
            | _, _ => raw
            end
        | None => raw
        end
      else raw
  | _ => raw
  end.

Definition _safe_parse_skill_profile (raw : JSON) : res SkillProfile :=
  let raw : dict :=
    match raw with
    | JStr text =>
        match _try_extract_json text with
        | Some parsed => match parsed with [] => [] | _ => parsed end
        | None => []
        end
    | JObj d => d
    | _ => []
    end in
  let raw := reextract_embedded raw in
  skill_items <- Py.iter (Py.dget raw "skills" (JArr [])) ;;
  let skills := collect_valid make_skill skill_items in
  expectation_items <- Py.iter (Py.dget raw "engineering_expectations" (JArr [])) ;;
  let expectations := collect_valid make_expectation expectation_items in
  summary <- Py.slice_to n8000 (Py.dget raw "summary" (JStr "Analysis complete.")) ;;
  level <- str_field "experience_level" (Py.dget raw "experience_level" (JStr "mid")) ;;
  level <- (if mem level EXPERIENCE_LEVELS then Ok level
            else Raise (validation_error "experience_level")) ;;
  dom <- str_field "domain" (Py.dget raw "domain" (JStr "Software Engineering")) ;;
  resp <- match Py.dget raw "key_responsibilities" (JArr []) with
          | JArr l => str_list "key_responsibilities" l
          | _ => Raise (validation_error "key_responsibilities")
          end ;;
  summary <- str_field "summary" summary ;;
  Ok {| skills := skills; experience_level := level; domain := dom;
        engineering_expectations := expectations;
        key_responsibilities := resp; summary := summary |}.

(** *** Resume fitness scoring (fitness_node.py) *)

Definition FITNESS_RETRY_MESSAGE : string :=
  "Your response was not valid JSON. Return ONLY a JSON object, "
  ++ "no markdown fences or extra text.".

(** Lines 122-126: the text handed to [json.loads]. *)
Definition fitness_candidate (content : string) : string :=
  sub_trailing_fence_ws (sub_leading_json_fence (strip content)).

Inductive fitness_loop : Type :=
| FitnessParsed (result : JSON)      (* [break] *)
| FitnessParseFailed                 (* the [return] of line 139 *)
| FitnessExhausted.                  (* the loop ran out of attempts *)

Fixpoint fitness_attempts (llm : generator) (attempts : list nat)
  (messages : list message) (calls : list (list message))
  : res fitness_loop * list (list message) :=
  match attempts with
  | [] => (Ok FitnessExhausted, calls)
  | attempt :: rest =>
      match llm messages with
      | Raise e => (Raise e, (calls ++ [messages])%list)
      | Ok content =>
          let calls := (calls ++ [messages])%list in
          match json_loads E (fitness_candidate content) with
          | Some result => (Ok (FitnessParsed result), calls)
          | None =>
              if attempt =? 0 then
                fitness_attempts llm rest
                  (messages ++ [(HumanMessage, FITNESS_RETRY_MESSAGE)])%list
                  calls
              else (Ok FitnessParseFailed, calls)
          end
      end
  end.

Definition VERDICTS : list string :=
  [ "strong_fit"; "good_fit"; "partial_fit"; "weak_fit" ].

(** Lines 147-148: a verdict outside the four known ones becomes
    [partial_fit]. *)
Definition known_verdict (verdict : JSON) : JSON :=
  match verdict with
  | JStr v => if mem v VERDICTS then verdict else JStr "partial_fit"
  | _ => JStr "partial_fit"
  end.

(** Lines 144-158: the normalised fitness result. *)
Definition fitness_normalize (result : JSON) : res dict :=
  raw_score <- Py.get result "fitness_score" (JInt 0) ;;
  score <- py_float raw_score ;;
  let fitness_score := Py.max2 (JInt 0) (Py.min2 (JInt 100) (JFloat score)) in
  verdict <- Py.get result "verdict" (JStr "weak_fit") ;;
  let verdict := known_verdict verdict in
  matched <- Py.get result "matched_skills" (JArr []) ;;
  matched <- Py.slice_to 20 matched ;;
  missing <- Py.get result "missing_skills" (JArr []) ;;
  missing <- Py.slice_to 15 missing ;;
  strengths <- Py.get result "strengths" (JArr []) ;;
  strengths <- Py.slice_to 10 strengths ;;
  improvements <- Py.get result "improvements" (JArr []) ;;
  improvements <- Py.slice_to 10 improvements ;;
  feedback <- Py.get result "detailed_feedback" (JStr "") ;;
  Ok [ ("fitness_score", fitness_score);
       ("verdict", verdict);
       ("matched_skills", matched);
       ("missing_skills", missing);
       ("strengths", strengths);
       ("improvements", improvements);
       ("detailed_feedback", JStr (take n5000 (py_str feedback))) ].

(** The handler of line 163; building its error list can itself raise. *)
Definition fitness_failed (state : dict) (e : exn) : res dict :=
  errs <- errors_plus state
            ("Fitness evaluation failed: " ++ take n200 (exn_str e)) ;;
  Ok [ ("fitness_result", JNull); ("errors", errs) ].

Definition fitness_scorer_node (state : dict) (llm : generator) : outcome :=
  match initial_messages Fitness state with
  | Raise e => (fitness_failed state e, [])
  | Ok messages =>
      match fitness_attempts llm [0; 1] messages [] with
      | (Raise e, calls) => (fitness_failed state e, calls)
      | (Ok FitnessParseFailed, calls) =>
          match errors_plus state "Failed to parse fitness evaluation" with
          | Ok errs => (Ok [ ("fitness_result", JNull); ("errors", errs) ], calls)
          | Raise e => (fitness_failed state e, calls)
          end
      | (Ok FitnessExhausted, calls) =>
          (fitness_failed state
             (Exn OtherError "name 'result' is not defined"), calls)
      | (Ok (FitnessParsed result), calls) =>
          match fitness_normalize result with
          | Ok fitness_result => (Ok [ ("fitness_result", JObj fitness_result) ], calls)
          | Raise e => (fitness_failed state e, calls)
          end
      end
  end.

(** *** Capstone ideas (capstone_node.py) *)

Definition CAPSTONE_RETRY_MESSAGE : string :=
  "Your response was not valid JSON. Return ONLY the JSON object with no markdown.".

Definition capstone_candidate (content : string) : string :=
  strip_fence_block (strip content).

(** The loop of lines 56-71; the generator is invoked again inside the
    handler of the first failure. *)
Fixpoint capstone_attempts (llm : generator) (attempts : list nat)
  (messages : list message) (response : string)
  (calls : list (list message))
  : res (JSON * string) * list (list message) :=
  match attempts with
  | [] => (Ok (JNull, response), calls)
  | attempt :: rest =>
      match json_loads E (capstone_candidate response) with
      | Some parsed => (Ok (parsed, response), calls)
      | None =>
          if attempt =? 0 then
            let messages :=
              (messages ++ [(HumanMessage, CAPSTONE_RETRY_MESSAGE)])%list in
            match llm messages with
            | Raise e => (Raise e, (calls ++ [messages])%list)
            | Ok response' =>
                capstone_attempts llm rest messages response'
                  (calls ++ [messages])%list
            end
          else capstone_attempts llm rest messages response calls
      end
  end.

Definition capstone_failed (e : exn) : dict :=
  [ ("errors", JArr [JStr ("Capstone generation failed: " ++ exn_str e)]);
    ("current_phase", JStr "capstone_generation_failed");
    ("messages", JArr []) ].

Definition capstone_projects (parsed : JSON) : JSON :=
  match parsed with
  | JNull => JArr []
  | JObj d =>
      match Py.lookup "projects" d with
      | Some projects => projects
      | None => JArr []
      end
  | JArr _ => parsed
  | _ => JArr []
  end.

Definition capstone_generator_node (state : dict) (llm : generator) : outcome :=
  match initial_messages Capstone state with
  | Raise e => (Ok (capstone_failed e), [])
  | Ok messages =>
      match llm messages with
      | Raise e => (Ok (capstone_failed e), [messages])
      | Ok response =>
          match capstone_attempts llm [0; 1] messages response [messages] with
          | (Raise e, calls) => (Ok (capstone_failed e), calls)
          | (Ok (parsed, response), calls) =>
              let projects := capstone_projects parsed in
              match Py.len projects with
              | Raise e => (Ok (capstone_failed e), calls)
              | Ok _ =>
                  (Ok [ ("generated_projects", projects);
                        ("current_phase", JStr "capstone_generation_complete");
                        ("messages", JArr [JStr response]) ], calls)
              end
          end
      end
  end.

(** *** Scaffold generation (scaffold_node.py) *)

(** Lines 68-71: [re.search(r"```(?:json)?\s*\n?(.*?)\n?```", cleaned,
    re.DOTALL)] matches at the first fence that has a closing fence after
    its tag and white space; the group, once stripped, is the text
    between the two. *)
Definition scaffold_candidate (content : string) : string :=
  let cleaned := strip content in
  match find FENCE cleaned with
  | Some i =>
      let r := drop (i + 3) cleaned in
      let r := if startswith "json" r then drop 4 r else r in
      let r := drop_while isspace r in
      match find FENCE r with
      | Some j => strip (take j r)
      | None => cleaned
      end
  | None => cleaned
  end.

Definition _parse_scaffold_response (content : string) : res JSON :=
  result <- loads (scaffold_candidate content) ;;
  match result with
  | JObj d =>
      match Py.lookup "files" d with
      | Some (JArr _) => Ok result
      | _ => Raise (Exn ValueError "Scaffold response missing 'files' array")
      end
  | _ => Raise (Exn ValueError "Scaffold response is not a JSON object")
  end.

(** [_sanitize_path(v)]: [strip] is a method of strings only. *)
Definition sanitize_path_value (v : JSON) : res (option string) :=
  match v with
  | JStr path => Ok (_sanitize_path path)
  | _ => Raise (Py.attribute_error v "strip")
  end.

Definition generated_file (path : string) (raw_file : dict) : JSON :=
  JObj [ ("path", JStr path);
         ("content", JStr (py_str (Py.dget raw_file "content" (JStr ""))));
         ("language", JStr (take 30 (py_str (Py.dget raw_file "language" (JStr "text")))));
         ("description", JStr (take 300 (py_str (Py.dget raw_file "description" (JStr ""))))) ].

(** The loop of lines 89-110 with [files] and [total_size] as its state;
    [continue] goes on with the rest, [break] returns. *)
Fixpoint scaffold_files (raw_files : list JSON) (files : list JSON)
  (total_size : Z) : res (list JSON) :=
  match raw_files with
  | [] => Ok files
  | JObj raw_file :: rest =>
      path <- sanitize_path_value (Py.dget raw_file "path" (JStr "")) ;;
      match path with
      | None | Some "" => scaffold_files rest files total_size
      | Some path =>
          let content := py_str (Py.dget raw_file "content" (JStr "")) in
          let total_size := (total_size + utf8_len content)%Z in
          if (MAX_SCAFFOLD_CONTENT_BYTES <? total_size)%Z then Ok files
          else scaffold_files rest
                 (files ++ [generated_file path raw_file])%list total_size
      end
  | _ :: rest => scaffold_files rest files total_size
  end.

Definition is_name_char (c : ascii) : bool :=
  let n := nat_of_ascii c in
  ((97 <=? n) && (n <=? 122)) || ((48 <=? n) && (n <=? 57)) || (n =? 45).

Definition safe_project_name (v : JSON) : string :=
  let name := take 80 (filter_chars is_name_char (lower (py_str v))) in
  if String.eqb name "" then "scaffold-project" else name.

Definition _validate_scaffold (scaffold : JSON) : res dict :=
  raw_files <- Py.get scaffold "files" (JArr []) ;;
  raw_files <- Py.iter raw_files ;;
  files <- scaffold_files raw_files [] 0 ;;
  name <- Py.get scaffold "project_name" (JStr "scaffold-project") ;;
  tree <- Py.get scaffold "file_tree" (JStr "") ;;
  Ok [ ("project_name", JStr (safe_project_name name));
       ("files", JArr files);
       ("file_tree", JStr (take n5000 (py_str tree))) ].

Definition scaffold_failed (e : exn) : dict :=
  [ ("errors",
     JArr [JStr (if is_JSONDecodeError e
                 then "Scaffold generation failed: invalid LLM response"
                 else "Scaffold generation failed: " ++ exn_str e)]);
    ("current_phase", JStr "scaffold_generation_failed");
    ("messages", JArr []) ].

Definition scaffold_generator_node (state : dict) (llm : generator) : outcome :=
  match initial_messages Scaffold state with
  | Raise e => (Ok (scaffold_failed e), [])
  | Ok messages =>
      match llm messages with
      | Raise e => (Ok (scaffold_failed e), [messages])
      | Ok response =>
          let body :=
            raw_scaffold <- _parse_scaffold_response response ;;
            validated <- _validate_scaffold raw_scaffold ;;
            Ok [ ("scaffold_files", Py.dget validated "files" JNull);
                 ("scaffold_file_tree", Py.dget validated "file_tree" JNull);
                 ("scaffold_project_name", Py.dget validated "project_name" JNull);
                 ("current_phase", JStr "scaffold_generation_complete");
                 ("messages", JArr [JStr response]) ] in
          match body with
          | Ok d => (Ok d, [messages])
          | Raise e => (Ok (scaffold_failed e), [messages])
          end
      end
  end.

(** *** Repository scorecard (repo_node.py) *)

Definition REPO_RETRY_MESSAGE : string :=
  "Your response was not valid JSON. Return ONLY a JSON object with "
  ++ "no markdown fences or extra text.".

Definition UNABLE : string := "Unable to parse".

Definition default_dimension : JSON :=
  JObj [ ("score", JFloat 5); ("details", JStr UNABLE); ("suggestions", JArr []) ].

Definition scorecard_defaults (content : string) : JSON :=
  JObj [ ("code_quality", default_dimension);
         ("test_coverage", default_dimension);
         ("complexity", default_dimension);
         ("structure", default_dimension);
         ("deployment_readiness", default_dimension);
         ("overall_score", JFloat 5);
         ("summary",
          JStr (if String.eqb content ""
                then "Analysis completed but response parsing failed."
                else take n500 content));
         ("top_improvements", JArr [JStr "Retry analysis for detailed feedback"]) ].

(** Lines 49-54: the text handed to [json.loads]. *)
Definition scorecard_candidate (content : string) : string :=
  let content := strip content in
  if startswith FENCE content then
    let lines := split_where (Ascii.eqb nl) content in
    let body :=
      if String.eqb (strip (last lines "")) FENCE
      then removelast (tl lines) else tl lines in
    strip (join (chr nl) body)
  else content.

Definition _parse_scorecard (content : string) : JSON :=
  let content := scorecard_candidate content in
  match json_loads E content with
  | Some v => v
  | None =>
      let second :=
        match find_char "{" content, rfind_char "}" content with
        | Some start, Some e =>
            if start <? S e
            then json_loads E (substring start (S e) content)
            else None
        | _, _ => None
        end in
      match second with
      | Some v => v
      | None => scorecard_defaults content
      end
  end.

(** [all(scorecard.get(k, {}).get("details") == "Unable to parse" for k
    in keys)], which stops at the first key that fails the test. *)
Fixpoint all_unable (scorecard : JSON) (keys : list string) : res bool :=
  match keys with
  | [] => Ok true
  | k :: rest =>
      dim <- Py.get scorecard k (JObj []) ;;
      details <- Py.get dim "details" JNull ;;
      match details with
      | JStr d => if String.eqb d UNABLE then all_unable scorecard rest else Ok false
      | _ => Ok false
      end
  end.

(** The condition of lines 139-144. *)
Definition looks_like_fallback (attempt : nat) (scorecard : JSON) : res bool :=
  summary <- Py.get scorecard "summary" (JStr "") ;;
  match summary with
  | JStr text =>
      if startswith UNABLE text then Ok true
      else if attempt =? 0
           then all_unable scorecard ["code_quality"; "test_coverage"; "complexity"]
           else Ok false
  | _ => Raise (Py.attribute_error summary "startswith")
  end.

Fixpoint repo_attempts (llm : generator) (attempts : list nat)
  (messages : list message) (scorecard : JSON)
  (calls : list (list message))
  : res JSON * list (list message) :=
  match attempts with
  | [] => (Ok scorecard, calls)
  | attempt :: rest =>
      match llm messages with
      | Raise e => (Raise e, (calls ++ [messages])%list)
      | Ok content =>
          let calls := (calls ++ [messages])%list in
          let scorecard := _parse_scorecard content in
          match looks_like_fallback attempt scorecard with
          | Raise e => (Raise e, calls)
          | Ok true =>
              if attempt =? 0 then
                repo_attempts llm rest
                  (messages ++ [(HumanMessage, REPO_RETRY_MESSAGE)])%list
                  scorecard calls
              else (Ok scorecard, calls)
          | Ok false => (Ok scorecard, calls)
          end
      end
  end.

Definition repo_failed (state : dict) (msg : string) : res dict :=
  errs <- errors_plus state msg ;;
  Ok [ ("current_phase", JStr "repo_analysis_failed"); ("errors", errs) ].

(** The three handlers of lines 171-188. *)
Definition repo_handler (state : dict) (e : exn) : res dict :=
  match exn_kind_of e with
  | ValueError | JSONDecodeError | RuntimeError => repo_failed state (exn_str e)
  | _ => repo_failed state "Repository analysis encountered an error"
  end.

Definition with_metadata (scorecard : JSON) (repo_url : JSON)
  (result : RepoAnalysisResult) : res JSON :=
  match scorecard with
  | JObj d =>
      Ok (JObj (Py.set "total_lines" (estimated_loc result)
               (Py.set "total_files" (total_files result)
               (Py.set "primary_language" (primary_language result)
               (Py.set "repo_name" (full_name result)
               (Py.set "repo_url" repo_url d))))))
  | _ => Raise (Exn TypeError
                  ("'" ++ Py.type_name scorecard
                   ++ "' object does not support item assignment"))
  end.

Definition repo_analysis_node (state : dict) (llm : generator) : outcome :=
  let repo_url := Py.dget state "repo_url" JNull in
  if negb (Py.truthy repo_url) then
    (repo_failed state "No repository URL provided", [])
  else
    match analyze_github_repo E repo_url with
    | Raise e => (repo_handler state e, [])
    | Ok result =>
        match initial_messages RepoScorecard state with
        | Raise e => (repo_handler state e, [])
        | Ok messages =>
            match repo_attempts llm [0; 1] messages JNull [] with
            | (Raise e, calls) => (repo_handler state e, calls)
            | (Ok scorecard, calls) =>
                match with_metadata scorecard repo_url result with
                | Raise e => (repo_handler state e, calls)
                | Ok scorecard =>
                    (Ok [ ("repo_scorecard", scorecard);
                          ("current_phase", JStr "repo_analysis_complete");
                          ("messages", JArr []) ], calls)
                end
            end
        end
    end.

(** *** Portfolio materials (portfolio_node.py) *)

Definition MAX_README_LENGTH : nat := N.to_nat 20000.
Definition MAX_BULLET_LENGTH : nat := 300.
Definition MAX_POST_BODY_LENGTH : nat := N.to_nat 3000.
Definition MAX_DEMO_STEPS : nat := 15.

Definition _parse_portfolio_response (raw : string) : res JSON :=
  let text := strip_fence_block (strip raw) in
  match json_loads E text with
  | Some data => Ok data
  | None =>
      let e := json_error E text in
      match find_char "{" text, rfind_char "}" text with
      | Some start, Some stop =>
          if start <? S stop then
            match json_loads E (substring start (S stop) text) with
            | Some data => Ok data
            | None => Raise (Exn ValueError
                               ("Invalid JSON in portfolio response: " ++ e))
            end
          else Raise (Exn ValueError
                        ("No JSON object found in portfolio response: " ++ e))
      | _, _ => Raise (Exn ValueError
                         ("No JSON object found in portfolio response: " ++ e))
      end
  end.

(** The bullets that lines 82-89 keep. *)
Fixpoint valid_bullets (bullets : list JSON) : list JSON :=
  match bullets with
  | [] => []
  | JObj b :: rest =>
      if Py.truthy (Py.dget b "bullet" JNull) then
        JObj [ ("bullet", JStr (take MAX_BULLET_LENGTH (py_str (Py.dget b "bullet" JNull))));
               ("keywords", Py.dget b "keywords" (JArr []));
               ("impact_type", Py.dget b "impact_type" (JStr "technical")) ]
        :: valid_bullets rest
      else valid_bullets rest
  | _ :: rest => valid_bullets rest
  end.

Definition _validate_portfolio (data : JSON) : res JSON :=
  match data with
  | JObj data =>
      let data :=
        match Py.dget data "readme_markdown" (JStr "") with
        | JStr readme =>
            if negb (String.eqb readme "") && (MAX_README_LENGTH <? String.length readme)
            then Py.set "readme_markdown" (JStr (take MAX_README_LENGTH readme)) data
            else data
        | _ => data
        end in
      let data :=
        match Py.dget data "resume_bullets" (JArr []) with
        | JArr (b :: bs) => Py.set "resume_bullets" (JArr (valid_bullets (b :: bs))) data
        | _ => data
        end in
      let data :=
        match Py.dget data "demo_script" (JObj []) with
        | JObj demo =>
            let demo :=
              match Py.dget demo "steps" (JArr []) with
              | JArr steps =>
                  if MAX_DEMO_STEPS <? List.length steps
                  then Py.set "steps" (JArr (firstn MAX_DEMO_STEPS steps)) demo
                  else demo
              | _ => demo
              end in
            Py.set "demo_script" (JObj demo) data
        | _ => data
        end in
      let data :=
        match Py.dget data "linkedin_post" (JObj []) with
        | JObj post =>
            let body := py_str (Py.dget post "body" (JStr "")) in
            let post :=
              if MAX_POST_BODY_LENGTH <? String.length body
              then Py.set "body" (JStr (take MAX_POST_BODY_LENGTH body)) post
              else post in
            Py.set "linkedin_post" (JObj post) data
        | _ => data
        end in
      Ok (JObj data)
  | _ => Raise (Py.attribute_error data "get")
  end.

Definition portfolio_error (err : string) : dict :=
  [ ("current_phase", JStr "portfolio_error");
    ("errors", JArr [JStr err]);
    ("messages", JArr [JStr ("Portfolio error: " ++ err)]) ].

Definition portfolio_optimizer_node (state : dict) (llm : generator) : outcome :=
  let title := Py.dget state "portfolio_project_title" (JStr "") in
  let description := Py.dget state "portfolio_project_description" (JStr "") in
  if negb (Py.truthy title) || negb (Py.truthy description) then
    (Ok (portfolio_error
           "portfolio_project_title and portfolio_project_description are required"),
     [])
  else
    match user_prompt E Portfolio state with
    | Raise e => (Raise e, [])
    | Ok prompt =>
        let messages :=
          [ (SystemMessage, system_prompt E Portfolio); (HumanMessage, prompt) ] in
        match llm messages with
        | Raise e =>
            (Ok (portfolio_error ("LLM call failed: " ++ exn_str e)), [messages])
        | Ok raw =>
            match (parsed <- _parse_portfolio_response raw ;;
                   _validate_portfolio parsed) with
            | Ok validated =>
                (Ok [ ("portfolio_output", validated);
                      ("current_phase", JStr "portfolio_complete");
                      ("messages",
                       JArr [JStr ("Portfolio materials generated in "
                                   ++ elapsed_ms E ++ "ms")]) ],
                 [messages])
            | Raise e =>
                match exn_kind_of e with
                | ValueError | JSONDecodeError | KeyError =>
                    (Ok (portfolio_error
                           ("Failed to parse portfolio response: " ++ exn_str e)),
                     [messages])
                | _ => (Raise e, [messages])
                end
            end
        end
    end.

End Nodes.

(** ** The scorecard endpoint (api/v1/repo.py) *)

Definition n1000 : nat := N.to_nat 1000.

(** [ScoreDimension] (schemas/repo.py lines 33-39). *)
Record ScoreDimension : Type := {
  dimension_name : string;
  dimension_score : Q;
  dimension_details : string;
  dimension_suggestions : list string
}.

(** [_safe_parse_dimension] (lines 33-40): the arguments in the order of
    the call, then the validation of the model, whose score lies between 0
    and 10. *)
Definition _safe_parse_dimension (E : Externals) (raw : JSON) (name : string)
  : res ScoreDimension :=
  s <- Py.get raw "score" (JFloat 5) ;;
  score <- py_float E s ;;
  d <- Py.get raw "details" (JStr "") ;;
  details <- Py.slice_to n1000 d ;;
  sg <- Py.get raw "suggestions" (JArr []) ;;
  suggestions <- Py.slice_to 5 sg ;;
  score <- bounded_field "score" 0 10 score ;;
  details <- str_field "details" details ;;
  suggestions <- match suggestions with
                 | JArr l => str_list "suggestions" l
                 | _ => Raise (validation_error "suggestions")
                 end ;;
  Ok {| dimension_name := name; dimension_score := score;
        dimension_details := details; dimension_suggestions := suggestions |}.

(** [d.pop(k, None)]: what is left of the dict. *)
Fixpoint without (k : string) (d : dict) : dict :=
  match d with
  | [] => []
  | (k', v) :: d' => if String.eqb k k' then d' else (k', v) :: without k d'
  end.

(** The body of the loop of [list_analyses] (lines 244-247): the stored
    scorecard is taken out of the record and its overall score put in. *)
Definition listed_analysis (E : Externals) (a : dict) : res dict :=
  let scorecard := Py.or_else (Py.dget a "scorecard" JNull) (JObj []) in
  s <- Py.get scorecard "overall_score" (JInt 0) ;;
  overall_score <- py_float E s ;;
  Ok (Py.set "overall_score" (JFloat overall_score) (without "scorecard" a)).

(** ** The extraction under a parser that may raise any exception

    [json.loads] raises [JSONDecodeError] on a text that is no JSON, and it
    can raise other exceptions: [RecursionError] on a deeply nested text,
    [ValueError] on a number with more digits than the interpreter
    converts.  [_try_extract_json] (api/v1/jd.py lines 48-69) is given here
    for a parser with any outcome; its clause
    [except (json.JSONDecodeError, TypeError)] catches these two kinds and
    lets any other exception pass. *)

Module AnyParser.

Definition caught (e : exn) : bool :=
  match exn_kind_of e with
  | JSONDecodeError | TypeError => true
  | _ => false
  end.

Definition _try_extract_json (parse : string -> res JSON) (text : string)
  : res (option dict) :=
  if String.length text <? 10 then Ok None
  else
    let clean := _strip_markdown_fences text in
    match find_char "{" clean with
    | None => Ok None
    | Some brace_start =>
        match rfind_char "}" clean with
        | None => Ok None
        | Some brace_end =>
            if brace_end <=? brace_start then Ok None
            else
              let candidate := substring brace_start (S brace_end) clean in
              match parse candidate with
              | Ok (JObj parsed) => Ok (Some parsed)
              | Ok _ => Ok None
              | Raise e => if caught e then Ok None else Raise e
              end
        end
    end.

End AnyParser.

(** A parser that raises on every text. *)
Definition raising_parser (e : exn) : string -> res JSON := fun _ => Raise e.

(** ** Externals for worked examples

    [json.loads] is the reader above; the other entries are fixed texts,
    enough to run the nodes on the states and answers of the examples.
    They are no model of the Python runtime: the reader knows neither the
    escape [\u] nor the literals [NaN] and [Infinity], which no answer of
    the examples holds. *)

(** [float(s)] on the decimal texts: blanks around an optional sign, digits
    with an optional fraction, an optional exponent.  The underscores
    between digits and the words [inf] and [nan] that Python accepts too
    are not read. *)
Definition float_of_text (s : string) : option Q :=
  let s := strip s in
  let (negative, s1) :=
    match s with
    | String "-" r => (true, r)
    | String "+" r => (false, r)
    | _ => (false, s)
    end in
  let '(whole, n_whole, s2) := JsonReader.digits 0 0 s1 in
  let '(mantissa, n_fraction, s3) :=
    match s2 with
    | String "." r => JsonReader.digits whole 0 r
    | _ => (whole, 0, s2)
    end in
  if n_whole + n_fraction =? 0 then None
  else
    let exponent :=
      match s3 with
      | "" => Some 0%Z
      | String e r =>
          if Ascii.eqb e "e" || Ascii.eqb e "E" then
            let (minus, r1) :=
              match r with
              | String "-" r' => (true, r')
              | String "+" r' => (false, r')
              | _ => (false, r)
              end in
            match JsonReader.digits 0 0 r1 with
            | (_, O, _) => None
            | (ev, S _, "") => Some (if minus then (- ev)%Z else ev)
            | (_, S _, String _ _) => None
            end
          else None
      end in
    match exponent with
    | None => None
    | Some ev =>
        let m := if negative then (- mantissa)%Z else mantissa in
        match PyFloat.round64
                (Qmult (inject_Z m)
                   (Qpower (inject_Z 10) (ev - Z.of_nat n_fraction))) with
        | PyFloat.Finite x => Some x
        | PyFloat.Infinity _ => None
        end
    end.
Definition example_externals : Externals := {|
  json_loads := JsonReader.loads;
  json_error := fun _ => "Expecting value: line 1 column 1 (char 0)";
  str_of_value := fun v => "<" ++ Py.type_name v ++ ">";
  float_of_str := float_of_text;
  system_prompt := fun _ => "system prompt";
  user_prompt := fun _ _ => Ok "user prompt";
  analyze_github_repo := fun _ =>
    Ok {| full_name := JStr "owner/repo"; primary_language := JStr "Python";
          total_files := JInt 12; estimated_loc := JInt 3400 |};
  elapsed_ms := "0"
|}.

(** ** Vocabulary of the specification *)

(** The parts of a trimmed path. *)
Definition segments (p : string) : list string := split_where is_path_sep p.

(** The extension the filter looks up, for a filename that has one. *)
Definition extension (filename : string) : option string :=
  if contains_char "." filename
  then Some ("." ++ lower (rsplit1_last "." filename))
  else None.

(** A parent-directory reference, a home reference or a deny-listed
    directory name. *)
Definition forbidden_segment (s : string) : Prop := In s FORBIDDEN_PATH_PARTS.

(** A dot-prefixed segment that is not on the allow-list. *)
Definition unlisted_dot_segment (s : string) : Prop :=
  startswith "." s = true /\ ~ In s ALLOWED_DOT_PARTS.

(** The reasons for which the specification has a path rejected, read on
    the path after the trimming of line 38. *)
Definition path_rejected (p : string) : Prop :=
  p = ""
  \/ 300 < String.length p
  \/ (exists s, In s (segments p) /\ forbidden_segment s)
  \/ (exists s, In s (segments p) /\ unlisted_dot_segment s)
  \/ (exists ext, extension (last (segments p) "") = Some ext
                  /\ ~ In ext ALLOWED_EXTENSIONS).

(** The candidates of the byte budget: the entries of [files] that are
    dicts with an accepted path, in the order of the list, each with its
    sanitised path. *)
Fixpoint candidates (raw_files : list JSON) : list (string * dict) :=
  match raw_files with
  | [] => []
  | JObj raw_file :: rest =>
      match Py.dget raw_file "path" (JStr "") with
      | JStr p =>
          match _sanitize_path p with
          | None | Some "" => candidates rest
          | Some path => (path, raw_file) :: candidates rest
          end
      | _ => candidates rest
      end
  | _ :: rest => candidates rest
  end.

(** The UTF-8 size of a candidate's content and of a list of candidates. *)
Definition content_size (E : Externals) (c : string * dict) : Z :=
  utf8_len (py_str E (Py.dget (snd c) "content" (JStr ""))).

Definition cumulative_size (E : Externals) (l : list (string * dict)) : Z :=
  fold_right (fun c acc => (content_size E c + acc)%Z) 0%Z l.

(** The file built from an accepted candidate. *)
Definition accepted_file (E : Externals) (c : string * dict) : JSON :=
  generated_file E (fst c) (snd c).

(** How many candidates fit, starting from a running total. *)
Fixpoint fitting (E : Externals) (l : list (string * dict)) (total : Z) : nat :=
  match l with
  | [] => 0
  | c :: rest =>
      if (MAX_SCAFFOLD_CONTENT_BYTES <? total + content_size E c)%Z then 0
      else S (fitting E rest (total + content_size E c)%Z)
  end.

(** Every dict entry has a string (or no) path. *)
Definition paths_are_text (raw_files : list JSON) : Prop :=
  forall raw_file, In (JObj raw_file) raw_files ->
                   is_str (Py.dget raw_file "path" (JStr "")) = true.

(** A scaffold payload for the worked examples: four files, the second
    with a path that the filter rejects. *)
Definition text_file (path content : string) : JSON :=
  JObj [ ("path", JStr path); ("content", JStr content) ].

Definition sample_files (first third : string) : list JSON :=
  [ text_file "a.txt" first; text_file "../b.txt" "skipped";
    text_file "c.txt" third; text_file "d.txt" "z" ].

(** The five archetypes of the modifier table. *)
Definition KNOWN_COMPANY_TYPES : list string := map fst COMPANY_MODIFIERS.

(** A weight that the company step can add a float to: a float, a bool,
    or an int within the range of the floats. *)
Definition plain_weight (w : JSON) : Prop :=
  match w with
  | JInt z => (Z.abs z < 2 ^ 1023)%Z
  | JFloat _ | JBool _ => True
  | _ => False
  end.

(** A skill as the JD analysis is asked to produce it: a dict whose name,
    when present, is a string and whose weight, when present, is such a
    number. *)
Definition well_formed_skill (skill : JSON) : Prop :=
  match skill with
  | JObj d =>
      match Py.lookup "name" d with
      | Some (JStr _) | None => True
      | Some _ => False
      end
      /\ match Py.lookup "weight" d with
         | Some w => plain_weight w
         | None => True
         end
  | _ => False
  end.

(** The weight of a skill dict, when present, is a plain one. *)
Definition weight_is_plain (d : dict) : Prop :=
  match Py.lookup "weight" d with
  | Some w => plain_weight w
  | None => True
  end.

(** A keyed skill whose sort key is a number. *)
Definition number_key (p : JSON * JSON) : Prop := Py.num_val (fst p) <> None.

(** The entry [mid_level] of the table, written out as the company step
    returns it under a label (company_node.py lines 34-51). *)
Definition MID_LEVEL_ADJUSTMENTS : list (string * Q) :=
  [ ("clean code", 3%Q); ("testing", (5 # 2)%Q); ("design patterns", 2%Q);
    ("code review", (3 # 2)%Q); ("documentation", (3 # 2)%Q) ].

Definition MID_LEVEL_OUTPUT (label : string) : JSON :=
  JObj
    [ ("company_type", JStr label);
      ("emphasis_areas",
       JArr [ JStr "Clean architecture"; JStr "Code quality"; JStr "Testing";
              JStr "Design patterns"; JStr "Team collaboration" ]);
      ("weight_adjustments",
       JObj [ ("clean code", JFloat 3); ("testing", JFloat (5 # 2));
              ("design patterns", JFloat 2); ("code review", JFloat (3 # 2));
              ("documentation", JFloat (3 # 2)) ]);
      ("portfolio_focus",
       JStr ("Show well-structured projects with tests, CI, and clean code. "
             ++ "Emphasize maintainability, modularity, and code quality "
             ++ "metrics.")) ].

(** What the company step returns for a profile under the [mid_level]
    entry and a label. *)
Definition mid_level_result (label : string) (profile : JSON) : dict :=
  [ ("skill_profile", profile);
    ("company_modifiers", MID_LEVEL_OUTPUT label);
    ("current_phase", JStr "company_logic_complete");
    ("messages", JArr []) ].

(** An outcome of the company step with the label of its modifiers
    replaced. *)
Definition under_label (label : string) (r : res dict) : res dict :=
  match r with
  | Ok out => Ok (Py.set "company_modifiers" (MID_LEVEL_OUTPUT label) out)
  | Raise e => Raise e
  end.

(** What the company node returns once the modifiers are chosen. *)
Definition company_result (label : string) (m : modifiers) (profile : JSON)
  : dict :=
  [ ("skill_profile", profile);
    ("company_modifiers", modifiers_dict label m);
    ("current_phase", JStr "company_logic_complete");
    ("messages", JArr []) ].

(** A state with a company type that the table does not know. *)
Definition unicorn_profile : dict :=
  [ ("skills",
     JArr [ JObj [("name", JStr "Python"); ("weight", JInt 9)];
            JObj [("name", JStr "Unit Testing"); ("weight", JInt 7)] ]) ].

Definition unicorn_state : dict :=
  [ ("company_type", JStr "Unicorn"); ("skill_profile", JObj unicorn_profile) ].

(** A text in which [body] stands between a stretch without opening brace
    and a stretch without closing brace. *)
Definition framed (body s : string) : Prop :=
  exists pre post,
    s = pre ++ body ++ post
    /\ contains_char "{" pre = false
    /\ contains_char "}" post = false.

(** The text of a JSON object: what stands between its two braces. *)
Definition braced (inner : string) : string := "{" ++ inner ++ "}".

(** The slice between the first opening and the last closing brace of a
    text, when the two exist in that order. *)
Definition outermost_braces (s : string) : option string :=
  match find_char "{" s, rfind_char "}" s with
  | Some start, Some stop =>
      if stop <=? start then None else Some (substring start (S stop) s)
  | _, _ => None
  end.

(** The answer of the end-to-end scenario: a fenced payload with one skill
    of weight 15. *)
Definition python_payload : string :=
  q "{'skills':[{'name':'Python','weight':15}]}".

Definition fenced_python_payload : string :=
  "```json" ++ chr nl ++ python_payload ++ chr nl ++ "```".

(** A generator that gives the same answer whatever it is asked. *)
Definition always (answer : string) : generator := fun _ => Ok answer.

(** The state update of the graph: the keys a node returns replace those of
    the state (the message log is accumulated apart and plays no role
    here). *)
Definition merge_state (state update : dict) : dict :=
  fold_left
    (fun st kv => if String.eqb (fst kv) "messages" then st
                  else Py.set (fst kv) (snd kv) st)
    update state.

(** The JD pipeline up to the response of the endpoint (orchestrator.py
    [build_jd_pipeline] and [_route_after_company], jd.py lines 195-247):
    JD analysis, then the company step, then, unless the state has errors,
    the capstone step; errors in the final state end the request with an
    HTTP error, otherwise the skill profile of the final state is
    re-validated. *)
Definition jd_pipeline_profile (E : Externals) (state : dict) (llm : generator)
  : res SkillProfile :=
  analysed <- result_of (jd_analysis_node E state llm) ;;
  let state := merge_state state analysed in
  adjusted <- company_logic_node state ;;
  let state := merge_state state adjusted in
  final_state <-
    (if Py.truthy (Py.dget state "errors" (JArr [])) then Ok state
     else generated <- result_of (capstone_generator_node E state llm) ;;
          Ok (merge_state state generated)) ;;
  if Py.truthy (Py.dget final_state "errors" (JArr []))
  then Raise (Exn OtherError "HTTP 422: Analysis could not be completed.")
  else _safe_parse_skill_profile E (Py.dget final_state "skill_profile" (JObj [])).

(** The state of a JD request for a company type. *)
Definition jd_state (company_type : string) : dict :=
  [ ("jd_text", JStr "We are hiring a backend engineer who knows Python.");
    ("role", JStr "Backend Engineer");
    ("company_type", JStr company_type);
    ("messages", JArr []);
    ("errors", JArr []) ].

(** What [json.loads] makes of the payload of the scenario. *)
Definition python_profile : JSON :=
  JObj [ ("skills", JArr [JObj [("name", JStr "Python"); ("weight", JInt 15)]]) ].

(** The skill that the re-validation builds from it once its weight is 10. *)
Definition python_skill : Skill :=
  {| skill_name := "Python"; skill_category := "concept";
     skill_weight := 10; skill_source := "inferred" |}.

(** *** The six generation tasks, uniformly *)

Definition node (E : Externals) (t : task) : dict -> generator -> outcome :=
  match t with
  | JdAnalysis => jd_analysis_node E
  | Capstone => capstone_generator_node E
  | Scaffold => scaffold_generator_node E
  | Portfolio => portfolio_optimizer_node E
  | Fitness => fitness_scorer_node E
  | RepoScorecard => repo_analysis_node E
  end.

(** The text that a task hands to [json.loads] first. *)
Definition candidate_of (t : task) (answer : string) : string :=
  match t with
  | JdAnalysis => jd_candidate answer
  | Capstone => capstone_candidate answer
  | Scaffold => scaffold_candidate answer
  | Portfolio => strip_fence_block (strip answer)
  | Fitness => fitness_candidate answer
  | RepoScorecard => scorecard_candidate answer
  end.

(** The slice that the portfolio and scorecard parsers try next. *)
Definition brace_slice (s : string) : option string :=
  match find_char "{" s, rfind_char "}" s with
  | Some start, Some stop =>
      if start <? S stop then Some (substring start (S stop) s) else None
  | _, _ => None
  end.

(** An answer from which a task extracts no JSON at all. *)
Definition unparseable (E : Externals) (t : task) (answer : string) : Prop :=
  json_loads E (candidate_of t answer) = None
  /\ match t with
     | Portfolio | RepoScorecard =>
         match brace_slice (candidate_of t answer) with
         | Some slice => json_loads E slice = None
         | None => True
         end
     | _ => True
     end.

(** A generator all of whose answers are unparseable for every task. *)
Definition always_unparseable (E : Externals) (llm : generator) : Prop :=
  forall t messages, exists answer,
    llm messages = Ok answer /\ unparseable E t answer.

Definition retry_message (t : task) : string :=
  match t with
  | JdAnalysis => JD_RETRY_MESSAGE
  | Capstone => CAPSTONE_RETRY_MESSAGE
  | Fitness => FITNESS_RETRY_MESSAGE
  | RepoScorecard => REPO_RETRY_MESSAGE
  | Scaffold | Portfolio => ""
  end.

(** The history of the first attempt and that of the retry. *)
Definition first_history (E : Externals) (t : task) (prompt : string)
  : list message :=
  [ (SystemMessage, system_prompt E t); (HumanMessage, prompt) ].

Definition second_history (E : Externals) (t : task) (prompt : string)
  : list message :=
  (first_history E t prompt ++ [(HumanMessage, retry_message t)])%list.

(** A state from which every task can start: the prompts can be built, the
    error list is a list (or absent), the repository is known and its
    analysis succeeds, the portfolio has its title and description. *)
Definition ready (E : Externals) (state : dict) : Prop :=
  (forall t, exists prompt, user_prompt E t state = Ok prompt)
  /\ (exists l, Py.or_else (Py.dget state "errors" JNull) (JArr []) = JArr l)
  /\ Py.truthy (Py.dget state "repo_url" JNull) = true
  /\ (exists r, analyze_github_repo E (Py.dget state "repo_url" JNull) = Ok r)
  /\ Py.truthy (Py.dget state "portfolio_project_title" (JStr "")) = true
  /\ Py.truthy (Py.dget state "portfolio_project_description" (JStr "")) = true.

(** The results that the nodes have for answers they cannot parse. *)
Definition jd_fallback_result (state : dict) (answer : string) : dict :=
  [ ("skill_profile", jd_fallback state answer);
    ("engineering_expectations", JArr []);
    ("current_phase", JStr "jd_analysis_complete");
    ("messages", JArr [JStr answer]) ].

Definition capstone_fallback_result (answer : string) : dict :=
  [ ("generated_projects", JArr []);
    ("current_phase", JStr "capstone_generation_complete");
    ("messages", JArr [JStr answer]) ].

Definition repo_fallback_result (E : Externals) (state : dict)
  (r : RepoAnalysisResult) (answer : string) : dict :=
  [ ("repo_scorecard",
     match scorecard_defaults (scorecard_candidate answer) with
     | JObj d =>
         JObj (Py.set "total_lines" (estimated_loc r)
              (Py.set "total_files" (total_files r)
              (Py.set "primary_language" (primary_language r)
              (Py.set "repo_name" (full_name r)
              (Py.set "repo_url" (Py.dget state "repo_url" JNull) d)))))
     | v => v
     end);
    ("current_phase", JStr "repo_analysis_complete");
    ("messages", JArr []) ].

Definition fitness_parse_failure (errors : list JSON) : dict :=
  [ ("fitness_result", JNull);
    ("errors", JArr (errors ++ [JStr "Failed to parse fitness evaluation"])%list) ].

Definition scaffold_parse_failure : dict :=
  [ ("errors", JArr [JStr "Scaffold generation failed: invalid LLM response"]);
    ("current_phase", JStr "scaffold_generation_failed");
    ("messages", JArr []) ].

(** A state for the worked examples, ready for every task. *)
Definition example_state : dict :=
  [ ("jd_text", JStr "We are hiring a backend engineer who knows Python.");
    ("role", JStr "Backend Engineer");
    ("company_type", JStr "startup");
    ("repo_url", JStr "https://github.com/owner/repo");
    ("portfolio_project_title", JStr "Task Manager API");
    ("portfolio_project_description", JStr "A RESTful task management API");
    ("messages", JArr []);
    ("errors", JArr []) ].

Definition REFUSAL : string := "I cannot help with that".

(** Two dicts that hold the same value under every key but [k]. *)
Definition agree_except (k : string) (d1 d2 : dict) : Prop :=
  forall k', k' <> k -> Py.lookup k' d1 = Py.lookup k' d2.

(** The dict under a key of a returned dict ([[]] when there is none). *)
Definition dict_under (k : string) (result : res dict) : dict :=
  match result with
  | Ok d => match Py.lookup k d with Some (JObj inner) => inner | _ => [] end
  | Raise _ => []
  end.

Definition SORRY : string := "Sorry, no.".

(** What a node returns when a call of the generator raises [e]. *)
Definition failure_result (t : task) (state : dict) (e : exn) : res dict :=
  match t with
  | JdAnalysis => Ok (jd_failed e)
  | Capstone => Ok (capstone_failed e)
  | Scaffold => Ok (scaffold_failed e)
  | Portfolio => Ok (portfolio_error ("LLM call failed: " ++ exn_str e))
  | Fitness => fitness_failed state e
  | RepoScorecard => repo_handler state e
  end.

(** The tasks whose node has a second attempt. *)
Definition retries (t : task) : bool :=
  match t with
  | JdAnalysis | Capstone | Fitness | RepoScorecard => true
  | Scaffold | Portfolio => false
  end.

(** A generator whose first call times out and whose second call would
    return the payload of the scenario. *)
Definition fails_first : generator :=
  fun messages =>
    if List.length messages =? 2
    then Raise (Exn OtherError "Request timed out.")
    else Ok python_payload.

(** *** Runs in which no answer can be parsed *)

(** The attempts of a task on a state: the prompt, the first answer and
    the last answer, which is the answer to the retry for the tasks that
    retry and the first answer for the others.  [json.loads] rejects the
    text of every attempt with a [JSONDecodeError]. *)
Definition unparseable_run (E : Externals) (t : task) (state : dict)
  (llm : generator) (prompt first last : string) : Prop :=
  user_prompt E t state = Ok prompt
  /\ llm (first_history E t prompt) = Ok first
  /\ unparseable E t first
  /\ (if retries t
      then llm (second_history E t prompt) = Ok last /\ unparseable E t last
      else last = first).

(** The histories of such a run. *)
Definition run_histories (E : Externals) (t : task) (prompt : string)
  : list (list message) :=
  if retries t
  then [first_history E t prompt; second_history E t prompt]
  else [first_history E t prompt].

(** What a task reads from the state besides the prompt: the fitness task
    the list of earlier errors, the scorecard task the repository, whose
    analysis succeeds, the portfolio task the title and the description of
    the project. *)
Definition ready_for (E : Externals) (t : task) (state : dict)
  (errors : list JSON) (r : RepoAnalysisResult) : Prop :=
  match t with
  | Fitness =>
      Py.or_else (Py.dget state "errors" JNull) (JArr []) = JArr errors
  | RepoScorecard =>
      Py.truthy (Py.dget state "repo_url" JNull) = true
      /\ analyze_github_repo E (Py.dget state "repo_url" JNull) = Ok r
  | Portfolio =>
      Py.truthy (Py.dget state "portfolio_project_title" (JStr "")) = true
      /\ Py.truthy (Py.dget state "portfolio_project_description" (JStr ""))
         = true
  | JdAnalysis | Capstone | Scaffold => True
  end.

(** The tasks that have a fallback result. *)
Definition has_fallback (t : task) : bool :=
  match t with
  | JdAnalysis | Capstone | RepoScorecard => true
  | Scaffold | Portfolio | Fitness => false
  end.

(** The fallback profile of the JD task (jd_node.py lines 81-90). *)
Definition FALLBACK_PROFILE (state : dict) (last : string) : JSON :=
  JObj [ ("skills", JArr []);
         ("experience_level", JStr "mid");
         ("domain", Py.dget state "role" (JStr "Software Engineering"));
         ("engineering_expectations", JArr []);
         ("key_responsibilities", JArr []);
         ("summary", JStr (take n8000 last)) ].

(** The summary of the fallback scorecard (repo_node.py line 76). *)
Definition fallback_summary (last : string) : string :=
  if String.eqb (scorecard_candidate last) ""
  then "Analysis completed but response parsing failed."
  else take n500 (scorecard_candidate last).

(** The fallback scorecard (repo_node.py lines 68-78) with the metadata of
    the repository (lines 151-156). *)
Definition FALLBACK_SCORECARD (state : dict) (r : RepoAnalysisResult)
  (last : string) : JSON :=
  let unable :=
    JObj [ ("score", JFloat 5); ("details", JStr "Unable to parse");
           ("suggestions", JArr []) ] in
  JObj [ ("code_quality", unable);
         ("test_coverage", unable);
         ("complexity", unable);
         ("structure", unable);
         ("deployment_readiness", unable);
         ("overall_score", JFloat 5);
         ("summary", JStr (fallback_summary last));
         ("top_improvements", JArr [JStr "Retry analysis for detailed feedback"]);
         ("repo_url", Py.dget state "repo_url" JNull);
         ("repo_name", full_name r);
         ("primary_language", primary_language r);
         ("total_files", total_files r);
         ("total_lines", estimated_loc r) ].

(** The text of the error that the portfolio task reports
    (portfolio_node.py lines 47-60 and 190-197). *)
Definition portfolio_parse_error (E : Externals) (last : string) : string :=
  "Failed to parse portfolio response: "
  ++ match brace_slice (candidate_of Portfolio last) with
     | Some _ => "Invalid JSON in portfolio response: "
     | None => "No JSON object found in portfolio response: "
     end
  ++ json_error E (candidate_of Portfolio last).

(** What each task returns at the end of a run in which no answer could be
    parsed. *)
Definition soft_failure_result (E : Externals) (t : task) (state : dict)
  (errors : list JSON) (r : RepoAnalysisResult) (last : string) : dict :=
  match t with
  | JdAnalysis =>
      [ ("skill_profile", FALLBACK_PROFILE state last);
        ("engineering_expectations", JArr []);
        ("current_phase", JStr "jd_analysis_complete");
        ("messages", JArr [JStr last]) ]
  | Capstone =>
      [ ("generated_projects", JArr []);
        ("current_phase", JStr "capstone_generation_complete");
        ("messages", JArr [JStr last]) ]
  | RepoScorecard =>
      [ ("repo_scorecard", FALLBACK_SCORECARD state r last);
        ("current_phase", JStr "repo_analysis_complete");
        ("messages", JArr []) ]
  | Fitness =>
      [ ("fitness_result", JNull);
        ("errors",
         JArr (errors ++ [JStr "Failed to parse fitness evaluation"])%list) ]
  | Scaffold =>
      [ ("errors", JArr [JStr "Scaffold generation failed: invalid LLM response"]);
        ("current_phase", JStr "scaffold_generation_failed");
        ("messages", JArr []) ]
  | Portfolio =>
      [ ("current_phase", JStr "portfolio_error");
        ("errors", JArr [JStr (portfolio_parse_error E last)]);
        ("messages",
         JArr [JStr ("Portfolio error: " ++ portfolio_parse_error E last)]) ]
  end.

(** A value that cannot be used as a number between [lo] and [hi]:
    [float()] raises on it, or gives a number outside the range. *)
Definition unusable_number (E : Externals) (lo hi : Q) (v : JSON) : Prop :=
  match py_float E v with
  | Ok x => (x < lo)%Q \/ (hi < x)%Q
  | Raise _ => True
  end.

(** A profile with its skills, or its expectations, replaced. *)
Definition with_skills (items : list JSON) (raw : dict) : JSON :=
  JObj (Py.set "skills" (JArr items) raw).

Definition with_expectations (items : list JSON) (raw : dict) : JSON :=
  JObj (Py.set "engineering_expectations" (JArr items) raw).

(** A state whose profile holds three skills: two without weight, of
    which "Docker" is named in the table of a startup and "Go" is not, and
    "Rust" of weight 3. *)
Definition unweighted_state : dict :=
  [ ("company_type", JStr "startup");
    ("skill_profile",
     JObj [ ("skills",
             JArr [ JObj [("name", JStr "Go")];
                    JObj [("name", JStr "Docker")];
                    JObj [("name", JStr "Rust"); ("weight", JInt 3)] ]) ]) ].

(** The five dimensions of a scorecard. *)
Definition SCORE_DIMENSIONS : list string :=
  [ "code_quality"; "test_coverage"; "complexity"; "structure";
    "deployment_readiness" ].

(** Two scaffold payloads whose file path keeps a leading separator, or a
    leading blank, through one pass of the path filter. *)
Definition backslash_scaffold : JSON :=
  JObj [ ("project_name", JStr "Demo App");
         ("files",
          JArr [ JObj [ ("path", JStr (String bs "/src/main.py"));
                        ("content", JStr "print(1)") ] ]);
         ("file_tree", JStr "src/") ].

Definition blank_scaffold : JSON :=
  JObj [ ("files",
          JArr [ JObj [ ("path", JStr "/ notes.md"); ("content", JStr "hi") ] ]) ].

(** A file of a validated scaffold. *)
Definition validated_file (path content : string) : JSON :=
  JObj [ ("path", JStr path); ("content", JStr content);
         ("language", JStr "text"); ("description", JStr "") ].

(** Every character of a string satisfies [p]. *)
Fixpoint all_chars (p : ascii -> bool) (s : string) : bool :=
  match s with
  | "" => true
  | String c s' => p c && all_chars p s'
  end.

(** A file as [_validate_scaffold] builds it. *)
Definition is_validated_file (f : JSON) : Prop :=
  exists path content language descr,
    f = JObj [ ("path", JStr path); ("content", JStr content);
               ("language", JStr language); ("description", JStr descr) ]
    /\ take 30 language = language
    /\ take 300 descr = descr.

(** The size that the budget counts for a file. *)
Definition file_size (E : Externals) (f : JSON) : Z :=
  match f with
  | JObj d => utf8_len (py_str E (Py.dget d "content" (JStr "")))
  | _ => 0%Z
  end.

Definition files_size (E : Externals) (files : list JSON) : Z :=
  fold_right (fun f acc => (file_size E f + acc)%Z) 0%Z files.

(** The path of a file is left as it is by the path filter. *)
Definition path_is_normal (f : JSON) : Prop :=
  forall path, Py.get f "path" JNull = Ok (JStr path) ->
               _sanitize_path path = Some path.

(** Case analysis on the key of a lookup in a dict with literal keys. *)
Ltac lookup_cases k' :=
  cbn [Py.lookup];
  repeat match goal with
         | |- context [String.eqb k' ?k] =>
             destruct (String.eqb_spec k' k); [try reflexivity; try congruence |]
         end;
  try reflexivity.

(** ** The request of the JD endpoint (schemas/jd.py)

    The field [jd_text] of [JDAnalysisRequest]: a string of 50 to 15000
    characters (lines 35-40), then the validator [sanitize_jd] of lines
    62-69; a [ValueError] of the validator is reported as a validation
    error of the field. *)

Definition NUL : ascii := ascii_of_nat 0.

Definition n15000 : nat := N.to_nat 15000.

(** [v.replace("\x00", "").strip()], then the length check. *)
Definition sanitize_jd (v : string) : res string :=
  let v := strip (filter_chars (fun c => negb (Ascii.eqb c NUL)) v) in
  if String.length v <? 50
  then Raise (Exn ValueError "Job description must be at least 50 characters")
  else Ok v.

Definition jd_text_field (v : JSON) : res string :=
  s <- str_field "jd_text" v ;;
  if (String.length s <? 50) || (n15000 <? String.length s)
  then Raise (validation_error "jd_text")
  else match sanitize_jd s with
       | Ok r => Ok r
       | Raise _ => Raise (validation_error "jd_text")
       end.

(** A job description padded with blanks and a null byte. *)
Definition PADDED_JD : string :=
  "   We are hiring a backend engineer who knows Python and Go."
  ++ String NUL "   ".

(** ** Vocabulary of the further properties *)

(** [s.replace("\\", "/")]: every path separator written as a slash. *)
Fixpoint slashes (s : string) : string :=
  match s with
  | "" => ""
  | String c s' => String (if is_path_sep c then "/"%char else c) (slashes s')
  end.

(** A file as [_validate_scaffold] returns it, with what the loop of lines
    89-110 guarantees about it: the path is one that the filter has
    accepted, the language and the description are cut. *)
Definition safe_file (f : JSON) : Prop :=
  exists raw path content language descr,
    f = JObj [ ("path", JStr path); ("content", JStr content);
               ("language", JStr language); ("description", JStr descr) ]
    /\ _sanitize_path raw = Some path
    /\ String.length language <= 30
    /\ String.length descr <= 300.

(** The path of a file has no white space or separator to trim. *)
Definition path_is_trimmed (f : JSON) : Prop :=
  forall path, Py.get f "path" JNull = Ok (JStr path) -> path_trim path = path.

(** A scaffold answer with one good file and one that climbs out of the
    project. *)
Definition SCAFFOLD_ANSWER : string :=
  q ("{'project_name': 'Demo App', 'files': ["
     ++ "{'path': 'src/main.py', 'content': 'print(1)'}, "
     ++ "{'path': '../../etc/passwd', 'content': 'root'}], "
     ++ "'file_tree': 'src/'}").

(** The list fields of a fitness result with the lengths that lines
    153-156 of fitness_node.py cut them to. *)
Definition FITNESS_LIST_BOUNDS : list (string * nat) :=
  [ ("matched_skills", 20); ("missing_skills", 15);
    ("strengths", 10); ("improvements", 10) ].

(** A fitness result within the bounds of lines 145-157. *)
Definition normalised_fitness (r : dict) : Prop :=
  (exists s x, Py.lookup "fitness_score" r = Some s
               /\ Py.num_val s = Some x /\ (0 <= x)%Q /\ (x <= 100)%Q)
  /\ (exists v, Py.lookup "verdict" r = Some (JStr v) /\ In v VERDICTS)
  /\ (forall k n, In (k, n) FITNESS_LIST_BOUNDS ->
        exists v m, Py.lookup k r = Some v /\ Py.len v = Ok m /\ m <= n)
  /\ (exists f, Py.lookup "detailed_feedback" r = Some (JStr f)
                /\ String.length f <= n5000).

(** A fitness answer with a score and a verdict out of range. *)
Definition FITNESS_ANSWER : string :=
  q "{'fitness_score': 250, 'verdict': 'excellent', 'strengths': ['Python']}".

(** The other entries of the table, written out as the company step
    returns them (company_node.py lines 16-33 and 52-106). *)
Definition STARTUP_OUTPUT : JSON :=
  JObj
    [ ("company_type", JStr "startup");
      ("emphasis_areas",
       JArr [ JStr "Shipping speed"; JStr "Full-stack capability";
              JStr "MVP mindset"; JStr "Wearing multiple hats";
              JStr "Rapid iteration" ]);
      ("weight_adjustments",
       JObj [ ("full-stack", JFloat 3); ("shipping speed", JFloat 3);
              ("react", JFloat (3 # 2)); ("fastapi", JFloat (3 # 2));
              ("docker", JFloat 2); ("ci/cd", JFloat (3 # 2));
              ("system design", JFloat (-1)) ]);
      ("portfolio_focus",
       JStr ("Show end-to-end projects shipped solo. "
             ++ "Emphasize speed, deployment, and user-facing features.")) ].

Definition FAANG_OUTPUT : JSON :=
  JObj
    [ ("company_type", JStr "faang");
      ("emphasis_areas",
       JArr [ JStr "System design"; JStr "Scalability";
              JStr "Data structures & algorithms";
              JStr "Distributed systems"; JStr "Performance optimization" ]);
      ("weight_adjustments",
       JObj [ ("system design", JFloat 4); ("scalability", JFloat (7 # 2));
              ("algorithms", JFloat 3); ("distributed systems", JFloat (5 # 2));
              ("performance", JFloat 2); ("kubernetes", JFloat (3 # 2)) ]);
      ("portfolio_focus",
       JStr ("Show projects that demonstrate scale thinking. "
             ++ "Include architecture diagrams, load considerations, "
             ++ "and system design documentation.")) ].

Definition RESEARCH_OUTPUT : JSON :=
  JObj
    [ ("company_type", JStr "research");
      ("emphasis_areas",
       JArr [ JStr "Novel approach"; JStr "Rigorous evaluation";
              JStr "Paper-grade documentation"; JStr "Reproducibility";
              JStr "Experiment tracking" ]);
      ("weight_adjustments",
       JObj [ ("machine learning", JFloat 3);
              ("evaluation metrics", JFloat (5 # 2));
              ("reproducibility", JFloat 2);
              ("research methodology", JFloat 2); ("python", JFloat 1) ]);
      ("portfolio_focus",
       JStr ("Show projects with clear problem formulation, novel "
             ++ "approaches, ablation studies, and paper-quality "
             ++ "writeups.")) ].

Definition ENTERPRISE_OUTPUT : JSON :=
  JObj
    [ ("company_type", JStr "enterprise");
      ("emphasis_areas",
       JArr [ JStr "Security"; JStr "Reliability"; JStr "Compliance";
              JStr "Error handling"; JStr "Logging & monitoring";
              JStr "Documentation" ]);
      ("weight_adjustments",
       JObj [ ("security", JFloat 4); ("reliability", JFloat 3);
              ("error handling", JFloat (5 # 2)); ("logging", JFloat 2);
              ("monitoring", JFloat 2); ("documentation", JFloat 2);
              ("compliance", JFloat (3 # 2)) ]);
      ("portfolio_focus",
       JStr ("Show projects with robust error handling, security headers, "
             ++ "structured logging, auth, and deployment pipelines.")) ].

(** The modifiers that the company step is to return for a lower-cased
    company type. *)
Definition modifiers_output (company_type : string) : JSON :=
  if String.eqb company_type "startup" then STARTUP_OUTPUT
  else if String.eqb company_type "faang" then FAANG_OUTPUT
  else if String.eqb company_type "research" then RESEARCH_OUTPUT
  else if String.eqb company_type "enterprise" then ENTERPRISE_OUTPUT
  else MID_LEVEL_OUTPUT company_type.

(** No key of the adjustment table occurs in a skill name. *)
Definition unmatched (adjustments : list (string * Q)) (name_lower : string)
  : Prop :=
  forall kv, In kv adjustments -> contains (fst kv) name_lower = false.

(** The profile that the re-validation builds when it is given nothing to
    read (lines 76-80 and the defaults of lines 114-121 of jd.py). *)
Definition DEFAULT_PROFILE : SkillProfile :=
  {| skills := []; experience_level := "mid";
     domain := "Software Engineering"; engineering_expectations := [];
     key_responsibilities := []; summary := "Analysis complete." |}.

(** A value from which the re-validation reads no dict: neither a dict
    with entries nor a text that holds a JSON object with entries. *)
Definition holds_no_profile (E : Externals) (raw : JSON) : Prop :=
  match raw with
  | JStr text =>
      match _try_extract_json E text with
      | Some (_ :: _) => False
      | _ => True
      end
  | JObj d => d = []
  | _ => True
  end.

(** The bounds that the schema of schemas/jd.py puts on a skill profile. *)
Definition profile_within_bounds (p : SkillProfile) : Prop :=
  Forall (fun s => (0 <= skill_weight s)%Q /\ (skill_weight s <= 10)%Q) (skills p)
  /\ Forall (fun e => (0 <= importance e)%Q /\ (importance e <= 10)%Q
                      /\ String.length (description e) <= n500)
            (engineering_expectations p)
  /\ In (experience_level p) EXPERIENCE_LEVELS
  /\ String.length (summary p) <= n8000.

(** An answer that starts with its JSON object and goes on with prose: the
    JD node hands the whole of it to the parser. *)
Definition CHATTY_ANSWER : string :=
  q "{'skills':[{'name':'Python','weight':9}]}" ++ " Hope it helps.".

(** The histories that a node invoked the generator with, in order. *)
Definition histories (o : outcome) : list (list message) := snd o.

(** The tasks whose node takes whatever [json.loads] makes of the
    candidate text of an answer. *)
Definition takes_first_parse (t : task) : bool :=
  match t with
  | JdAnalysis | Capstone | Fitness => true
  | Scaffold | Portfolio | RepoScorecard => false
  end.

(** A generator whose first answer is a refusal and whose later answers
    are the payload of the end-to-end scenario. *)
Definition refuses_first : generator :=
  fun messages =>
    if List.length messages =? 2 then Ok REFUSAL else Ok python_payload.

(** An answer that is valid JSON but no object. *)
Definition ARRAY_ANSWER : string := "[1, 2]".

(** A text inside a fence with the tag [json], each fence on a line of its
    own. *)
Definition fenced (body : string) : string :=
  "```json" ++ chr nl ++ body ++ chr nl ++ "```".

(** An answer that wraps its JSON object in prose. *)
Definition PROSE_ANSWER : string :=
  "Here is the result: " ++ q "{'overall_score': 7, 'summary': 'Solid.'}"
  ++ " Let me know if you need more.".

(** A scorecard answer that names another repository. *)
Definition SCORECARD_ANSWER : string :=
  q "{'overall_score': 7, 'summary': 'Solid.', 'repo_name': 'evil/other'}".

(** The four steps of [_validate_portfolio] (portfolio_node.py lines 68-74,
    76-92, 94-106 and 108-118), one by one. *)
Definition cut_readme (data : dict) : dict :=
  match Py.dget data "readme_markdown" (JStr "") with
  | JStr readme =>
      if negb (String.eqb readme "") && (MAX_README_LENGTH <? String.length readme)
      then Py.set "readme_markdown" (JStr (take MAX_README_LENGTH readme)) data
      else data
  | _ => data
  end.

Definition keep_valid_bullets (E : Externals) (data : dict) : dict :=
  match Py.dget data "resume_bullets" (JArr []) with
  | JArr (b :: bs) =>
      Py.set "resume_bullets" (JArr (valid_bullets E (b :: bs))) data
  | _ => data
  end.

Definition cut_demo_steps (data : dict) : dict :=
  match Py.dget data "demo_script" (JObj []) with
  | JObj demo =>
      let demo :=
        match Py.dget demo "steps" (JArr []) with
        | JArr steps =>
            if MAX_DEMO_STEPS <? List.length steps
            then Py.set "steps" (JArr (firstn MAX_DEMO_STEPS steps)) demo
            else demo
        | _ => demo
        end in
      Py.set "demo_script" (JObj demo) data
  | _ => data
  end.

Definition cut_post_body (E : Externals) (data : dict) : dict :=
  match Py.dget data "linkedin_post" (JObj []) with
  | JObj post =>
      let body := py_str E (Py.dget post "body" (JStr "")) in
      let post :=
        if MAX_POST_BODY_LENGTH <? String.length body
        then Py.set "body" (JStr (take MAX_POST_BODY_LENGTH body)) post
        else post in
      Py.set "linkedin_post" (JObj post) data
  | _ => data
  end.

(** A resume bullet as the validation rebuilds it. *)
Definition bounded_bullet (b : JSON) : Prop :=
  exists text keywords impact,
    b = JObj [ ("bullet", JStr text); ("keywords", keywords);
               ("impact_type", impact) ]
    /\ String.length text <= MAX_BULLET_LENGTH.

(** The limits of lines 25-28 of portfolio_node.py, on a portfolio. *)
Definition portfolio_within_limits (E : Externals) (d : dict) : Prop :=
  (forall readme, Py.lookup "readme_markdown" d = Some (JStr readme) ->
                  String.length readme <= MAX_README_LENGTH)
  /\ (forall bullets, Py.lookup "resume_bullets" d = Some (JArr bullets) ->
                      Forall bounded_bullet bullets)
  /\ (forall demo steps,
        Py.lookup "demo_script" d = Some (JObj demo) ->
        Py.lookup "steps" demo = Some (JArr steps) ->
        List.length steps <= MAX_DEMO_STEPS)
  /\ (forall post,
        Py.lookup "linkedin_post" d = Some (JObj post) ->
        String.length (py_str E (Py.dget post "body" (JStr "")))
        <= MAX_POST_BODY_LENGTH).

(** A portfolio answer with one bullet of 400 characters and one entry
    that is no bullet. *)
Definition LONG_BULLET : string := replicate 400 "x".

Definition portfolio_payload : JSON :=
  JObj [ ("readme_markdown", JStr "# Demo");
         ("resume_bullets",
          JArr [ JObj [("bullet", JStr LONG_BULLET)]; JStr "not a bullet" ]);
         ("linkedin_post", JObj [("body", JStr "Shipped.")]) ].

(** The answer of the endpoint when the final state has errors (jd.py
    lines 198-212). *)
Definition HTTP_422 : exn :=
  Exn OtherError "HTTP 422: Analysis could not be completed.".

(** A state as the endpoint builds it (jd.py lines 184-193): a company
    type that is a string, no skill profile yet, no errors. *)
Definition fresh_jd_state (state : dict) (company_type : string) : Prop :=
  Py.dget state "company_type" (JStr "mid_level") = JStr company_type
  /\ Py.lookup "skill_profile" state = None
  /\ Py.truthy (Py.dget state "errors" (JArr [])) = false.

(** The nodes of the graph of the JD pipeline. *)
Inductive pipeline_step : Type :=
| JdAnalysisStep | CompanyLogicStep | CapstoneStep.

(** A run of the graph that [build_jd_pipeline] wires (orchestrator.py
    lines 43-70, with the routing of lines 20-29): the nodes it visits in
    order, the histories the generator is invoked with, and the final state
    or the exception that ends the run. *)
Definition jd_pipeline_run (E : Externals) (state : dict) (llm : generator)
  : list pipeline_step * list (list message) * res dict :=
  let (analysed, jd_calls) := jd_analysis_node E state llm in
  match analysed with
  | Raise e => ([JdAnalysisStep], jd_calls, Raise e)
  | Ok analysed =>
      let state := merge_state state analysed in
      match company_logic_node state with
      | Raise e => ([JdAnalysisStep; CompanyLogicStep], jd_calls, Raise e)
      | Ok adjusted =>
          let state := merge_state state adjusted in
          if Py.truthy (Py.dget state "errors" (JArr []))
          then ([JdAnalysisStep; CompanyLogicStep], jd_calls, Ok state)
          else
            let (generated, capstone_calls) :=
              capstone_generator_node E state llm in
            ([JdAnalysisStep; CompanyLogicStep; CapstoneStep],
             (jd_calls ++ capstone_calls)%list,
             match generated with
             | Ok generated => Ok (merge_state state generated)
             | Raise e => Raise e
             end)
      end
  end.

(** The answer of the endpoint to the final state of a run (jd.py lines
    195-247). *)
Definition jd_response (E : Externals) (final : res dict) : res SkillProfile :=
  final_state <- final ;;
  if Py.truthy (Py.dget final_state "errors" (JArr []))
  then Raise HTTP_422
  else _safe_parse_skill_profile E (Py.dget final_state "skill_profile" (JObj [])).

(** The final state of a pipeline whose JD analysis failed with [e] on a
    state without profile, under the modifiers that the company step
    added. *)
Definition failed_analysis_state (state : dict) (e : exn) (modifiers : JSON)
  : dict :=
  Py.set "current_phase" (JStr "company_logic_complete")
    (Py.set "company_modifiers" modifiers
       (Py.set "skill_profile" (JObj [])
          (Py.set "current_phase" (JStr "jd_analysis_failed")
             (Py.set "errors" (JArr [JStr ("JD analysis failed: " ++ exn_str e)])
                state)))).

(** * Properties *)

(** ** Path filter *)

Lemma mem_In (x : string) (l : list string) : mem x l = true <-> In x l.
Proof.
  unfold mem. rewrite existsb_exists. split.
  - intros [y [Hy He]]. apply String.eqb_eq in He. now subst.
  - intros H. exists x. split; [assumption | apply String.eqb_refl].
Qed.

Lemma mem_not_In (x : string) (l : list string) : mem x l = false <-> ~ In x l.
Proof.
  rewrite <- mem_In. destruct (mem x l); split; congruence.
Qed.

(** The loop over the parts fails exactly when some part is forbidden or
    is a dot-prefixed name off the allow-list. *)
Lemma parts_allowed_false (parts : list string) :
  parts_allowed parts = false <->
  exists s, In s parts /\ (forbidden_segment s \/ unlisted_dot_segment s).
Proof.
  unfold forbidden_segment, unlisted_dot_segment.
  induction parts as [| part rest IH]; cbn [parts_allowed In].
  - split; [discriminate | intros [s [[] _]]].
  - destruct (mem part FORBIDDEN_PATH_PARTS) eqn:Hf.
    + split; [intros _ | reflexivity].
      exists part. split; [now left | left; now apply mem_In].
    + destruct (startswith "." part) eqn:Hd; cbn [andb negb].
      * destruct (mem part ALLOWED_DOT_PARTS) eqn:Ha; cbn [andb negb].
        -- rewrite IH. split.
           ++ intros [s [Hin Hs]]. exists s. split; [now right | exact Hs].
           ++ intros [s [[Heq | Hin] Hs]]; [subst s | exists s; now split].
              destruct Hs as [Hs | [_ Hs]].
              ** apply mem_In in Hs. congruence.
              ** apply mem_In in Ha. contradiction.
        -- split; [intros _ | reflexivity].
           exists part. split; [now left | right].
           split; [assumption | now apply mem_not_In].
      * rewrite IH. split.
        -- intros [s [Hin Hs]]. exists s. split; [now right | exact Hs].
        -- intros [s [[Heq | Hin] Hs]]; [subst s | exists s; now split].
           destruct Hs as [Hs | [Hs _]].
           ++ apply mem_In in Hs. congruence.
           ++ congruence.
Qed.

(** The filter returns absent exactly for the rejected paths. *)
Lemma sanitize_path_none_iff (raw : string) :
  _sanitize_path raw = None <-> path_rejected (path_trim raw).
Proof.
  unfold _sanitize_path, path_rejected, extension, segments.
  set (p := path_trim raw).
  set (parts := split_where is_path_sep p).
  set (ext := "." ++ lower (rsplit1_last "." (last parts ""))).
  destruct (String.eqb p "") eqn:He; cbn [orb].
  { apply String.eqb_eq in He. tauto. }
  apply String.eqb_neq in He.
  destruct (300 <? String.length p) eqn:Hl.
  { apply Nat.ltb_lt in Hl. tauto. }
  apply Nat.ltb_ge in Hl.
  destruct (parts_allowed parts) eqn:Hp; cbn [negb].
  - assert (Hno : ~ exists s, In s parts
                    /\ (forbidden_segment s \/ unlisted_dot_segment s)).
    { intros H. apply parts_allowed_false in H. congruence. }
    destruct (contains_char "." (last parts "")) eqn:Hc.
    + destruct (mem ext ALLOWED_EXTENSIONS) eqn:Hm; cbn [negb].
      * split; [discriminate |].
        intros [H | [H | [[s [Hi Hs]] | [[s [Hi Hs]] | [x [Hx Hn]]]]]].
        -- contradiction.
        -- lia.
        -- exfalso. apply Hno. exists s. tauto.
        -- exfalso. apply Hno. exists s. tauto.
        -- injection Hx as <-. apply mem_In in Hm. contradiction.
      * split; [intros _ | reflexivity].
        do 4 right. exists ext. split; [reflexivity | now apply mem_not_In].
    + split; [discriminate |].
      intros [H | [H | [[s [Hi Hs]] | [[s [Hi Hs]] | [x [Hx Hn]]]]]].
      * contradiction.
      * lia.
      * exfalso. apply Hno. exists s. tauto.
      * exfalso. apply Hno. exists s. tauto.
      * discriminate.
  - split; [intros _ | reflexivity].
    apply parts_allowed_false in Hp. destruct Hp as [s [Hi [Hs | Hs]]].
    + right. right. left. now exists s.
    + right. right. right. left. now exists s.
Qed.

(** What the filter returns when it accepts: the parts joined by [/]. *)
Lemma sanitize_path_accepts (raw : string) :
  ~ path_rejected (path_trim raw) ->
  _sanitize_path raw = Some (join "/" (segments (path_trim raw))).
Proof.
  intros Hn.
  destruct (_sanitize_path raw) as [r |] eqn:Hs.
  - revert Hs. unfold _sanitize_path, segments.
    repeat match goal with
           | |- context [if ?b then _ else _] => destruct b
           end; congruence.
  - apply sanitize_path_none_iff in Hs. contradiction.
Qed.

(** C2. [sanitize_path] returns absent for ["../../etc/passwd"],
    ["node_modules/x/y.js"] and [".git/config"] and returns ["src/main.py"]
    for ["src/main.py"]; for every input it returns absent when the path
    (as trimmed by the function) is empty, longer than 300 characters,
    contains a forbidden segment, contains a dot-prefixed segment off the
    allow-list, or ends in a filename whose extension is outside the
    allow-list; and a path that passes the other checks and ends in an
    extensionless filename is let through, as its parts joined by [/]. *)
Theorem sanitize_path_security :
  _sanitize_path "../../etc/passwd" = None
  /\ _sanitize_path "node_modules/x/y.js" = None
  /\ _sanitize_path ".git/config" = None
  /\ _sanitize_path "src/main.py" = Some "src/main.py"
  /\ (forall raw, path_rejected (path_trim raw) -> _sanitize_path raw = None)
  /\ (forall raw,
        let p := path_trim raw in
        p <> "" ->
        String.length p <= 300 ->
        (forall s, In s (segments p) ->
                   ~ forbidden_segment s /\ ~ unlisted_dot_segment s) ->
        extension (last (segments p) "") = None ->
        _sanitize_path raw = Some (join "/" (segments p))).
Proof.
  repeat split; try reflexivity.
  - intros raw H. now apply sanitize_path_none_iff.
  - intros raw p Hne Hlen Hseg Hext. apply sanitize_path_accepts.
    fold p. intros [H | [H | [[s [Hi Hs]] | [[s [Hi Hs]] | [ext [Hx Hn]]]]]].
    + contradiction.
    + lia.
    + destruct (Hseg s Hi) as [Hf _]. contradiction.
    + destruct (Hseg s Hi) as [_ Hd]. contradiction.
    + congruence.
Qed.

(** The general clauses of C2 at work: a path rejected for its extension
    and an extensionless filename let through. *)
Lemma sanitize_path_security_witness :
  _sanitize_path "bin/tool.exe" = None
  /\ _sanitize_path "/docker/Dockerfile" = Some "docker/Dockerfile".
Proof.
  destruct sanitize_path_security as (_ & _ & _ & _ & Hrej & Hacc).
  split.
  - apply Hrej. do 4 right. exists ".exe". split; [reflexivity |].
    intros H. apply mem_In in H. discriminate H.
  - apply (Hacc "/docker/Dockerfile").
    + discriminate.
    + vm_compute. lia.
    + intros s Hs. vm_compute in Hs.
      destruct Hs as [<- | [<- | []]]; split;
        try (intros H; apply mem_In in H; discriminate H);
        intros [H _]; discriminate H.
    + reflexivity.
Defined.

(** ** Byte budget *)

Lemma utf8_len_replicate (n : N) (c : ascii) :
  utf8_len (replicate n c)
  = (Z.of_N n * (if (nat_of_ascii c <? 128)%nat then 1 else 2))%Z.
Proof.
  unfold replicate. induction n as [| n IH] using N.peano_ind.
  - reflexivity.
  - rewrite N.iter_succ. cbn [utf8_len]. rewrite IH. lia.
Qed.

Section Budget.

Variable E : Externals.

(** The loop of [_validate_scaffold] keeps the files it already has and
    adds the candidates that fit, in order. *)
Lemma scaffold_files_fitting (raw_files : list JSON) :
  paths_are_text raw_files ->
  forall files total,
    scaffold_files E raw_files files total
    = Ok (files ++ map (accepted_file E)
                     (firstn (fitting E (candidates raw_files) total)
                             (candidates raw_files)))%list.
Proof.
  induction raw_files as [| raw_file rest IH]; intros Htext files total.
  - cbn. now rewrite app_nil_r.
  - assert (Hrest : paths_are_text rest).
    { intros d Hd. apply Htext. now right. }
    destruct raw_file as [| b | z | x | t | l | d];
      try (cbn [scaffold_files candidates]; now apply IH).
    specialize (Htext d (or_introl eq_refl)).
    cbn [scaffold_files candidates].
    destruct (Py.dget d "path" (JStr "")) as [| | | | p | |];
      try discriminate Htext.
    cbn [sanitize_path_value bind].
    destruct (_sanitize_path p) as [[| a path] |]; try now apply IH.
    cbn [fitting]. unfold content_size at 1 2. cbn [snd].
    destruct (MAX_SCAFFOLD_CONTENT_BYTES <?
              total + utf8_len (py_str E (Py.dget d "content" (JStr ""))))%Z.
    + cbn. now rewrite app_nil_r.
    + rewrite IH by assumption. cbn [firstn map].
      rewrite <- app_assoc. reflexivity.
Qed.

(** What fits stays within the budget. *)
Lemma fitting_within (l : list (string * dict)) :
  forall total, (total <= MAX_SCAFFOLD_CONTENT_BYTES)%Z ->
    (total + cumulative_size E (firstn (fitting E l total) l)
     <= MAX_SCAFFOLD_CONTENT_BYTES)%Z.
Proof.
  induction l as [| c rest IH]; intros total Ht; cbn [fitting].
  - cbn [firstn cumulative_size fold_right]. lia.
  - destruct (MAX_SCAFFOLD_CONTENT_BYTES <? total + content_size E c)%Z eqn:Hc.
    + cbn [firstn cumulative_size fold_right]. lia.
    + apply Z.ltb_ge in Hc. cbn [firstn cumulative_size fold_right].
      specialize (IH (total + content_size E c)%Z Hc).
      unfold cumulative_size in IH. lia.
Qed.

(** When the candidates do not all fit, the first one left out is the one
    that overflows. *)
Lemma fitting_overflow (l : list (string * dict)) :
  forall total,
    (total <= MAX_SCAFFOLD_CONTENT_BYTES)%Z ->
    (MAX_SCAFFOLD_CONTENT_BYTES < total + cumulative_size E l)%Z ->
    fitting E l total < List.length l
    /\ (MAX_SCAFFOLD_CONTENT_BYTES
        < total + cumulative_size E (firstn (S (fitting E l total)) l))%Z.
Proof.
  induction l as [| c rest IH]; intros total Hle Ht.
  - cbn [cumulative_size fold_right] in Ht. lia.
  - cbn [fitting].
    destruct (MAX_SCAFFOLD_CONTENT_BYTES <? total + content_size E c)%Z eqn:Hc.
    + apply Z.ltb_lt in Hc. split; [cbn [List.length]; lia |].
      cbn [firstn cumulative_size fold_right]. lia.
    + apply Z.ltb_ge in Hc.
      cbn [cumulative_size fold_right] in Ht.
      destruct (IH (total + content_size E c)%Z Hc) as [Hn Ho].
      { unfold cumulative_size. lia. }
      split; [cbn [List.length]; lia |].
      change (firstn (S (S (fitting E rest (total + content_size E c)))) (c :: rest))
        with (c :: firstn (S (fitting E rest (total + content_size E c))) rest).
      cbn [cumulative_size fold_right]. unfold cumulative_size in Ho. lia.
Qed.

Lemma utf8_len_nonneg (s : string) : (0 <= utf8_len s)%Z.
Proof.
  induction s as [| c s IH]; cbn [utf8_len]; [lia |].
  match goal with |- context [if ?b then _ else _] => destruct b end; lia.
Qed.

Lemma cumulative_size_nonneg (l : list (string * dict)) :
  (0 <= cumulative_size E l)%Z.
Proof.
  induction l as [| c rest IH]; cbn [cumulative_size fold_right]; [lia |].
  assert (H : (0 <= content_size E c)%Z) by apply utf8_len_nonneg.
  unfold cumulative_size in IH. lia.
Qed.

(** Candidates that all fit are all accepted. *)
Lemma fitting_all (l : list (string * dict)) :
  forall total,
    (total + cumulative_size E l <= MAX_SCAFFOLD_CONTENT_BYTES)%Z ->
    fitting E l total = List.length l.
Proof.
  induction l as [| c rest IH]; intros total Ht; cbn [fitting List.length].
  - reflexivity.
  - cbn [cumulative_size fold_right] in Ht.
    pose proof (cumulative_size_nonneg rest) as Hrest.
    unfold cumulative_size in Hrest.
    destruct (MAX_SCAFFOLD_CONTENT_BYTES <? total + content_size E c)%Z eqn:Hc.
    + apply Z.ltb_lt in Hc. lia.
    + f_equal. apply IH. unfold cumulative_size. lia.
Qed.

(** Within the cap nothing is dropped. *)
Lemma budget_not_reached (scaffold : dict) (raw_files : list JSON) :
  Py.dget scaffold "files" (JArr []) = JArr raw_files ->
  paths_are_text raw_files ->
  (cumulative_size E (candidates raw_files) <= MAX_SCAFFOLD_CONTENT_BYTES)%Z ->
  exists out,
    _validate_scaffold E (JObj scaffold) = Ok out
    /\ Py.lookup "files" out
       = Some (JArr (map (accepted_file E) (candidates raw_files))).
Proof.
  intros Hfiles Htext Hfit.
  unfold _validate_scaffold. cbn [Py.get bind]. rewrite Hfiles.
  cbn [Py.iter bind]. rewrite (scaffold_files_fitting raw_files Htext).
  rewrite fitting_all by (cbn; exact Hfit). rewrite firstn_all.
  cbn [bind app]. eexists. split; reflexivity.
Qed.

(** C3. For every list of scaffold files whose candidates' content sizes
    sum beyond the 512 KiB cap, the validation accepts an order-preserving
    prefix of the candidates whose cumulative UTF-8 size is within the
    cap; the first candidate left out is the one whose size would take
    the running total beyond the cap, and it and all later ones are
    dropped. *)
Theorem budget_enforcement (scaffold : dict) (raw_files : list JSON) :
  Py.dget scaffold "files" (JArr []) = JArr raw_files ->
  paths_are_text raw_files ->
  (MAX_SCAFFOLD_CONTENT_BYTES < cumulative_size E (candidates raw_files))%Z ->
  exists n out,
    _validate_scaffold E (JObj scaffold) = Ok out
    /\ Py.lookup "files" out
       = Some (JArr (map (accepted_file E) (firstn n (candidates raw_files))))
    /\ n < List.length (candidates raw_files)
    /\ (cumulative_size E (firstn n (candidates raw_files))
        <= MAX_SCAFFOLD_CONTENT_BYTES)%Z
    /\ (MAX_SCAFFOLD_CONTENT_BYTES
        < cumulative_size E (firstn (S n) (candidates raw_files)))%Z.
Proof.
  intros Hfiles Htext Hover.
  exists (fitting E (candidates raw_files) 0).
  unfold _validate_scaffold. cbn [Py.get bind]. rewrite Hfiles.
  cbn [Py.iter bind]. rewrite (scaffold_files_fitting raw_files Htext).
  cbn [bind app]. eexists. split; [reflexivity |].
  split; [reflexivity |].
  assert (H0 : (0 <= MAX_SCAFFOLD_CONTENT_BYTES)%Z) by discriminate.
  destruct (fitting_overflow (candidates raw_files) 0%Z H0) as [Hn Ho];
    [exact Hover |].
  pose proof (fitting_within (candidates raw_files) 0%Z H0) as Hw.
  repeat split; assumption.
Qed.

End Budget.

Lemma sample_candidates (x y : string) :
  candidates (sample_files x y)
  = [ ("a.txt", [("path", JStr "a.txt"); ("content", JStr x)]);
      ("c.txt", [("path", JStr "c.txt"); ("content", JStr y)]);
      ("d.txt", [("path", JStr "d.txt"); ("content", JStr "z")]) ].
Proof. reflexivity. Qed.

Lemma sample_paths_are_text (x y : string) : paths_are_text (sample_files x y).
Proof.
  intros d Hd. unfold sample_files, text_file in Hd. cbn [In] in Hd.
  destruct Hd as [H | [H | [H | [H | []]]]]; injection H as <-; reflexivity.
Qed.

Lemma sample_size (E : Externals) (x y : string) :
  cumulative_size E (candidates (sample_files x y))
  = (utf8_len x + (utf8_len y + (1 + 0)))%Z.
Proof. reflexivity. Qed.

(** Two files of 300000 bytes each do not fit together: the first is
    accepted, the next candidate and the one after it are dropped. *)
Lemma budget_enforcement_witness :
  exists n out,
    _validate_scaffold example_externals
      (JObj [ ("files",
               JArr (sample_files (replicate 300000 "x") (replicate 300000 "y"))) ])
    = Ok out
    /\ Py.lookup "files" out
       = Some (JArr (map (accepted_file example_externals)
                       (firstn n (candidates
                          (sample_files (replicate 300000 "x") (replicate 300000 "y"))))))
    /\ n < List.length (candidates
                          (sample_files (replicate 300000 "x") (replicate 300000 "y")))
    /\ (cumulative_size example_externals
          (firstn n (candidates
                       (sample_files (replicate 300000 "x") (replicate 300000 "y"))))
        <= MAX_SCAFFOLD_CONTENT_BYTES)%Z
    /\ (MAX_SCAFFOLD_CONTENT_BYTES
        < cumulative_size example_externals
            (firstn (S n) (candidates
               (sample_files (replicate 300000 "x") (replicate 300000 "y")))))%Z.
Proof.
  apply budget_enforcement.
  - reflexivity.
  - apply sample_paths_are_text.
  - rewrite sample_size, !utf8_len_replicate. reflexivity.
Defined.

(** ** Company modifiers *)

Lemma lookup_set_same (k : string) (v : JSON) (d : dict) :
  Py.lookup k (Py.set k v d) = Some v.
Proof.
  induction d as [| [k' v'] d IH]; cbn [Py.set Py.lookup].
  - now rewrite String.eqb_refl.
  - destruct (String.eqb k k') eqn:Hk; cbn [Py.lookup].
    + now rewrite String.eqb_refl.
    + now rewrite Hk.
Qed.

Lemma lookup_set_other (k k' : string) (v : JSON) (d : dict) :
  k <> k' -> Py.lookup k' (Py.set k v d) = Py.lookup k' d.
Proof.
  intros Hne. induction d as [| [k0 v0] d IH]; cbn [Py.set Py.lookup].
  - destruct (String.eqb k' k) eqn:Hk; [| reflexivity].
    apply String.eqb_eq in Hk. congruence.
  - destruct (String.eqb k k0) eqn:Hk; cbn [Py.lookup].
    + apply String.eqb_eq in Hk. subst k0.
      destruct (String.eqb k' k) eqn:Hk'; [| reflexivity].
      apply String.eqb_eq in Hk'. congruence.
    + destruct (String.eqb k' k0); auto.
Qed.

Lemma nearest_even_bound (n d : Z) :
  (0 <= n)%Z -> (0 < d)%Z -> (PyFloat.nearest_even n d * d <= n + d)%Z.
Proof.
  intros Hn Hd. unfold PyFloat.nearest_even.
  pose proof (Z.mul_div_le n d Hd) as Hq.
  destruct (d <? 2 * (n mod d))%Z; [lia |].
  destruct (2 * (n mod d) =? d)%Z; [destruct (Z.even (n / d)) |]; lia.
Qed.

(** An [int] below 2^1023 in absolute value converts to a float. *)
Lemma of_int_small (z : Z) :
  (Z.abs z < 2 ^ 1023)%Z -> exists x, PyFloat.of_int z = Ok x.
Proof.
  intros Hz. unfold PyFloat.of_int, PyFloat.round64.
  cbn [inject_Z Qnum Qden].
  destruct (Z.abs z =? 0)%Z eqn:H0; [now eexists |].
  apply Z.eqb_neq in H0.
  set (n := Z.abs z) in *.
  assert (Hn : (0 < n)%Z) by (subst n; lia).
  set (u := Z.max (PyFloat.exponent n 1 - 52) (-1074)).
  destruct (0 <=? u)%Z eqn:Hu; [| now eexists].
  apply Z.leb_le in Hu.
  assert (Hu' : (u <= 970)%Z).
  { assert (He : (PyFloat.exponent n 1 <= Z.log2 n)%Z).
    { unfold PyFloat.exponent. change (Z.log2 1) with 0%Z. rewrite Z.sub_0_r.
      destruct (if (0 <=? Z.log2 n)%Z then _ else _); lia. }
    assert (Hl : (Z.log2 n < 1023)%Z) by (apply Z.log2_lt_pow2; lia).
    subst u. lia. }
  match goal with
  | |- context [(2 ^ 1024 <=? ?m * 2 ^ u)%Z] =>
      assert (Hm : (m * 2 ^ u < 2 ^ 1024)%Z)
  end.
  { pose proof (nearest_even_bound n (1 * 2 ^ u)) as Hb.
    assert (Hp : (0 < 2 ^ u)%Z) by (apply Z.pow_pos_nonneg; lia).
    assert (Hp' : (2 ^ u <= 2 ^ 970)%Z) by (apply Z.pow_le_mono_r; lia).
    rewrite Z.mul_1_l in *.
    specialize (Hb ltac:(lia) Hp).
    change (2 ^ 1024)%Z with (2 * 2 ^ 1023)%Z.
    assert (H970 : (2 ^ 970 < 2 ^ 1023)%Z) by (apply Z.pow_lt_mono_r; lia).
    lia. }
  apply Z.leb_gt in Hm. rewrite Hm. now eexists.
Qed.

Lemma clamp_weight_is_float (total : PyFloat.double) :
  exists y, clamp_weight total = JFloat y.
Proof.
  destruct total as [x | negative]; [| now eexists].
  unfold clamp_weight, Py.max2, Py.min2. cbn [Py.num_val].
  destruct (Qle_bool 10 x); cbn [Py.num_val];
    match goal with |- context [if ?b then _ else _] => destruct b end;
    eexists; reflexivity.
Qed.

Lemma float_operand_plain (w : JSON) :
  plain_weight w -> exists x, float_operand w = Ok x.
Proof.
  destruct w; cbn [plain_weight float_operand]; try contradiction;
    try (intros _; now eexists).
  apply of_int_small.
Qed.

Lemma apply_adjustments_total (adjustments : list (string * Q)) (name : string) :
  forall d, weight_is_plain d ->
    exists d', apply_adjustments adjustments name d = Ok d'
               /\ weight_is_plain d'
               /\ Py.lookup "name" d' = Py.lookup "name" d.
Proof.
  induction adjustments as [| [k a] rest IH]; intros d Hd; cbn [apply_adjustments].
  - now exists d.
  - destruct (contains k name); [| now apply IH].
    assert (Hnum : exists x, float_operand (Py.dget d "weight" (JFloat 5)) = Ok x).
    { unfold Py.dget. unfold weight_is_plain in Hd.
      destruct (Py.lookup "weight" d) as [w |].
      - now apply float_operand_plain.
      - now eexists. }
    destruct Hnum as [x Hx]. unfold adjusted_weight. rewrite Hx. cbn [bind].
    destruct (clamp_weight_is_float (PyFloat.add x a)) as [y Hy]. rewrite Hy.
    destruct (IH (Py.set "weight" (JFloat y) d)) as [d' [He [Hn Hname]]].
    { unfold weight_is_plain. now rewrite lookup_set_same. }
    exists d'. repeat split; try assumption.
    rewrite Hname. apply lookup_set_other. discriminate.
Qed.

Lemma adjust_skills_total (adjustments : list (string * Q)) (skills : list JSON) :
  Forall well_formed_skill skills ->
  exists adjusted, adjust_skills adjustments skills = Ok adjusted
                   /\ Forall well_formed_skill adjusted.
Proof.
  induction 1 as [| skill rest Hs _ IH]; cbn [adjust_skills].
  - now exists [].
  - destruct IH as [rest' [Hr Hw]].
    destruct skill as [| | | | | | d]; try contradiction.
    destruct Hs as [Hname Hweight].
    unfold adjust_skill. cbn [Py.get bind]. unfold Py.dget.
    assert (Hl : exists n, lower_value
                   match Py.lookup "name" d with
                   | Some v => v
                   | None => JStr ""
                   end = Ok n).
    { destruct (Py.lookup "name" d) as [[| | | | n | |] |];
        try contradiction; eexists; reflexivity. }
    destruct Hl as [n Hl]. rewrite Hl. cbn [bind].
    destruct (apply_adjustments_total adjustments n d Hweight)
      as [d' [Hd [Hn' Hname']]].
    rewrite Hd. cbn [bind]. rewrite Hr. cbn [bind].
    exists (JObj d' :: rest'). split; [reflexivity |].
    constructor; [| assumption]. split; [now rewrite Hname' | exact Hn'].
Qed.

(** Two numbers can be compared. *)
Lemma less_numbers (a b : JSON) (x y : Q) :
  Py.num_val a = Some x -> Py.num_val b = Some y ->
  Py.less a b = Ok (negb (Qle_bool y x)).
Proof.
  destruct a, b; cbn [Py.num_val]; try discriminate;
    intros Ha Hb; injection Ha as <-; injection Hb as <-; reflexivity.
Qed.

Lemma insert_desc_total (x : JSON * JSON) (l : list (JSON * JSON)) :
  number_key x -> Forall number_key l ->
  exists l', insert_desc x l = Ok l' /\ Forall number_key l'.
Proof.
  intros Hx. induction 1 as [| y l Hy Hl IH]; cbn [insert_desc].
  - eexists. split; [reflexivity | now constructor].
  - unfold number_key in Hx, Hy.
    destruct (Py.num_val (fst x)) as [kx |] eqn:Hkx; [| congruence].
    destruct (Py.num_val (fst y)) as [ky |] eqn:Hky; [| congruence].
    rewrite (less_numbers _ _ _ _ Hkx Hky). cbn [bind].
    destruct (negb (Qle_bool ky kx)).
    + destruct IH as [l' [-> Hl']]. cbn [bind]. eexists. split; [reflexivity |].
      constructor; [unfold number_key; congruence | exact Hl'].
    + eexists. split; [reflexivity |].
      constructor; [unfold number_key; congruence |].
      constructor; [unfold number_key; congruence | exact Hl].
Qed.

Lemma sort_desc_total (l : list (JSON * JSON)) :
  Forall number_key l ->
  exists l', sort_desc l = Ok l' /\ Forall number_key l'.
Proof.
  induction 1 as [| x l Hx Hl IH]; cbn [sort_desc].
  - now exists [].
  - destruct IH as [l' [-> Hl']]. cbn [bind]. now apply insert_desc_total.
Qed.

Lemma plain_weight_number (w : JSON) : plain_weight w -> Py.num_val w <> None.
Proof. destruct w; cbn; try contradiction; discriminate. Qed.

Lemma sort_skills_total (skills : list JSON) :
  Forall well_formed_skill skills ->
  exists sorted, sort_skills skills = Ok sorted.
Proof.
  intros Hw. unfold sort_skills.
  assert (Hk : exists keyed, with_keys skills = Ok keyed /\ Forall number_key keyed).
  { induction Hw as [| skill rest Hs _ IH]; cbn [with_keys].
    - now exists [].
    - destruct IH as [keyed [Hk Hn]].
      destruct skill as [| | | | | | d]; try contradiction.
      destruct Hs as [_ Hweight]. unfold sort_key. cbn [Py.get bind].
      rewrite Hk. cbn [bind]. eexists. split; [reflexivity |].
      constructor; [| exact Hn]. unfold number_key, Py.dget. cbn [fst].
      destruct (Py.lookup "weight" d) as [w |];
        [now apply plain_weight_number | discriminate]. }
  destruct Hk as [keyed [Hk Hn]]. rewrite Hk. cbn [bind].
  destruct (sort_desc_total keyed Hn) as [sorted [-> _]]. cbn [bind].
  now eexists.
Qed.

(** The sum of a weight and an adjustment is a float: the float nearest to
    0.28 increased by 2.5 is not the float nearest to 2.78, and an [int]
    beyond the floats cannot be added to. *)
Example adjusted_weight_is_rounded :
  adjusted_weight (JFloat (1261007895663739 # 4503599627370496)) (5 # 2)
  = Ok (JFloat (3130001741022495 # 1125899906842624))
  /\ PyFloat.round64 (278 # 100) = PyFloat.Finite (6260003482044989 # 2251799813685248).
Proof. split; vm_compute; reflexivity. Qed.

Example adjusted_weight_overflows :
  adjusted_weight (JInt (10 ^ 400)) (5 # 2)
  = Raise (Exn OverflowError "int too large to convert to float").
Proof. vm_compute. reflexivity. Qed.

(** One skill is not compared with anything, strings are compared with
    strings, a string cannot be compared with a number. *)
Example sort_skills_examples :
  sort_skills [JObj [("weight", JNull)]] = Ok [JObj [("weight", JNull)]]
  /\ sort_skills [JObj [("weight", JStr "high")]; JObj [("weight", JStr "low")]]
     = Ok [JObj [("weight", JStr "low")]; JObj [("weight", JStr "high")]]
  /\ sort_skills [JObj [("weight", JStr "high")]; JObj [("weight", JInt 3)]]
     = Raise (Py.not_supported "<" (JStr "high") (JInt 3)).
Proof. repeat split. Qed.

Lemma modifiers_for_unknown (company_type : string) :
  ~ In company_type ["startup"; "mid_level"; "faang"; "research"; "enterprise"] ->
  modifiers_for company_type = mid_level_modifiers.
Proof.
  intros Hn. unfold modifiers_for, COMPANY_MODIFIERS.
  cbn [modifiers_lookup].
  repeat match goal with
         | |- context [String.eqb company_type ?k] =>
             destruct (String.eqb company_type k) eqn:?H;
             [ exfalso; apply Hn; apply String.eqb_eq in H; subst;
               cbn; tauto | clear H ]
         end.
  reflexivity.
Qed.

Lemma dget_set_same (k : string) (v default : JSON) (d : dict) :
  Py.dget (Py.set k v d) k default = v.
Proof. unfold Py.dget. now rewrite lookup_set_same. Qed.

Lemma dget_set_other (k k' : string) (v default : JSON) (d : dict) :
  k <> k' -> Py.dget (Py.set k v d) k' default = Py.dget d k' default.
Proof. intros H. unfold Py.dget. now rewrite lookup_set_other. Qed.

(** The company step under a type that selects the [mid_level] entry. *)
Lemma company_node_mid_level (state : dict) (company_type : string) :
  Py.dget state "company_type" (JStr "mid_level") = JStr company_type ->
  modifiers_for (lower company_type) = mid_level_modifiers ->
  company_logic_node state
  = (let skill_profile :=
       Py.or_else (Py.dget state "skill_profile" JNull) (JObj []) in
     if negb (Py.truthy skill_profile)
     then Ok (mid_level_result (lower company_type) (JObj []))
     else
       skills <- Py.get skill_profile "skills" (JArr []) ;;
       items <- Py.iter skills ;;
       adjusted <- adjust_skills MID_LEVEL_ADJUSTMENTS items ;;
       match skills, skill_profile with
       | JArr _, JObj profile =>
           sorted <- sort_skills adjusted ;;
           Ok (mid_level_result (lower company_type)
                 (JObj (Py.set "skills" (JArr sorted) profile)))
       | _, _ => Raise (Py.attribute_error skills "sort")
       end).
Proof.
  intros Hct Hm. unfold company_logic_node. rewrite Hct.
  cbn [lower_value bind]. rewrite Hm. reflexivity.
Qed.

(** C10. When the lowercased company type of the state is none of the five
    known archetypes, the company step does what it does for [mid_level],
    the label apart: it fails only where it fails for [mid_level], and
    what it returns holds the emphasis areas, weight adjustments and
    portfolio focus of the [mid_level] entry under the unknown label.  It
    returns them both when there is no skill profile and when there is one
    of well-formed skills, which are adjusted with the [mid_level]
    adjustments and sorted. *)
Theorem unknown_company_type_uses_mid_level (state : dict) (company_type : string) :
  Py.dget state "company_type" (JStr "mid_level") = JStr company_type ->
  ~ In (lower company_type)
      ["startup"; "mid_level"; "faang"; "research"; "enterprise"] ->
  company_logic_node state
  = under_label (lower company_type)
      (company_logic_node (Py.set "company_type" (JStr "mid_level") state))
  /\ (forall out,
        company_logic_node state = Ok out ->
        Py.lookup "company_modifiers" out
        = Some (MID_LEVEL_OUTPUT (lower company_type)))
  /\ (Py.truthy (Py.dget state "skill_profile" JNull) = false ->
      company_logic_node state
      = Ok (mid_level_result (lower company_type) (JObj [])))
  /\ (forall profile skills,
        Py.dget state "skill_profile" JNull = JObj profile ->
        profile <> [] ->
        Py.dget profile "skills" (JArr []) = JArr skills ->
        Forall well_formed_skill skills ->
        exists adjusted sorted,
          adjust_skills MID_LEVEL_ADJUSTMENTS skills = Ok adjusted
          /\ sort_skills adjusted = Ok sorted
          /\ company_logic_node state
             = Ok (mid_level_result (lower company_type)
                     (JObj (Py.set "skills" (JArr sorted) profile)))).
Proof.
  intros Hct Hunknown.
  pose proof (modifiers_for_unknown _ Hunknown) as Hm.
  pose proof (company_node_mid_level state company_type Hct Hm) as Hnode.
  assert (Hmid : company_logic_node (Py.set "company_type" (JStr "mid_level") state)
                 = _)
    by (apply (company_node_mid_level _ "mid_level");
        [apply dget_set_same | reflexivity]).
  rewrite dget_set_other in Hmid by discriminate.
  cbv zeta in Hnode, Hmid.
  split; [| split; [| split]].
  - rewrite Hnode, Hmid.
    destruct (negb (Py.truthy _)); [reflexivity |].
    destruct (Py.get _ "skills" (JArr [])) as [skills |]; [| reflexivity].
    cbn [bind]. destruct (Py.iter skills) as [items |]; [| reflexivity].
    cbn [bind].
    destruct (adjust_skills MID_LEVEL_ADJUSTMENTS items) as [adjusted |];
      [| reflexivity].
    cbn [bind]. destruct skills; try reflexivity.
    destruct (Py.or_else _ _); try reflexivity.
    destruct (sort_skills adjusted); reflexivity.
  - intros out. rewrite Hnode.
    destruct (negb (Py.truthy _)); [intros H; injection H as <-; reflexivity |].
    destruct (Py.get _ "skills" (JArr [])) as [skills |]; [| discriminate].
    cbn [bind]. destruct (Py.iter skills) as [items |]; [| discriminate].
    cbn [bind].
    destruct (adjust_skills MID_LEVEL_ADJUSTMENTS items) as [adjusted |];
      [| discriminate].
    cbn [bind]. destruct skills; try discriminate.
    destruct (Py.or_else _ _); try discriminate.
    destruct (sort_skills adjusted); [| discriminate].
    cbn [bind]. intros H. injection H as <-. reflexivity.
  - intros Hfalsy. rewrite Hnode. unfold Py.or_else. rewrite Hfalsy.
    reflexivity.
  - intros profile skills Hp Hne Hs Hw.
    destruct (adjust_skills_total MID_LEVEL_ADJUSTMENTS skills Hw)
      as [adjusted [Ha Hwa]].
    destruct (sort_skills_total adjusted Hwa) as [sorted Hsort].
    exists adjusted, sorted. repeat split; try assumption.
    rewrite Hnode. unfold Py.or_else. rewrite Hp.
    destruct profile as [| kv profile']; [congruence |].
    cbn [Py.truthy negb Py.get bind]. rewrite Hs.
    cbn [Py.iter bind]. rewrite Ha. cbn [bind]. rewrite Hsort. reflexivity.
Qed.

(** The state of a "Unicorn" company: the [mid_level] adjustment of
    "testing" lifts the second skill to 9.5, ahead of the first. *)
Lemma unknown_company_type_witness :
  company_logic_node unicorn_state
  = Ok (mid_level_result "unicorn"
          (JObj [ ("skills",
                   JArr [ JObj [("name", JStr "Unit Testing");
                                ("weight", JFloat (19 # 2))];
                          JObj [("name", JStr "Python"); ("weight", JInt 9)] ]) ])).
Proof.
  destruct (unknown_company_type_uses_mid_level unicorn_state "Unicorn")
    as (_ & _ & _ & H).
  - reflexivity.
  - vm_compute. intros H.
    repeat (destruct H as [H | H]; [discriminate H |]). exact H.
  - destruct (H unicorn_profile
                [ JObj [("name", JStr "Python"); ("weight", JInt 9)];
                  JObj [("name", JStr "Unit Testing"); ("weight", JInt 7)] ])
      as (adjusted & sorted & Ha & Hs & Hnode).
    + reflexivity.
    + discriminate.
    + reflexivity.
    + repeat constructor.
    + vm_compute in Ha. injection Ha as <-.
      vm_compute in Hs. injection Hs as <-.
      exact Hnode.
Defined.

(** ** Strings *)

Lemma append_assoc (a b c : string) : (a ++ b) ++ c = a ++ (b ++ c).
Proof. induction a as [| x a IH]; cbn; [reflexivity | now rewrite IH]. Qed.

Lemma append_nil_r (a : string) : a ++ "" = a.
Proof. induction a as [| x a IH]; cbn; [reflexivity | now rewrite IH]. Qed.

Lemma length_append (a b : string) :
  String.length (a ++ b) = String.length a + String.length b.
Proof. induction a as [| x a IH]; cbn; [reflexivity | now rewrite IH]. Qed.

Lemma contains_char_app (ch : ascii) (a b : string) :
  contains_char ch (a ++ b) = contains_char ch a || contains_char ch b.
Proof.
  induction a as [| x a IH]; cbn; [reflexivity |].
  rewrite IH. now rewrite orb_assoc.
Qed.

Lemma contains_char_take (ch : ascii) (n : nat) (s : string) :
  contains_char ch s = false -> contains_char ch (take n s) = false.
Proof.
  revert s. induction n as [| n IH]; intros [| x s]; cbn; try reflexivity.
  intros H. apply orb_false_iff in H as [Hx Hs].
  rewrite Hx. cbn. now apply IH.
Qed.

Lemma drop_app_length (a b : string) : drop (String.length a) (a ++ b) = b.
Proof. induction a as [| x a IH]; cbn; [now destruct b | exact IH]. Qed.

Lemma take_app_length (a b : string) : take (String.length a) (a ++ b) = a.
Proof. induction a as [| x a IH]; cbn; [now destruct b | now rewrite IH]. Qed.

Lemma startswith_inv (p s : string) :
  startswith p s = true -> exists r, s = p ++ r.
Proof.
  revert s. induction p as [| a p IH]; intros s H.
  - now exists s.
  - destruct s as [| b s]; cbn in H; [discriminate |].
    apply andb_true_iff in H as [Hab Hp]. apply Ascii.eqb_eq in Hab. subst b.
    destruct (IH s Hp) as [r ->]. now exists r.
Qed.

Lemma endswith_length (p s : string) :
  endswith p s = true -> String.length p <= String.length s.
Proof.
  induction s as [| x s IH]; cbn [endswith]; intros H.
  - rewrite orb_false_r in H. apply String.eqb_eq in H. now subst.
  - apply orb_true_iff in H as [H | H].
    + apply String.eqb_eq in H. now subst.
    + specialize (IH H). cbn. lia.
Qed.

(** Dropping leading characters of a class that excludes the first
    character of [rest] leaves a suffix of the prefix in front of it. *)
Lemma drop_while_frame (p : ascii -> bool) (c ch : ascii) (rest : string) :
  p c = false ->
  forall pre, contains_char ch pre = false ->
    exists pre', drop_while p (pre ++ String c rest) = pre' ++ String c rest
                 /\ contains_char ch pre' = false.
Proof.
  intros Hc. induction pre as [| x pre IH]; intros Hpre.
  - exists "". cbn. now rewrite Hc.
  - cbn in Hpre. apply orb_false_iff in Hpre as [Hx Hp].
    cbn [append drop_while]. destruct (p x).
    + now apply IH.
    + exists (String x pre). split; [reflexivity |]. cbn. now rewrite Hx.
Qed.

Lemma lstrip_drop_while (s : string) : lstrip s = drop_while isspace s.
Proof. induction s as [| x s IH]; cbn; [reflexivity | now rewrite IH]. Qed.

Lemma rstrip_nonspace (c : ascii) (s : string) :
  isspace c = false -> rstrip (String c s) = String c (rstrip s).
Proof. intros Hc. cbn [rstrip]. destruct (rstrip s); now rewrite ?Hc. Qed.

Lemma rstrip_app_nonspace (a : string) (c : ascii) (s : string) :
  isspace c = false -> rstrip (a ++ String c s) = a ++ String c (rstrip s).
Proof.
  intros Hc. induction a as [| x a IH]; cbn [append].
  - now apply rstrip_nonspace.
  - cbn [rstrip]. rewrite IH. now destruct a.
Qed.

Lemma contains_char_rstrip (ch : ascii) (s : string) :
  contains_char ch s = false -> contains_char ch (rstrip s) = false.
Proof.
  induction s as [| x s IH]; cbn [rstrip contains_char]; [reflexivity |].
  intros H. apply orb_false_iff in H as [Hx Hs]. specialize (IH Hs).
  destruct (rstrip s).
  - destruct (isspace x); cbn; [reflexivity | now rewrite Hx].
  - cbn [contains_char] in *. now rewrite Hx.
Qed.

Lemma drop_last_cons (n : nat) (x : ascii) (s : string) :
  n <= String.length s -> drop_last n (String x s) = String x (drop_last n s).
Proof.
  intros H. unfold drop_last. cbn [String.length].
  replace (S (String.length s) - n) with (S (String.length s - n)) by lia.
  reflexivity.
Qed.

(** A closing fence after a closing brace lies wholly behind the brace. *)
Lemma drop_last_fence_frame (a post : string) :
  contains_char "}" post = false ->
  endswith FENCE (a ++ String "}" post) = true ->
  exists post', drop_last 3 (a ++ String "}" post) = a ++ String "}" post'
                /\ contains_char "}" post' = false.
Proof.
  intros Hpost. induction a as [| x a IH]; cbn [append]; intros He.
  - cbn [endswith] in He. cbn [String.eqb FENCE Ascii.eqb Bool.eqb orb] in He.
    pose proof (endswith_length _ _ He) as Hl.
    exists (drop_last 3 post). split.
    + now apply drop_last_cons.
    + now apply contains_char_take.
  - cbn [endswith] in He. apply orb_true_iff in He as [He | He].
    + exfalso. apply String.eqb_eq in He.
      assert (Hc : contains_char "}" (String x (a ++ String "}" post)) = true).
      { cbn [contains_char]. rewrite contains_char_app. cbn.
        now rewrite !orb_true_r. }
      rewrite <- He in Hc. discriminate Hc.
    + destruct (IH He) as [post' [Hd Hp]]. exists post'. split; [| exact Hp].
      pose proof (endswith_length _ _ He) as Hl.
      rewrite drop_last_cons by exact Hl. now rewrite Hd.
Qed.

Lemma find_char_frame (ch : ascii) (pre rest : string) :
  contains_char ch pre = false ->
  find_char ch (pre ++ String ch rest) = Some (String.length pre).
Proof.
  induction pre as [| x pre IH]; cbn [append find_char contains_char String.length].
  - now rewrite Ascii.eqb_refl.
  - intros H. apply orb_false_iff in H as [Hx Hp]. rewrite Hx.
    now rewrite (IH Hp).
Qed.

Lemma rfind_char_none (ch : ascii) (s : string) :
  contains_char ch s = false -> rfind_char ch s = None.
Proof.
  induction s as [| x s IH]; cbn; [reflexivity |].
  intros H. apply orb_false_iff in H as [Hx Hs]. now rewrite (IH Hs), Hx.
Qed.

Lemma find_char_none (ch : ascii) (s : string) :
  contains_char ch s = false -> find_char ch s = None.
Proof.
  induction s as [| x s IH]; cbn; [reflexivity |].
  intros H. apply orb_false_iff in H as [Hx Hs]. now rewrite (IH Hs), Hx.
Qed.

Lemma rfind_char_frame (ch : ascii) (a post : string) :
  contains_char ch post = false ->
  rfind_char ch (a ++ String ch post) = Some (String.length a).
Proof.
  intros Hp. induction a as [| x a IH]; cbn [append rfind_char String.length].
  - now rewrite (rfind_char_none _ _ Hp), Ascii.eqb_refl.
  - now rewrite IH.
Qed.

(** ** Extraction of a JSON object from noisy text *)
Lemma frame_right (pre inner post : string) :
  pre ++ braced inner ++ post = (pre ++ String "{" inner) ++ String "}" post.
Proof.
  unfold braced. cbn [append]. rewrite !append_assoc. reflexivity.
Qed.

Section Framing.

Variable inner : string.
Let body := braced inner.

Lemma framed_rstrip (s : string) : framed body s -> framed body (rstrip s).
Proof.
  intros (pre & post & -> & Hpre & Hpost). subst body.
  rewrite frame_right, rstrip_app_nonspace by reflexivity.
  exists pre, (rstrip post). rewrite frame_right.
  repeat split; [assumption | now apply contains_char_rstrip].
Qed.

Lemma framed_drop_while (p : ascii -> bool) (s : string) :
  p "{"%char = false -> framed body s -> framed body (drop_while p s).
Proof.
  intros Hp (pre & post & -> & Hpre & Hpost). subst body.
  destruct (drop_while_frame p "{" "{" ((inner ++ "}") ++ post) Hp pre Hpre)
    as (pre' & Hd & Hpre').
  exists pre', post. split; [exact Hd | now split].
Qed.

Lemma framed_strip (s : string) : framed body s -> framed body (strip s).
Proof.
  intros H. unfold strip. rewrite lstrip_drop_while.
  apply framed_drop_while; [reflexivity | now apply framed_rstrip].
Qed.

Lemma framed_drop_fence (s : string) :
  startswith FENCE s = true -> framed body s -> framed body (drop 3 s).
Proof.
  intros Hs (pre & post & -> & Hpre & Hpost). subst body.
  destruct pre as [| c1 [| c2 [| c3 pre1]]];
    cbn [append braced startswith FENCE] in Hs.
  - apply andb_true_iff in Hs as [Hs _]. discriminate Hs.
  - apply andb_true_iff in Hs as [_ Hs].
    apply andb_true_iff in Hs as [Hs _]. discriminate Hs.
  - apply andb_true_iff in Hs as [_ Hs].
    apply andb_true_iff in Hs as [_ Hs].
    apply andb_true_iff in Hs as [Hs _]. discriminate Hs.
  - exists pre1, post. split; [reflexivity |]. split; [| assumption].
    cbn [contains_char] in Hpre.
    apply orb_false_iff in Hpre as [_ Hpre].
    apply orb_false_iff in Hpre as [_ Hpre].
    now apply orb_false_iff in Hpre as [_ Hpre].
Qed.

Lemma framed_sub_leading_fence (s : string) :
  framed body s -> framed body (sub_leading_fence s).
Proof.
  intros H. unfold sub_leading_fence.
  destruct (startswith FENCE s) eqn:Hs; [| assumption].
  repeat apply framed_drop_while; try reflexivity.
  now apply framed_drop_fence.
Qed.

Lemma framed_sub_trailing_fence (s : string) :
  framed body s -> framed body (sub_trailing_fence s).
Proof.
  intros H. unfold sub_trailing_fence.
  destruct (endswith FENCE (rstrip s)) eqn:He; [| assumption].
  destruct (framed_rstrip s H) as (pre & post & Ht & Hpre & Hpost).
  subst body. rewrite Ht in He |- *. rewrite frame_right in He |- *.
  destruct (drop_last_fence_frame _ _ Hpost He) as (post' & Hd & Hp').
  exists pre, post'. rewrite Hd, frame_right. now repeat split.
Qed.

Lemma framed_strip_markdown_fences (s : string) :
  framed body s -> framed body (_strip_markdown_fences s).
Proof.
  intros H. unfold _strip_markdown_fences.
  now apply framed_strip, framed_sub_trailing_fence,
    framed_sub_leading_fence, framed_strip.
Qed.

(** In a framed text the first opening brace and the last closing brace
    are those of the body. *)
Lemma framed_slice (s : string) :
  framed body s ->
  exists start stop,
    find_char "{" s = Some start
    /\ rfind_char "}" s = Some stop
    /\ (stop <=? start) = false
    /\ substring start (S stop) s = body.
Proof.
  intros (pre & post & -> & Hpre & Hpost). subst body.
  exists (String.length pre), (String.length (pre ++ String "{" inner)).
  split; [| split; [| split]].
  - exact (find_char_frame "{" pre ((inner ++ "}") ++ post) Hpre).
  - rewrite frame_right. now apply rfind_char_frame.
  - apply Nat.leb_gt. rewrite length_append. cbn [String.length]. lia.
  - unfold substring. rewrite drop_app_length.
    replace (S (String.length (pre ++ String "{" inner)) - String.length pre)
      with (String.length (braced inner)).
    + apply take_app_length.
    + unfold braced. rewrite !length_append. cbn [String.length]. lia.
Qed.

End Framing.

Lemma try_extract_json_sound (E : Externals) (text : string) (o : dict) :
  _try_extract_json E text = Some o ->
  exists candidate, json_loads E candidate = Some (JObj o).
Proof.
  unfold _try_extract_json.
  destruct (String.length text <? 10); [discriminate |].
  destruct (find_char "{" (_strip_markdown_fences text)) as [start |];
    [| discriminate].
  destruct (rfind_char "}" (_strip_markdown_fences text)) as [stop |];
    [| discriminate].
  destruct (stop <=? start); [discriminate |].
  destruct (json_loads E _) as [[| | | | | | d] |] eqn:Hl; try discriminate.
  intros H. injection H as <-. eexists. exact Hl.
Qed.

Lemma contains_char_drop_while (ch : ascii) (p : ascii -> bool) (s : string) :
  contains_char ch s = false -> contains_char ch (drop_while p s) = false.
Proof.
  induction s as [| x s IH]; cbn [drop_while]; [reflexivity |].
  intros H. destruct (p x); [| exact H].
  cbn in H. apply orb_false_iff in H as [_ H]. now apply IH.
Qed.

Lemma contains_char_drop (ch : ascii) (n : nat) (s : string) :
  contains_char ch s = false -> contains_char ch (drop n s) = false.
Proof.
  revert s. induction n as [| n IH]; intros [| x s]; cbn; try tauto.
  intros H. apply orb_false_iff in H as [_ H]. now apply IH.
Qed.

Lemma contains_char_strip_markdown_fences (ch : ascii) (s : string) :
  contains_char ch s = false ->
  contains_char ch (_strip_markdown_fences s) = false.
Proof.
  intros H. unfold _strip_markdown_fences, strip.
  assert (Hstrip : forall t, contains_char ch t = false ->
                             contains_char ch (lstrip (rstrip t)) = false).
  { intros t Ht. rewrite lstrip_drop_while.
    now apply contains_char_drop_while, contains_char_rstrip. }
  apply Hstrip. unfold sub_trailing_fence.
  assert (Hl : contains_char ch (sub_leading_fence (lstrip (rstrip s))) = false).
  { unfold sub_leading_fence. destruct (startswith FENCE _); [| now apply Hstrip].
    now apply contains_char_drop_while, contains_char_drop_while,
      contains_char_drop, Hstrip. }
  destruct (endswith FENCE _); [| exact Hl].
  unfold drop_last. now apply contains_char_take, contains_char_rstrip.
Qed.

(** The JD node locates the object in its own way (jd_node.py lines
    53-67): it strips the fences and cuts off leading prose, but it keeps
    trailing prose when the text starts with the brace, and it has no
    length guard. *)
Lemma jd_candidate_examples :
  jd_candidate fenced_python_payload = python_payload
  /\ jd_candidate ("Here you go: " ++ python_payload ++ " Hope it helps.")
     = python_payload
  /\ jd_candidate (python_payload ++ " Hope it helps.")
     = python_payload ++ " Hope it helps."
  /\ jd_candidate "{}" = "{}".
Proof. repeat split; vm_compute; reflexivity. Qed.

(** C8, as the claim states it: a JSON object between prose that itself
    contains braces is not extracted. *)
Lemma extract_json_arbitrary_prose_counterexample :
  JsonReader.loads (q "{'a': 1, 'b': 2}")
  = Some (JObj [("a", JInt 1); ("b", JInt 2)])
  /\ _try_extract_json example_externals
       ("Note {draft}: " ++ q "{'a': 1, 'b': 2}" ++ " thanks") = None.
Proof. split; vm_compute; reflexivity. Qed.

Lemma try_extract_json_any_framed (parse : string -> res JSON)
  (inner pre post : string) (o : dict) :
  parse (braced inner) = Ok (JObj o) ->
  contains_char "{" pre = false ->
  contains_char "}" post = false ->
  10 <= String.length (pre ++ braced inner ++ post) ->
  AnyParser._try_extract_json parse (pre ++ braced inner ++ post) = Ok (Some o).
Proof.
  intros Hload Hpre Hpost Hlen. unfold AnyParser._try_extract_json.
  destruct (String.length (pre ++ braced inner ++ post) <? 10) eqn:Hl.
  { apply Nat.ltb_lt in Hl. lia. }
  assert (Hf : framed (braced inner) (pre ++ braced inner ++ post)).
  { now exists pre, post. }
  apply framed_strip_markdown_fences in Hf.
  destruct (framed_slice _ _ Hf) as (start & stop & H1 & H2 & H3 & H4).
  now rewrite H1, H2, H3, H4, Hload.
Qed.

(** The extraction of the embedding is the general one under the parser of
    the externals, which raises nothing but [JSONDecodeError]. *)
Lemma try_extract_json_any_loads (E : Externals) (text : string) :
  AnyParser._try_extract_json (loads E) text = Ok (_try_extract_json E text).
Proof.
  unfold AnyParser._try_extract_json, _try_extract_json, loads.
  destruct (String.length text <? 10); [reflexivity |].
  destruct (find_char "{" _) as [start |]; [| reflexivity].
  destruct (rfind_char "}" _) as [stop |]; [| reflexivity].
  destruct (stop <=? start); [reflexivity |].
  destruct (json_loads E _) as [[| | | | | | d] |]; reflexivity.
Qed.

(** What the extraction does with the slice between the outermost
    braces. *)
Lemma try_extract_json_any_slice (parse : string -> res JSON)
  (text candidate : string) :
  10 <= String.length text ->
  outermost_braces (_strip_markdown_fences text) = Some candidate ->
  AnyParser._try_extract_json parse text
  = match parse candidate with
    | Ok (JObj parsed) => Ok (Some parsed)
    | Ok _ => Ok None
    | Raise e => if AnyParser.caught e then Ok None else Raise e
    end.
Proof.
  intros Hlen Hc. unfold AnyParser._try_extract_json.
  destruct (String.length text <? 10) eqn:Hl.
  { apply Nat.ltb_lt in Hl. lia. }
  unfold outermost_braces in Hc.
  destruct (find_char "{" _) as [start |]; [| discriminate].
  destruct (rfind_char "}" _) as [stop |]; [| discriminate].
  destruct (stop <=? start); [discriminate |].
  injection Hc as ->. reflexivity.
Qed.

(** C8, amended. [_try_extract_json], under a parser with any outcome:
    it returns the object for the text of a JSON object of at least 10
    characters, for a JSON object in triple-backtick fences tagged [json],
    and for a JSON object preceded by prose without opening brace and
    followed by prose without closing brace (at least 10 characters in
    all).  It returns absent, whatever the parser would do, on a text
    without opening brace, on a text without closing brace and on a text
    shorter than 10 characters: the parser is not called.  On a longer text
    with braces it returns absent when the parser rejects the slice between
    the first opening and the last closing brace with a [JSONDecodeError]
    or a [TypeError], as for a truncated or unbalanced object, or reads a
    value that is no object from it; any other exception of the parser
    leaves the function.  Under the parser of the externals it is the
    extraction that the nodes and the endpoint are embedded with. *)
Theorem extract_json_robustness (parse : string -> res JSON) :
  (forall inner o,
     parse (braced inner) = Ok (JObj o) ->
     10 <= String.length (braced inner) ->
     AnyParser._try_extract_json parse (braced inner) = Ok (Some o))
  /\ (forall inner o,
        parse (braced inner) = Ok (JObj o) ->
        AnyParser._try_extract_json parse
          ("```json" ++ chr nl ++ braced inner ++ chr nl ++ "```")
        = Ok (Some o))
  /\ (forall inner pre post o,
        parse (braced inner) = Ok (JObj o) ->
        contains_char "{" pre = false ->
        contains_char "}" post = false ->
        10 <= String.length (pre ++ braced inner ++ post) ->
        AnyParser._try_extract_json parse (pre ++ braced inner ++ post)
        = Ok (Some o))
  /\ (forall text e,
        contains_char "{" text = false
        \/ contains_char "}" text = false
        \/ String.length text < 10 ->
        AnyParser._try_extract_json parse text = Ok None
        /\ AnyParser._try_extract_json (raising_parser e) text = Ok None)
  /\ (forall text candidate,
        10 <= String.length text ->
        outermost_braces (_strip_markdown_fences text) = Some candidate ->
        (forall e, parse candidate = Raise e ->
                   exn_kind_of e = JSONDecodeError \/ exn_kind_of e = TypeError ->
                   AnyParser._try_extract_json parse text = Ok None)
        /\ (forall v, parse candidate = Ok v ->
                      (forall o, v <> JObj o) ->
                      AnyParser._try_extract_json parse text = Ok None)
        /\ (forall e, parse candidate = Raise e ->
                      exn_kind_of e <> JSONDecodeError ->
                      exn_kind_of e <> TypeError ->
                      AnyParser._try_extract_json parse text = Raise e))
  /\ AnyParser._try_extract_json (loads example_externals)
       (q "{'skills': [{'name': 'Python', 'weight': 15}") = Ok None
  /\ AnyParser._try_extract_json (loads example_externals)
       (q "{'skills': [{'name': 'Python'}]}}") = Ok None
  /\ (forall E text,
        AnyParser._try_extract_json (loads E) text
        = Ok (_try_extract_json E text)).
Proof.
  split; [| split; [| split; [| split; [| split; [| split; [| split]]]]]].
  - intros inner o Hl Hlen.
    pose proof (try_extract_json_any_framed parse inner "" "" o Hl
                  eq_refl eq_refl) as H.
    cbn [append] in H. rewrite append_nil_r in H. now apply H.
  - intros inner o Hl.
    pose proof (try_extract_json_any_framed parse inner ("```json" ++ chr nl)
                  (chr nl ++ "```") o Hl eq_refl eq_refl) as H.
    rewrite append_assoc in H. apply H.
    rewrite !length_append. cbn [String.length chr]. lia.
  - intros inner pre post o. apply try_extract_json_any_framed.
  - assert (Hnone : forall p text,
              contains_char "{" text = false
              \/ contains_char "}" text = false
              \/ String.length text < 10 ->
              AnyParser._try_extract_json p text = Ok None).
    { intros p text Hno. unfold AnyParser._try_extract_json.
      destruct (String.length text <? 10) eqn:Hlen; [reflexivity |].
      destruct Hno as [Hno | [Hno | Hno]].
      - now rewrite (find_char_none _ _
                       (contains_char_strip_markdown_fences _ _ Hno)).
      - rewrite (rfind_char_none _ _
                   (contains_char_strip_markdown_fences _ _ Hno)).
        now destruct (find_char _ _).
      - apply Nat.ltb_ge in Hlen. lia. }
    intros text e Hno. split; now apply Hnone.
  - intros text candidate Hlen Hc.
    rewrite (try_extract_json_any_slice parse text candidate Hlen Hc).
    split; [| split].
    + intros e -> Hk. unfold AnyParser.caught. now destruct Hk as [-> | ->].
    + intros v -> Hv. destruct v; try reflexivity. now destruct (Hv fields).
    + intros e -> H1 H2. unfold AnyParser.caught.
      destruct (exn_kind_of e); congruence.
  - vm_compute. reflexivity.
  - vm_compute. reflexivity.
  - apply try_extract_json_any_loads.
Qed.

(** The fenced payload of the end-to-end scenario is extracted. *)
Lemma extract_json_robustness_witness :
  AnyParser._try_extract_json (loads example_externals) fenced_python_payload
  = Ok (Some [ ("skills",
                JArr [JObj [("name", JStr "Python"); ("weight", JInt 15)]]) ]).
Proof.
  destruct (extract_json_robustness (loads example_externals))
    as (_ & Hfenced & _).
  apply (Hfenced (q "'skills':[{'name':'Python','weight':15}]")).
  vm_compute. reflexivity.
Defined.

(** ** The end-to-end JD scenario *)

Lemma jd_node_python_payload (E : Externals) (state : dict) (prompt : string) :
  user_prompt E JdAnalysis state = Ok prompt ->
  json_loads E python_payload = Some python_profile ->
  result_of (jd_analysis_node E state (always fenced_python_payload))
  = Ok [ ("skill_profile", python_profile);
         ("engineering_expectations", JArr []);
         ("current_phase", JStr "jd_analysis_complete");
         ("messages", JArr [JStr fenced_python_payload]) ].
Proof.
  intros Hprompt Hloads.
  assert (Hc : jd_candidate fenced_python_payload = python_payload)
    by (vm_compute; reflexivity).
  unfold jd_analysis_node, initial_messages. rewrite Hprompt.
  cbn [bind jd_attempts always]. rewrite Hc, Hloads. reflexivity.
Qed.

Lemma capstone_node_python_payload (E : Externals) (state : dict) (prompt : string) :
  user_prompt E Capstone state = Ok prompt ->
  json_loads E python_payload = Some python_profile ->
  result_of (capstone_generator_node E state (always fenced_python_payload))
  = Ok [ ("generated_projects", JArr []);
         ("current_phase", JStr "capstone_generation_complete");
         ("messages", JArr [JStr fenced_python_payload]) ].
Proof.
  intros Hprompt Hloads.
  assert (Hc : capstone_candidate fenced_python_payload = python_payload)
    by (vm_compute; reflexivity).
  unfold capstone_generator_node, initial_messages. rewrite Hprompt.
  cbn [bind always capstone_attempts]. rewrite Hc, Hloads. reflexivity.
Qed.


(** The pipeline on the scenario, for one company type: the company step
    is evaluated, the capstone step reports no error, the rest is
    computation. *)
Ltac run_jd_pipeline Hnode Hcap Hloads :=
  unfold jd_pipeline_profile; rewrite Hnode; cbn [bind];
  match goal with
  | |- context [company_logic_node ?st] =>
      let Hco := fresh "Hco" in
      destruct (company_logic_node st) as [adjusted | e] eqn:Hco;
      vm_compute in Hco; [injection Hco as <- | discriminate Hco]
  end;
  cbn [bind];
  match goal with
  | |- context [capstone_generator_node ?E ?st ?llm] =>
      rewrite (capstone_node_python_payload E st _ (Hcap st) Hloads)
  end;
  eexists; split; [vm_compute; reflexivity | reflexivity].



(** ** Answers that cannot be parsed *)

Section Unparseable.

Variable E : Externals.
Variable state : dict.
Variable llm : generator.

Lemma jd_unparseable_outcome (prompt a1 a2 : string) :
  user_prompt E JdAnalysis state = Ok prompt ->
  llm (first_history E JdAnalysis prompt) = Ok a1 ->
  json_loads E (jd_candidate a1) = None ->
  llm (second_history E JdAnalysis prompt) = Ok a2 ->
  json_loads E (jd_candidate a2) = None ->
  jd_analysis_node E state llm
  = (Ok (jd_fallback_result state a2),
     [first_history E JdAnalysis prompt; second_history E JdAnalysis prompt]).
Proof.
  intros Hp H1 L1 H2 L2.
  unfold jd_analysis_node, initial_messages. rewrite Hp.
  cbn [bind jd_attempts].
  fold (first_history E JdAnalysis prompt). rewrite H1, L1.
  cbn [Nat.eqb app].
  change (first_history E JdAnalysis prompt ++ [(HumanMessage, JD_RETRY_MESSAGE)])%list
    with (second_history E JdAnalysis prompt).
  rewrite H2, L2. reflexivity.
Qed.

Lemma fitness_unparseable_outcome (prompt a1 a2 : string) (errors : list JSON) :
  user_prompt E Fitness state = Ok prompt ->
  Py.or_else (Py.dget state "errors" JNull) (JArr []) = JArr errors ->
  llm (first_history E Fitness prompt) = Ok a1 ->
  json_loads E (fitness_candidate a1) = None ->
  llm (second_history E Fitness prompt) = Ok a2 ->
  json_loads E (fitness_candidate a2) = None ->
  fitness_scorer_node E state llm
  = (Ok (fitness_parse_failure errors),
     [first_history E Fitness prompt; second_history E Fitness prompt]).
Proof.
  intros Hp He H1 L1 H2 L2.
  unfold fitness_scorer_node, initial_messages. rewrite Hp.
  cbn [bind fitness_attempts].
  fold (first_history E Fitness prompt). rewrite H1, L1.
  cbn [Nat.eqb app].
  change (first_history E Fitness prompt ++ [(HumanMessage, FITNESS_RETRY_MESSAGE)])%list
    with (second_history E Fitness prompt).
  rewrite H2, L2. cbn [Nat.eqb]. unfold errors_plus. rewrite He. reflexivity.
Qed.

Lemma capstone_unparseable_outcome (prompt a1 a2 : string) :
  user_prompt E Capstone state = Ok prompt ->
  llm (first_history E Capstone prompt) = Ok a1 ->
  json_loads E (capstone_candidate a1) = None ->
  llm (second_history E Capstone prompt) = Ok a2 ->
  json_loads E (capstone_candidate a2) = None ->
  capstone_generator_node E state llm
  = (Ok (capstone_fallback_result a2),
     [first_history E Capstone prompt; second_history E Capstone prompt]).
Proof.
  intros Hp H1 L1 H2 L2.
  unfold capstone_generator_node, initial_messages. rewrite Hp.
  cbn [bind]. fold (first_history E Capstone prompt). rewrite H1.
  cbn [capstone_attempts]. rewrite L1. cbn [Nat.eqb].
  change (first_history E Capstone prompt ++ [(HumanMessage, CAPSTONE_RETRY_MESSAGE)])%list
    with (second_history E Capstone prompt).
  rewrite H2, L2. reflexivity.
Qed.

Lemma scaffold_unparseable_outcome (prompt a : string) :
  user_prompt E Scaffold state = Ok prompt ->
  llm (first_history E Scaffold prompt) = Ok a ->
  json_loads E (scaffold_candidate a) = None ->
  scaffold_generator_node E state llm
  = (Ok scaffold_parse_failure, [first_history E Scaffold prompt]).
Proof.
  intros Hp H1 L1.
  unfold scaffold_generator_node, initial_messages. rewrite Hp.
  cbn [bind]. fold (first_history E Scaffold prompt). rewrite H1.
  unfold _parse_scaffold_response, loads. rewrite L1. reflexivity.
Qed.

Lemma parse_scorecard_unparseable (a : string) :
  unparseable E RepoScorecard a ->
  _parse_scorecard E a = scorecard_defaults (scorecard_candidate a).
Proof.
  intros [L1 L2]. cbn [candidate_of] in L1, L2. unfold brace_slice in L2.
  unfold _parse_scorecard. rewrite L1.
  destruct (find_char "{" (scorecard_candidate a)) as [start |]; [| reflexivity].
  destruct (rfind_char "}" (scorecard_candidate a)) as [stop |]; [| reflexivity].
  destruct (start <? S stop); [| reflexivity].
  now rewrite L2.
Qed.

Lemma defaults_look_like_fallback (c : string) :
  looks_like_fallback 0 (scorecard_defaults c) = Ok true
  /\ exists b, looks_like_fallback 1 (scorecard_defaults c) = Ok b.
Proof.
  unfold looks_like_fallback, scorecard_defaults. cbn [Py.get bind].
  unfold Py.dget. cbn [Py.lookup String.eqb Ascii.eqb Bool.eqb].
  destruct (startswith UNABLE _); split; try reflexivity; eexists; reflexivity.
Qed.

Lemma repo_unparseable_outcome (prompt a1 a2 : string) (r : RepoAnalysisResult) :
  Py.truthy (Py.dget state "repo_url" JNull) = true ->
  analyze_github_repo E (Py.dget state "repo_url" JNull) = Ok r ->
  user_prompt E RepoScorecard state = Ok prompt ->
  llm (first_history E RepoScorecard prompt) = Ok a1 ->
  unparseable E RepoScorecard a1 ->
  llm (second_history E RepoScorecard prompt) = Ok a2 ->
  unparseable E RepoScorecard a2 ->
  repo_analysis_node E state llm
  = (Ok (repo_fallback_result E state r a2),
     [first_history E RepoScorecard prompt; second_history E RepoScorecard prompt]).
Proof.
  intros Hurl Hr Hp H1 U1 H2 U2.
  unfold repo_analysis_node, initial_messages. rewrite Hurl, Hr, Hp.
  cbn [negb bind repo_attempts].
  fold (first_history E RepoScorecard prompt). rewrite H1.
  rewrite (parse_scorecard_unparseable a1 U1).
  destruct (defaults_look_like_fallback (scorecard_candidate a1)) as [-> _].
  cbn [Nat.eqb app].
  change (first_history E RepoScorecard prompt ++ [(HumanMessage, REPO_RETRY_MESSAGE)])%list
    with (second_history E RepoScorecard prompt).
  rewrite H2. rewrite (parse_scorecard_unparseable a2 U2).
  destruct (defaults_look_like_fallback (scorecard_candidate a2)) as [_ [b ->]].
  cbn [Nat.eqb]. destruct b; reflexivity.
Qed.

End Unparseable.

(** C1, as the claim states it: when the fitness task or the scaffold task
    gets an unparseable answer on every attempt it returns no fallback
    result; it reports the parse failure to the caller under [errors]. *)
Lemma soft_parse_failure_counterexample :
  result_of (fitness_scorer_node example_externals example_state (always REFUSAL))
  = Ok [ ("fitness_result", JNull);
         ("errors", JArr [JStr "Failed to parse fitness evaluation"]) ]
  /\ reports_error
       (fitness_scorer_node example_externals example_state (always REFUSAL))
     = true
  /\ reports_error
       (scaffold_generator_node example_externals example_state (always REFUSAL))
     = true.
Proof. repeat split; vm_compute; reflexivity. Qed.

Lemma portfolio_unparseable_reason (E : Externals) (state : dict) (llm : generator)
  (prompt a : string) :
  Py.truthy (Py.dget state "portfolio_project_title" (JStr "")) = true ->
  Py.truthy (Py.dget state "portfolio_project_description" (JStr "")) = true ->
  user_prompt E Portfolio state = Ok prompt ->
  llm (first_history E Portfolio prompt) = Ok a ->
  unparseable E Portfolio a ->
  portfolio_optimizer_node E state llm
  = (Ok (portfolio_error (portfolio_parse_error E a)),
     [first_history E Portfolio prompt]).
Proof.
  intros Ht Hd Hp H1 [L1 L2]. unfold portfolio_parse_error.
  cbn [candidate_of] in *. unfold brace_slice in *.
  unfold portfolio_optimizer_node. rewrite Ht, Hd, Hp. cbn [negb orb].
  fold (first_history E Portfolio prompt). rewrite H1.
  unfold _parse_portfolio_response. rewrite L1.
  destruct (find_char "{" _) as [start |]; [| reflexivity].
  destruct (rfind_char "}" _) as [stop |]; [| reflexivity].
  destruct (start <? S stop); [| reflexivity].
  rewrite L2. reflexivity.
Qed.

(** The summary of the fallback scorecard: the answer without the blanks
    around it and without its fence lines, cut to 500 characters, and a
    fixed text for an empty answer. *)
Example fallback_summary_examples :
  fallback_summary "  Sorry, no.  " = "Sorry, no."
  /\ fallback_summary ("```json" ++ chr nl ++ "not json" ++ chr nl ++ "```")
     = "not json"
  /\ fallback_summary "   " = "Analysis completed but response parsing failed."
  /\ String.length (fallback_summary (replicate 600 "x")) = 500.
Proof. repeat split; vm_compute; reflexivity. Qed.

(** What a task returns, and what it asked the generator, in a run without
    parseable answer. *)
Lemma unparseable_run_outcome (E : Externals) (t : task) (state : dict)
  (llm : generator) (prompt first last : string) (errors : list JSON)
  (r : RepoAnalysisResult) :
  ready_for E t state errors r ->
  unparseable_run E t state llm prompt first last ->
  node E t state llm
  = (Ok (soft_failure_result E t state errors r last), run_histories E t prompt).
Proof.
  intros Hready (Hp & H1 & U1 & Hlast).
  destruct t; cbn [retries] in Hlast; cbn [ready_for] in Hready; cbn [node].
  - destruct Hlast as [H2 U2]. destruct U1 as [L1 _], U2 as [L2 _].
    exact (jd_unparseable_outcome E state llm prompt first last Hp H1 L1 H2 L2).
  - destruct Hlast as [H2 U2]. destruct U1 as [L1 _], U2 as [L2 _].
    exact (capstone_unparseable_outcome E state llm prompt first last
             Hp H1 L1 H2 L2).
  - subst last. destruct U1 as [L1 _].
    exact (scaffold_unparseable_outcome E state llm prompt first Hp H1 L1).
  - subst last. destruct Hready as [Htitle Hdescr].
    exact (portfolio_unparseable_reason E state llm prompt first
             Htitle Hdescr Hp H1 U1).
  - destruct Hlast as [H2 U2]. destruct U1 as [L1 _], U2 as [L2 _].
    exact (fitness_unparseable_outcome E state llm prompt first last errors
             Hp Hready H1 L1 H2 L2).
  - destruct Hlast as [H2 U2]. destruct Hready as [Hurl Hr].
    exact (repo_unparseable_outcome E state llm prompt first last r
             Hurl Hr Hp H1 U1 H2 U2).
Qed.

(** C1, amended. In a run in which [json.loads] rejects the text of every
    attempt with a [JSONDecodeError], each task returns the result written
    out in [soft_failure_result], built from the state and the last answer,
    after the attempts of [run_histories].  The JD, capstone and scorecard
    tasks return their fallback result and report no error; the fitness,
    scaffold and portfolio tasks have no fallback: their result reports the
    parse failure to the caller under [errors]. *)
Theorem soft_parse_failure_outcomes (E : Externals) (t : task) (state : dict)
  (llm : generator) (prompt first last : string) (errors : list JSON)
  (r : RepoAnalysisResult) :
  ready_for E t state errors r ->
  unparseable_run E t state llm prompt first last ->
  node E t state llm
  = (Ok (soft_failure_result E t state errors r last), run_histories E t prompt)
  /\ reports_error (node E t state llm) = negb (has_fallback t).
Proof.
  intros Hready Hrun.
  pose proof (unparseable_run_outcome E t state llm prompt first last errors r
                Hready Hrun) as Hnode.
  split; [exact Hnode |].
  unfold reports_error. rewrite Hnode. now destruct t.
Qed.

(** A generator that refuses on every attempt: the capstone task returns
    the empty project list after two attempts and reports nothing, the
    fitness task returns an error entry. *)
Lemma soft_parse_failure_witness :
  (capstone_generator_node example_externals example_state (always REFUSAL)
   = (Ok [ ("generated_projects", JArr []);
           ("current_phase", JStr "capstone_generation_complete");
           ("messages", JArr [JStr REFUSAL]) ],
      [ first_history example_externals Capstone "user prompt";
        second_history example_externals Capstone "user prompt" ])
   /\ reports_error
        (capstone_generator_node example_externals example_state (always REFUSAL))
      = false)
  /\ (fitness_scorer_node example_externals example_state (always REFUSAL)
      = (Ok [ ("fitness_result", JNull);
              ("errors", JArr [JStr "Failed to parse fitness evaluation"]) ],
         [ first_history example_externals Fitness "user prompt";
           second_history example_externals Fitness "user prompt" ])
      /\ reports_error
           (fitness_scorer_node example_externals example_state (always REFUSAL))
         = true).
Proof.
  split.
  - apply (soft_parse_failure_outcomes example_externals Capstone example_state
             (always REFUSAL) "user prompt" REFUSAL REFUSAL []
             {| full_name := JStr "owner/repo"; primary_language := JStr "Python";
                total_files := JInt 12; estimated_loc := JInt 3400 |});
      repeat split.
  - apply (soft_parse_failure_outcomes example_externals Fitness example_state
             (always REFUSAL) "user prompt" REFUSAL REFUSAL []
             {| full_name := JStr "owner/repo"; primary_language := JStr "Python";
                total_files := JInt 12; estimated_loc := JInt 3400 |});
      repeat split.
Defined.

Lemma refusal_always_unparseable : always_unparseable example_externals (always REFUSAL).
Proof.
  intros t messages. exists REFUSAL. split; [reflexivity |].
  destruct t; split; vm_compute; (reflexivity || exact I).
Qed.

Lemma example_state_ready : ready example_externals example_state.
Proof.
  repeat split; try reflexivity.
  - intros t. now eexists.
  - now eexists.
  - now eexists.
Qed.

(** ** Determinism of the fallback *)

Lemma sorry_always_unparseable : always_unparseable example_externals (always SORRY).
Proof.
  intros t messages. exists SORRY. split; [reflexivity |].
  destruct t; split; vm_compute; (reflexivity || exact I).
Qed.

(** C4, as the claim states it: two runs of the JD task on generators that
    only return garbage, with different garbage, return different
    results. *)
Lemma fallback_determinism_counterexample :
  always_unparseable example_externals (always REFUSAL)
  /\ always_unparseable example_externals (always SORRY)
  /\ result_of (jd_analysis_node example_externals example_state (always REFUSAL))
     <> result_of (jd_analysis_node example_externals example_state (always SORRY)).
Proof.
  split; [exact refusal_always_unparseable |].
  split; [exact sorry_always_unparseable |].
  vm_compute. discriminate.
Qed.

(** C4, amended. Two runs of a task on the same state, with two generators
    none of whose answers can be parsed: either result is the one written
    out in [soft_failure_result] for the last answer of its run, so that
    the two results are equal as soon as the two last answers are.  The
    fitness and the scaffold task return the same result whatever the
    answers; the results of the capstone task hold the empty project list
    and differ at most in the logged answer; the fallback profiles of the
    JD task agree on every field but [summary], which holds the first 8000
    characters of the last answer; the fallback scorecards agree on every
    field but [summary], which holds the first 500 characters of the last
    answer after its cleaning, or a fixed text when nothing is left of it;
    the portfolio task reports one error, whose text quotes the parser. *)
Theorem fallback_determinism (E : Externals) (t : task) (state : dict)
  (llm1 llm2 : generator) (prompt first1 last1 first2 last2 : string)
  (errors : list JSON) (r : RepoAnalysisResult) :
  ready_for E t state errors r ->
  unparseable_run E t state llm1 prompt first1 last1 ->
  unparseable_run E t state llm2 prompt first2 last2 ->
  result_of (node E t state llm1)
  = Ok (soft_failure_result E t state errors r last1)
  /\ result_of (node E t state llm2)
     = Ok (soft_failure_result E t state errors r last2)
  /\ (last1 = last2 ->
      result_of (node E t state llm1) = result_of (node E t state llm2))
  /\ match t with
     | Fitness | Scaffold =>
         result_of (node E t state llm1) = result_of (node E t state llm2)
     | Capstone =>
         agree_except "messages"
           (soft_failure_result E t state errors r last1)
           (soft_failure_result E t state errors r last2)
         /\ Py.lookup "generated_projects"
              (soft_failure_result E t state errors r last1) = Some (JArr [])
     | JdAnalysis =>
         agree_except "summary"
           (dict_under "skill_profile" (result_of (node E t state llm1)))
           (dict_under "skill_profile" (result_of (node E t state llm2)))
         /\ Py.lookup "summary"
              (dict_under "skill_profile" (result_of (node E t state llm1)))
            = Some (JStr (take n8000 last1))
         /\ Py.lookup "summary"
              (dict_under "skill_profile" (result_of (node E t state llm2)))
            = Some (JStr (take n8000 last2))
     | RepoScorecard =>
         agree_except "summary"
           (dict_under "repo_scorecard" (result_of (node E t state llm1)))
           (dict_under "repo_scorecard" (result_of (node E t state llm2)))
         /\ Py.lookup "summary"
              (dict_under "repo_scorecard" (result_of (node E t state llm1)))
            = Some (JStr (fallback_summary last1))
         /\ Py.lookup "summary"
              (dict_under "repo_scorecard" (result_of (node E t state llm2)))
            = Some (JStr (fallback_summary last2))
     | Portfolio =>
         reported_errors (soft_failure_result E t state errors r last1)
         = Some (JArr [JStr (portfolio_parse_error E last1)])
         /\ reported_errors (soft_failure_result E t state errors r last2)
            = Some (JArr [JStr (portfolio_parse_error E last2)])
     end.
Proof.
  intros Hready Hrun1 Hrun2.
  pose proof (unparseable_run_outcome E t state llm1 prompt first1 last1
                errors r Hready Hrun1) as H1.
  pose proof (unparseable_run_outcome E t state llm2 prompt first2 last2
                errors r Hready Hrun2) as H2.
  unfold result_of. rewrite H1, H2. cbn [fst].
  split; [reflexivity |]. split; [reflexivity |].
  split; [now intros -> |].
  destruct t; cbn [soft_failure_result dict_under Py.lookup String.eqb
                   Ascii.eqb Bool.eqb FALLBACK_PROFILE FALLBACK_SCORECARD].
  - repeat split. intros k' Hk. lookup_cases k'.
  - repeat split. intros k' Hk. lookup_cases k'.
  - reflexivity.
  - split; reflexivity.
  - reflexivity.
  - repeat split. intros k' Hk. lookup_cases k'.
Qed.

(** Two refusing generators with different words: the fallback profiles
    of the JD task differ in their summary alone, the fitness task returns
    the same error entry. *)
Lemma fallback_determinism_witness :
  (agree_except "summary"
     (dict_under "skill_profile"
        (result_of (jd_analysis_node example_externals example_state
                      (always REFUSAL))))
     (dict_under "skill_profile"
        (result_of (jd_analysis_node example_externals example_state
                      (always SORRY))))
   /\ Py.lookup "summary"
        (dict_under "skill_profile"
           (result_of (jd_analysis_node example_externals example_state
                         (always REFUSAL))))
      = Some (JStr (take n8000 REFUSAL))
   /\ Py.lookup "summary"
        (dict_under "skill_profile"
           (result_of (jd_analysis_node example_externals example_state
                         (always SORRY))))
      = Some (JStr (take n8000 SORRY)))
  /\ result_of (fitness_scorer_node example_externals example_state
                  (always REFUSAL))
     = result_of (fitness_scorer_node example_externals example_state
                    (always SORRY)).
Proof.
  split.
  - destruct (fallback_determinism example_externals JdAnalysis example_state
                (always REFUSAL) (always SORRY) "user prompt"
                REFUSAL REFUSAL SORRY SORRY []
                {| full_name := JStr "owner/repo";
                   primary_language := JStr "Python";
                   total_files := JInt 12; estimated_loc := JInt 3400 |})
      as (_ & _ & _ & H); [repeat split .. | exact H].
  - destruct (fallback_determinism example_externals Fitness example_state
                (always REFUSAL) (always SORRY) "user prompt"
                REFUSAL REFUSAL SORRY SORRY []
                {| full_name := JStr "owner/repo";
                   primary_language := JStr "Python";
                   total_files := JInt 12; estimated_loc := JInt 3400 |})
      as (_ & _ & _ & H); [repeat split .. | exact H].
Defined.

(** ** Failures of the generator *)

Section GeneratorFailure.

Variable E : Externals.
Variable state : dict.
Variable llm : generator.
Hypothesis Hready : ready E state.

(** A failure of the first call ends every node. *)
Lemma first_call_failure (t : task) (prompt : string) (e : exn) :
  user_prompt E t state = Ok prompt ->
  llm (first_history E t prompt) = Raise e ->
  node E t state llm = (failure_result t state e, [first_history E t prompt]).
Proof.
  destruct Hready as (_ & _ & Hurl & [r Hr] & Htitle & Hdescr).
  intros Hp Hl. destruct t; cbn [node failure_result].
  - unfold jd_analysis_node, initial_messages. rewrite Hp.
    cbn [bind jd_attempts]. fold (first_history E JdAnalysis prompt).
    now rewrite Hl.
  - unfold capstone_generator_node, initial_messages. rewrite Hp.
    cbn [bind]. fold (first_history E Capstone prompt). now rewrite Hl.
  - unfold scaffold_generator_node, initial_messages. rewrite Hp.
    cbn [bind]. fold (first_history E Scaffold prompt). now rewrite Hl.
  - unfold portfolio_optimizer_node. rewrite Htitle, Hdescr, Hp.
    cbn [negb orb]. fold (first_history E Portfolio prompt). now rewrite Hl.
  - unfold fitness_scorer_node, initial_messages. rewrite Hp.
    cbn [bind fitness_attempts]. fold (first_history E Fitness prompt).
    now rewrite Hl.
  - unfold repo_analysis_node, initial_messages. rewrite Hurl, Hr, Hp.
    cbn [negb bind repo_attempts]. fold (first_history E RepoScorecard prompt).
    now rewrite Hl.
Qed.

(** So does a failure of the second call, after an unparseable answer. *)
Lemma second_call_failure (t : task) (prompt a : string) (e : exn) :
  retries t = true ->
  user_prompt E t state = Ok prompt ->
  llm (first_history E t prompt) = Ok a ->
  unparseable E t a ->
  llm (second_history E t prompt) = Raise e ->
  node E t state llm
  = (failure_result t state e,
     [first_history E t prompt; second_history E t prompt]).
Proof.
  destruct Hready as (_ & _ & Hurl & [r Hr] & _).
  intros Ht Hp H1 U1 H2. pose proof U1 as [L1 _].
  destruct t; try discriminate Ht; cbn [node failure_result candidate_of] in *.
  - unfold jd_analysis_node, initial_messages. rewrite Hp.
    cbn [bind jd_attempts]. fold (first_history E JdAnalysis prompt).
    rewrite H1, L1. cbn [Nat.eqb app].
    change (first_history E JdAnalysis prompt ++ [(HumanMessage, JD_RETRY_MESSAGE)])%list
      with (second_history E JdAnalysis prompt).
    now rewrite H2.
  - unfold capstone_generator_node, initial_messages. rewrite Hp.
    cbn [bind]. fold (first_history E Capstone prompt). rewrite H1.
    cbn [capstone_attempts]. rewrite L1. cbn [Nat.eqb].
    change (first_history E Capstone prompt ++ [(HumanMessage, CAPSTONE_RETRY_MESSAGE)])%list
      with (second_history E Capstone prompt).
    now rewrite H2.
  - unfold fitness_scorer_node, initial_messages. rewrite Hp.
    cbn [bind fitness_attempts]. fold (first_history E Fitness prompt).
    rewrite H1, L1. cbn [Nat.eqb app].
    change (first_history E Fitness prompt ++ [(HumanMessage, FITNESS_RETRY_MESSAGE)])%list
      with (second_history E Fitness prompt).
    now rewrite H2.
  - unfold repo_analysis_node, initial_messages. rewrite Hurl, Hr, Hp.
    cbn [negb bind repo_attempts]. fold (first_history E RepoScorecard prompt).
    rewrite H1, (parse_scorecard_unparseable E a U1).
    destruct (defaults_look_like_fallback (scorecard_candidate a)) as [-> _].
    cbn [Nat.eqb app].
    change (first_history E RepoScorecard prompt ++ [(HumanMessage, REPO_RETRY_MESSAGE)])%list
      with (second_history E RepoScorecard prompt).
    now rewrite H2.
Qed.

(** What a node returns for a failed call reports an error. *)
Lemma failure_result_reports (t : task) (e : exn) :
  exists d, failure_result t state e = Ok d /\ reported_errors d <> None.
Proof.
  destruct Hready as (_ & [errors Herr] & _).
  destruct t; cbn [failure_result].
  - eexists; split; [reflexivity | discriminate].
  - eexists; split; [reflexivity | discriminate].
  - eexists; split; [reflexivity | discriminate].
  - eexists; split; [reflexivity | discriminate].
  - unfold fitness_failed, errors_plus. rewrite Herr.
    eexists; split; [reflexivity | discriminate].
  - unfold repo_handler, repo_failed, errors_plus. rewrite Herr.
    destruct (exn_kind_of e); eexists; (split; [reflexivity | discriminate]).
Qed.

End GeneratorFailure.




(** ** Defaults of bounded numeric fields *)

(** C6, as the claim states it: a fitness payload without score gets the
    score 0, the minimum of the range 0-100, not its midpoint. *)
Lemma numeric_default_counterexample :
  fitness_normalize example_externals (JObj [])
  = Ok [ ("fitness_score", JInt 0); ("verdict", JStr "weak_fit");
         ("matched_skills", JArr []); ("missing_skills", JArr []);
         ("strengths", JArr []); ("improvements", JArr []);
         ("detailed_feedback", JStr "") ].
Proof. vm_compute. reflexivity. Qed.

Lemma make_skill_default_weight (E : Externals) (d : dict) (sk : Skill) :
  Py.lookup "weight" d = None ->
  make_skill E (JObj d) = Ok sk ->
  skill_weight sk = 5%Q.
Proof.
  intros Hw. unfold make_skill. cbn [Py.get bind]. unfold Py.dget.
  rewrite Hw. cbn [py_float bind].
  destruct (str_field "name" _); cbn [bind]; [| discriminate].
  destruct (str_field "category" _); cbn [bind]; [| discriminate].
  change (bounded_field "weight" 0 10 5) with (@Ok Q 5%Q). cbn [bind].
  destruct (str_field "source" _); cbn [bind]; [| discriminate].
  intros H. injection H as <-. reflexivity.
Qed.

Lemma make_expectation_default_importance (E : Externals) (d : dict)
  (ex : EngineeringExpectation) :
  Py.lookup "importance" d = None ->
  make_expectation E (JObj d) = Ok ex ->
  importance ex = 5%Q.
Proof.
  intros Hw. unfold make_expectation. cbn [Py.get bind]. unfold Py.dget.
  rewrite Hw. cbn [py_float bind].
  destruct (str_field "dimension" _); cbn [bind]; [| discriminate].
  change (bounded_field "importance" 0 10 5) with (@Ok Q 5%Q). cbn [bind].
  destruct (str_field "description" _); cbn [bind]; [| discriminate].
  destruct (n500 <? _); [discriminate |].
  intros H. injection H as <-. reflexivity.
Qed.

Lemma fitness_default_score (E : Externals) (d out : dict) :
  Py.lookup "fitness_score" d = None ->
  fitness_normalize E (JObj d) = Ok out ->
  Py.lookup "fitness_score" out = Some (JInt 0).
Proof.
  intros Hs. unfold fitness_normalize. cbn [Py.get bind]. unfold Py.dget.
  rewrite Hs. cbn [py_float bind].
  repeat match goal with
         | |- context [Py.slice_to ?n ?v] =>
             destruct (Py.slice_to n v); cbn [bind]; [| discriminate]
         end.
  intros H. injection H as <-. reflexivity.
Qed.

Lemma bounded_field_outside (field : string) (lo hi x : Q) :
  (x < lo)%Q \/ (hi < x)%Q ->
  bounded_field field lo hi x = Raise (validation_error field).
Proof.
  intros H. unfold bounded_field.
  destruct (Qle_bool lo x) eqn:Hlo; [| reflexivity].
  destruct (Qle_bool x hi) eqn:Hhi; [| reflexivity].
  apply Qle_bool_iff in Hlo, Hhi. exfalso.
  destruct H as [H | H]; [apply (Qlt_not_le _ _ H Hlo) | apply (Qlt_not_le _ _ H Hhi)].
Qed.

Lemma make_skill_unusable (E : Externals) (d : dict) (w : JSON) :
  Py.lookup "weight" d = Some w ->
  unusable_number E 0 10 w ->
  exists e, make_skill E (JObj d) = Raise e.
Proof.
  intros Hw Hu. unfold make_skill. cbn [Py.get bind]. unfold Py.dget.
  rewrite Hw. unfold unusable_number in Hu.
  destruct (py_float E w) as [x | e]; cbn [bind]; [| now eexists].
  destruct (str_field "name" _); cbn [bind]; [| now eexists].
  destruct (str_field "category" _); cbn [bind]; [| now eexists].
  rewrite (bounded_field_outside "weight" 0 10 x Hu). now eexists.
Qed.

Lemma make_expectation_unusable (E : Externals) (d : dict) (i : JSON) :
  Py.lookup "importance" d = Some i ->
  unusable_number E 0 10 i ->
  exists e, make_expectation E (JObj d) = Raise e.
Proof.
  intros Hi Hu. unfold make_expectation. cbn [Py.get bind]. unfold Py.dget.
  rewrite Hi. unfold unusable_number in Hu.
  destruct (py_float E i) as [x | e]; cbn [bind]; [| now eexists].
  destruct (str_field "dimension" _); cbn [bind]; [| now eexists].
  rewrite (bounded_field_outside "importance" 0 10 x Hu). now eexists.
Qed.

Lemma collect_valid_drop {A : Type} (make : JSON -> res A) (bad : JSON) (e : exn)
  (before after : list JSON) :
  make bad = Raise e ->
  collect_valid make (before ++ bad :: after)
  = collect_valid make (before ++ after).
Proof.
  intros Hbad. induction before as [| x before IH]; cbn [app collect_valid].
  - now rewrite Hbad.
  - destruct (make x); now rewrite IH.
Qed.

Lemma reextract_with_skills (E : Externals) (items : list JSON) (raw : dict) :
  items <> [] ->
  reextract_embedded E (Py.set "skills" (JArr items) raw)
  = Py.set "skills" (JArr items) raw.
Proof.
  intros Hne. unfold reextract_embedded. rewrite dget_set_same.
  destruct items; [congruence |]. cbn [Py.truthy negb].
  now destruct (Py.dget _ "summary" JNull).
Qed.

Lemma safe_parse_drops_skill (E : Externals) (raw : dict) (bad : JSON) (e : exn)
  (before after : list JSON) :
  (before ++ after)%list <> [] ->
  make_skill E bad = Raise e ->
  _safe_parse_skill_profile E (with_skills (before ++ bad :: after) raw)
  = _safe_parse_skill_profile E (with_skills (before ++ after) raw).
Proof.
  intros Hne Hbad. unfold _safe_parse_skill_profile, with_skills.
  rewrite !reextract_with_skills by (try assumption; now destruct before).
  rewrite !dget_set_same. cbn [Py.iter bind].
  rewrite (collect_valid_drop (make_skill E) bad e before after Hbad).
  rewrite !dget_set_other by discriminate. reflexivity.
Qed.

Lemma safe_parse_drops_expectation (E : Externals) (raw : dict) (bad : JSON)
  (e : exn) (before after : list JSON) :
  make_expectation E bad = Raise e ->
  _safe_parse_skill_profile E (with_expectations (before ++ bad :: after) raw)
  = _safe_parse_skill_profile E (with_expectations (before ++ after) raw).
Proof.
  intros Hbad. unfold _safe_parse_skill_profile, with_expectations. cbv zeta.
  set (r1 := Py.set "engineering_expectations" (JArr (before ++ bad :: after)) raw).
  set (r2 := Py.set "engineering_expectations" (JArr (before ++ after)) raw).
  assert (Hre : (reextract_embedded E r1 = r1 /\ reextract_embedded E r2 = r2)
                \/ reextract_embedded E r1 = reextract_embedded E r2).
  { unfold reextract_embedded, r1, r2.
    rewrite !dget_set_other by discriminate.
    destruct (Py.dget raw "summary" JNull) as [| | | | text | |]; auto.
    destruct (negb (Py.truthy (Py.dget raw "skills" JNull))); auto.
    destruct (_try_extract_json E text) as [[| kv embedded] |]; auto.
    destruct (Py.dget (kv :: embedded) "skills" JNull) as [| | | | | [| s l] |];
      auto. }
  destruct Hre as [[-> ->] | ->]; [| reflexivity].
  unfold r1, r2. rewrite !dget_set_same.
  repeat rewrite dget_set_other by discriminate.
  destruct (Py.iter (Py.dget raw "skills" (JArr []))); [| reflexivity].
  cbn [Py.iter bind].
  now rewrite (collect_valid_drop (make_expectation E) bad e before after Hbad).
Qed.

(** The company step reads a missing weight as 5.0 when it adjusts a
    skill. *)
Lemma adjust_skill_default_weight (d : dict) (name key : string) (adj : Q) :
  Py.lookup "weight" d = None ->
  Py.dget d "name" (JStr "") = JStr name ->
  contains key (lower name) = true ->
  adjust_skill [(key, adj)] (JObj d)
  = Ok (JObj (Py.set "weight" (clamp_weight (PyFloat.add 5 adj)) d)).
Proof.
  intros Hw Hn Hc. unfold adjust_skill. cbn [Py.get bind]. rewrite Hn.
  cbn [lower_value bind apply_adjustments]. rewrite Hc.
  unfold Py.dget. rewrite Hw. reflexivity.
Qed.

(** It reads a missing weight as 0 when it sorts. *)
Lemma sort_skills_default_weight (d1 d2 : dict) (w : JSON) (x : Q) :
  Py.lookup "weight" d1 = None ->
  Py.lookup "weight" d2 = Some w ->
  Py.num_val w = Some x ->
  sort_skills [JObj d1; JObj d2]
  = Ok (if Qle_bool x 0 then [JObj d1; JObj d2] else [JObj d2; JObj d1]).
Proof.
  intros H1 H2 Hx. unfold sort_skills, sort_key.
  cbn [with_keys Py.get bind sort_key]. unfold Py.dget. rewrite H1, H2.
  cbn [bind sort_desc insert_desc fst].
  rewrite (less_numbers (JInt 0) w 0 x eq_refl Hx). cbn [bind].
  now destruct (Qle_bool x 0).
Qed.

(** The scores of the scorecard that [_parse_scorecard] returns for an
    answer without JSON. *)
Lemma parse_scorecard_default_scores (E : Externals) (a k : string) :
  unparseable E RepoScorecard a ->
  In k SCORE_DIMENSIONS ->
  (dim <- Py.get (_parse_scorecard E a) k JNull ;; Py.get dim "score" JNull)
  = Ok (JFloat 5)
  /\ Py.get (_parse_scorecard E a) "overall_score" JNull = Ok (JFloat 5).
Proof.
  intros Hu Hk. rewrite (parse_scorecard_unparseable E a Hu).
  cbn in Hk. destruct Hk as [<- | [<- | [<- | [<- | [<- | []]]]]];
    split; reflexivity.
Qed.

Lemma safe_parse_dimension_default (E : Externals) (d : dict) (name : string)
  (dim : ScoreDimension) :
  Py.lookup "score" d = None ->
  _safe_parse_dimension E (JObj d) name = Ok dim ->
  dimension_score dim = 5%Q.
Proof.
  intros Hs. unfold _safe_parse_dimension. cbn [Py.get bind]. unfold Py.dget.
  rewrite Hs. cbn [py_float bind].
  destruct (Py.slice_to n1000 _); cbn [bind]; [| discriminate].
  destruct (Py.slice_to 5 _) as [sg |]; cbn [bind]; [| discriminate].
  change (bounded_field "score" 0 10 5) with (@Ok Q 5%Q). cbn [bind].
  destruct (str_field "details" _); cbn [bind]; [| discriminate].
  destruct sg; try discriminate.
  destruct (str_list "suggestions" _); cbn [bind]; [| discriminate].
  intros H. injection H as <-. reflexivity.
Qed.

Lemma listed_analysis_default (E : Externals) (a scorecard : dict) :
  Py.or_else (Py.dget a "scorecard" JNull) (JObj []) = JObj scorecard ->
  Py.lookup "overall_score" scorecard = None ->
  listed_analysis E a
  = Ok (Py.set "overall_score" (JFloat 0) (without "scorecard" a)).
Proof.
  intros Hs Ho. unfold listed_analysis. rewrite Hs. cbn [Py.get bind].
  unfold Py.dget. rewrite Ho. reflexivity.
Qed.

(** The fitness task on an answer whose score is a text that is no
    number. *)
Lemma fitness_node_unconvertible_score (E : Externals) (state : dict)
  (llm : generator) (prompt a text : string) (d : dict) (errors : list JSON) :
  user_prompt E Fitness state = Ok prompt ->
  Py.or_else (Py.dget state "errors" JNull) (JArr []) = JArr errors ->
  llm (first_history E Fitness prompt) = Ok a ->
  json_loads E (fitness_candidate a) = Some (JObj d) ->
  Py.lookup "fitness_score" d = Some (JStr text) ->
  float_of_str E text = None ->
  exists e,
    exn_kind_of e = ValueError
    /\ result_of (fitness_scorer_node E state llm)
       = Ok [ ("fitness_result", JNull);
              ("errors",
               JArr (errors
                     ++ [JStr ("Fitness evaluation failed: "
                               ++ take n200 (exn_str e))])%list) ].
Proof.
  intros Hp He H1 Hl Hs Hf.
  unfold fitness_scorer_node, initial_messages. rewrite Hp.
  cbn [bind fitness_attempts]. fold (first_history E Fitness prompt).
  rewrite H1, Hl. unfold fitness_normalize. cbn [Py.get bind].
  unfold Py.dget. rewrite Hs. cbn [py_float]. rewrite Hf. cbn [bind result_of fst].
  unfold fitness_failed, errors_plus. rewrite He.
  eexists. split; [| reflexivity]. reflexivity.
Qed.

(** C6, amended. The default of a missing numeric field depends on the
    place that reads it.  It is 5.0 for the weight of a skill and the
    importance of an expectation in the re-validation of a profile, for the
    weight that the company step adjusts, for the score of a dimension in
    the re-validation of a scorecard, and for every score of the scorecard
    that stands for an answer without JSON.  It is 0 for the fitness score,
    of range 0-100, for the weight as the sort key of the company step, and
    for the overall score of a listed analysis.  A value that is there is
    not replaced by a default: the re-validation drops a skill or an
    expectation whose weight or importance cannot be converted or lies
    outside 0-10, and the fitness task returns an error result for a score
    that is a text without number. *)
Theorem numeric_defaults (E : Externals) :
  (forall d sk, Py.lookup "weight" d = None ->
                make_skill E (JObj d) = Ok sk -> skill_weight sk = 5%Q)
  /\ (forall name,
        make_skill E (JObj [("name", JStr name)])
        = Ok {| skill_name := name; skill_category := "concept";
                skill_weight := 5; skill_source := "inferred" |})
  /\ (forall d ex, Py.lookup "importance" d = None ->
                   make_expectation E (JObj d) = Ok ex -> importance ex = 5%Q)
  /\ (forall d name key adj,
        Py.lookup "weight" d = None ->
        Py.dget d "name" (JStr "") = JStr name ->
        contains key (lower name) = true ->
        adjust_skill [(key, adj)] (JObj d)
        = Ok (JObj (Py.set "weight" (clamp_weight (PyFloat.add 5 adj)) d)))
  /\ (forall d dim name,
        Py.lookup "score" d = None ->
        _safe_parse_dimension E (JObj d) name = Ok dim ->
        dimension_score dim = 5%Q)
  /\ (forall a k,
        unparseable E RepoScorecard a ->
        In k SCORE_DIMENSIONS ->
        (dim <- Py.get (_parse_scorecard E a) k JNull ;;
         Py.get dim "score" JNull) = Ok (JFloat 5)
        /\ Py.get (_parse_scorecard E a) "overall_score" JNull = Ok (JFloat 5))
  /\ (forall d out, Py.lookup "fitness_score" d = None ->
                    fitness_normalize E (JObj d) = Ok out ->
                    Py.lookup "fitness_score" out = Some (JInt 0))
  /\ (forall d1 d2 w x,
        Py.lookup "weight" d1 = None ->
        Py.lookup "weight" d2 = Some w ->
        Py.num_val w = Some x ->
        sort_skills [JObj d1; JObj d2]
        = Ok (if Qle_bool x 0 then [JObj d1; JObj d2]
              else [JObj d2; JObj d1]))
  /\ (exists out,
        company_logic_node unweighted_state = Ok out
        /\ Py.lookup "skill_profile" out
           = Some (JObj [ ("skills",
                           JArr [ JObj [("name", JStr "Docker");
                                        ("weight", JFloat 7)];
                                  JObj [("name", JStr "Rust"); ("weight", JInt 3)];
                                  JObj [("name", JStr "Go")] ]) ]))
  /\ (forall a scorecard,
        Py.or_else (Py.dget a "scorecard" JNull) (JObj []) = JObj scorecard ->
        Py.lookup "overall_score" scorecard = None ->
        listed_analysis E a
        = Ok (Py.set "overall_score" (JFloat 0) (without "scorecard" a)))
  /\ (forall raw d w before after,
        Py.lookup "weight" d = Some w ->
        unusable_number E 0 10 w ->
        (before ++ after)%list <> [] ->
        _safe_parse_skill_profile E (with_skills (before ++ JObj d :: after) raw)
        = _safe_parse_skill_profile E (with_skills (before ++ after) raw))
  /\ (forall raw d i before after,
        Py.lookup "importance" d = Some i ->
        unusable_number E 0 10 i ->
        _safe_parse_skill_profile E
          (with_expectations (before ++ JObj d :: after) raw)
        = _safe_parse_skill_profile E (with_expectations (before ++ after) raw))
  /\ (forall state llm prompt a text d errors,
        user_prompt E Fitness state = Ok prompt ->
        Py.or_else (Py.dget state "errors" JNull) (JArr []) = JArr errors ->
        llm (first_history E Fitness prompt) = Ok a ->
        json_loads E (fitness_candidate a) = Some (JObj d) ->
        Py.lookup "fitness_score" d = Some (JStr text) ->
        float_of_str E text = None ->
        exists e,
          exn_kind_of e = ValueError
          /\ result_of (fitness_scorer_node E state llm)
             = Ok [ ("fitness_result", JNull);
                    ("errors",
                     JArr (errors
                           ++ [JStr ("Fitness evaluation failed: "
                                     ++ take n200 (exn_str e))])%list) ]).
Proof.
  split; [exact (make_skill_default_weight E) |].
  split; [reflexivity |].
  split; [exact (make_expectation_default_importance E) |].
  split; [exact adjust_skill_default_weight |].
  split; [intros d dim name; apply safe_parse_dimension_default |].
  split; [exact (parse_scorecard_default_scores E) |].
  split; [exact (fitness_default_score E) |].
  split; [exact sort_skills_default_weight |].
  split; [eexists; split; vm_compute; reflexivity |].
  split; [exact (listed_analysis_default E) |].
  split.
  { intros raw d w before after Hw Hu Hne.
    destruct (make_skill_unusable E d w Hw Hu) as [e He].
    exact (safe_parse_drops_skill E raw (JObj d) e before after Hne He). }
  split.
  { intros raw d i before after Hi Hu.
    destruct (make_expectation_unusable E d i Hi Hu) as [e He].
    exact (safe_parse_drops_expectation E raw (JObj d) e before after He). }
  intros state llm prompt a text d errors.
  apply fitness_node_unconvertible_score.
Qed.

(** A profile with a skill whose weight is no number: the re-validation
    builds the profile of the other skill alone. *)
Lemma numeric_defaults_witness :
  _safe_parse_skill_profile example_externals
    (with_skills
       [ JObj [("name", JStr "Python"); ("weight", JInt 9)];
         JObj [("name", JStr "Go"); ("weight", JStr "high")] ] [])
  = _safe_parse_skill_profile example_externals
      (with_skills [JObj [("name", JStr "Python"); ("weight", JInt 9)]] []).
Proof.
  destruct (numeric_defaults example_externals)
    as (_ & _ & _ & _ & _ & _ & _ & _ & _ & _ & Hdrop & _).
  apply (Hdrop [] [("name", JStr "Go"); ("weight", JStr "high")] (JStr "high")
           [JObj [("name", JStr "Python"); ("weight", JInt 9)]] []).
  - reflexivity.
  - now vm_compute.
  - discriminate.
Defined.

(** ** Idempotence of the sanitisers *)

Lemma take_take (n : nat) (s : string) : take n (take n s) = take n s.
Proof.
  revert s. induction n as [| n IH]; intros [| c s]; cbn [take];
    try reflexivity. now rewrite IH.
Qed.

Lemma slice_to_idempotent (n : nat) (v w : JSON) :
  Py.slice_to n v = Ok w -> Py.slice_to n w = Ok w.
Proof.
  destruct v; cbn [Py.slice_to]; intros H; try discriminate H;
    injection H as <-; cbn [Py.slice_to].
  - now rewrite take_take.
  - now rewrite firstn_firstn, Nat.min_id.
Qed.

(** Clamping to the range 0-100 gives a number that clamps to itself. *)
Lemma clamp_score_idempotent (E : Externals) (score : Q) :
  exists again,
    py_float E (Py.max2 (JInt 0) (Py.min2 (JInt 100) (JFloat score))) = Ok again
    /\ Py.max2 (JInt 0) (Py.min2 (JInt 100) (JFloat again))
       = Py.max2 (JInt 0) (Py.min2 (JInt 100) (JFloat score)).
Proof.
  unfold Py.min2. cbn [Py.num_val].
  destruct (Qle_bool (inject_Z 100) score) eqn:Hhi.
  - exists (inject_Z 100). split; reflexivity.
  - unfold Py.max2. cbn [Py.num_val].
    destruct (Qle_bool score (inject_Z 0)) eqn:Hlo.
    + exists (inject_Z 0). split; reflexivity.
    + exists score. split; [reflexivity |].
      unfold Py.min2. cbn [Py.num_val]. rewrite Hhi.
      cbn [Py.num_val]. now rewrite Hlo.
Qed.

(** The normalisation of the fitness result (fitness_node.py lines
    144-158) is idempotent: a result it returns is returned unchanged. *)
Lemma known_verdict_idempotent (v : JSON) :
  known_verdict (known_verdict v) = known_verdict v.
Proof.
  destruct v as [| | | | v | |]; try reflexivity. cbn [known_verdict].
  destruct (mem v VERDICTS) eqn:Hv; [| reflexivity].
  cbn [known_verdict]. now rewrite Hv.
Qed.

(** X9. The normalisation returns unchanged a fitness result of its
    own: normalising twice is normalising once. *)
Lemma fitness_normalize_idempotent (E : Externals) (result : JSON) (out : dict) :
  fitness_normalize E result = Ok out ->
  fitness_normalize E (JObj out) = Ok out.
Proof.
  unfold fitness_normalize at 1.
  destruct result as [| | | | | | d]; try discriminate. cbn [Py.get bind].
  destruct (py_float E (Py.dget d "fitness_score" (JInt 0))) as [score | ];
    [| discriminate]. cbn [bind].
  destruct (Py.slice_to 20 (Py.dget d "matched_skills" (JArr [])))
    as [matched |] eqn:H1; [| discriminate]. cbn [bind].
  destruct (Py.slice_to 15 (Py.dget d "missing_skills" (JArr [])))
    as [missing |] eqn:H2; [| discriminate]. cbn [bind].
  destruct (Py.slice_to 10 (Py.dget d "strengths" (JArr [])))
    as [strengths |] eqn:H3; [| discriminate]. cbn [bind].
  destruct (Py.slice_to 10 (Py.dget d "improvements" (JArr [])))
    as [improvements |] eqn:H4; [| discriminate]. cbn [bind].
  destruct (clamp_score_idempotent E score) as (again & Hf & Hc).
  remember (Py.max2 (JInt 0) (Py.min2 (JInt 100) (JFloat score))) as clamped.
  remember (known_verdict (Py.dget d "verdict" (JStr "weak_fit"))) as verdict.
  remember (take n5000 (py_str E (Py.dget d "detailed_feedback" (JStr ""))))
    as feedback.
  intros H. injection H as <-.
  unfold fitness_normalize. cbn [Py.get bind]. unfold Py.dget.
  cbn [Py.lookup String.eqb Ascii.eqb Bool.eqb].
  rewrite Hf. cbn [bind]. rewrite Hc.
  rewrite (slice_to_idempotent _ _ _ H1), (slice_to_idempotent _ _ _ H2),
    (slice_to_idempotent _ _ _ H3), (slice_to_idempotent _ _ _ H4).
  cbn [bind py_str]. subst verdict feedback.
  now rewrite known_verdict_idempotent, take_take.
Qed.

(** *** The scaffold sanitiser, apart from its paths *)

Lemma name_char_is_lower (c : ascii) : is_name_char c = true -> lower_char c = c.
Proof.
  destruct c as [[] [] [] [] [] [] [] []]; intros H;
    try reflexivity; discriminate H.
Qed.

Lemma lower_all_name_chars (s : string) :
  all_chars is_name_char s = true -> lower s = s.
Proof.
  induction s as [| c s IH]; cbn [all_chars lower]; [reflexivity |].
  intros H. apply andb_true_iff in H as [Hc Hs].
  now rewrite (name_char_is_lower c Hc), (IH Hs).
Qed.

Lemma filter_all_chars (p : ascii -> bool) (s : string) :
  all_chars p s = true -> filter_chars p s = s.
Proof.
  induction s as [| c s IH]; cbn [all_chars filter_chars]; [reflexivity |].
  intros H. apply andb_true_iff in H as [Hc Hs]. now rewrite Hc, (IH Hs).
Qed.

Lemma all_chars_filter (p : ascii -> bool) (s : string) :
  all_chars p (filter_chars p s) = true.
Proof.
  induction s as [| c s IH]; cbn [filter_chars]; [reflexivity |].
  destruct (p c) eqn:Hc; [| exact IH]. cbn [all_chars]. now rewrite Hc, IH.
Qed.

Lemma all_chars_take (p : ascii -> bool) (n : nat) (s : string) :
  all_chars p s = true -> all_chars p (take n s) = true.
Proof.
  revert s. induction n as [| n IH]; intros [| c s]; cbn [take all_chars];
    try reflexivity.
  intros H. apply andb_true_iff in H as [Hc Hs]. now rewrite Hc, (IH s Hs).
Qed.

Lemma safe_project_name_idempotent (E : Externals) (v : JSON) :
  safe_project_name E (JStr (safe_project_name E v)) = safe_project_name E v.
Proof.
  unfold safe_project_name at 2 3.
  set (name := take 80 (filter_chars is_name_char (lower (py_str E v)))).
  assert (Hall : all_chars is_name_char name = true)
    by apply all_chars_take, all_chars_filter.
  destruct (String.eqb name "") eqn:He; [reflexivity |].
  unfold safe_project_name. cbn [py_str].
  rewrite (lower_all_name_chars name Hall), (filter_all_chars _ name Hall).
  assert (Ht : take 80 name = name) by (unfold name; apply take_take).
  now rewrite Ht, He.
Qed.

Section ScaffoldSecondPass.

Variable E : Externals.

Lemma files_size_cons (f : JSON) (files : list JSON) :
  files_size E (f :: files) = (file_size E f + files_size E files)%Z.
Proof. reflexivity. Qed.

Lemma files_size_nonneg (files : list JSON) : (0 <= files_size E files)%Z.
Proof.
  induction files as [| f rest IH]; [cbn; lia |].
  rewrite files_size_cons.
  assert (0 <= file_size E f)%Z.
  { destruct f; cbn [file_size]; try lia. apply utf8_len_nonneg. }
  lia.
Qed.

Lemma files_size_app (a b : list JSON) :
  files_size E (a ++ b)%list = (files_size E a + files_size E b)%Z.
Proof.
  induction a as [| f a IH]; [reflexivity |].
  cbn [app]. rewrite !files_size_cons, IH. lia.
Qed.

(** The first pass returns validated files within the cap. *)
Lemma scaffold_files_shape (raw_files : list JSON) :
  forall files total out,
    scaffold_files E raw_files files total = Ok out ->
    Forall is_validated_file files ->
    total = files_size E files ->
    (total <= MAX_SCAFFOLD_CONTENT_BYTES)%Z ->
    Forall is_validated_file out
    /\ (files_size E out <= MAX_SCAFFOLD_CONTENT_BYTES)%Z.
Proof.
  induction raw_files as [| raw_file rest IH]; intros files total out Hrun Hv Ht Hle.
  - cbn in Hrun. injection Hrun as <-. subst total. now split.
  - destruct raw_file as [| b | z | x | t | l | d];
      try (cbn [scaffold_files] in Hrun; now apply (IH files total out)).
    cbn [scaffold_files] in Hrun.
    destruct (sanitize_path_value (Py.dget d "path" (JStr "")))
      as [[[| a path] |] | e]; cbn [bind] in Hrun;
      try discriminate Hrun; try now apply (IH files total out).
    set (content := py_str E (Py.dget d "content" (JStr ""))) in *.
    destruct (MAX_SCAFFOLD_CONTENT_BYTES <? total + utf8_len content)%Z eqn:Hc.
    + injection Hrun as <-. subst total. now split.
    + apply Z.ltb_ge in Hc.
      apply (IH _ _ out Hrun).
      * apply Forall_app. split; [assumption |]. constructor; [| constructor].
        unfold generated_file. eexists _, _, _, _.
        split; [reflexivity | split; apply take_take].
      * rewrite files_size_app. cbn [files_size fold_right generated_file file_size].
        unfold Py.dget at 1. cbn [Py.lookup String.eqb Ascii.eqb Bool.eqb py_str].
        fold content. subst total. unfold files_size. lia.
      * exact Hc.
Qed.

(** A second pass over validated files with normal paths, within the cap,
    keeps them all as they are. *)
Lemma scaffold_files_second_pass (files : list JSON) :
  forall acc total,
    Forall is_validated_file files ->
    Forall path_is_normal files ->
    (total + files_size E files <= MAX_SCAFFOLD_CONTENT_BYTES)%Z ->
    scaffold_files E files acc total = Ok (acc ++ files)%list.
Proof.
  induction files as [| f rest IH]; intros acc total Hv Hp Hle.
  - cbn. now rewrite app_nil_r.
  - apply Forall_cons_iff in Hv
      as [(path & content & language & descr & -> & Hlang & Hdescr) Hv].
    apply Forall_cons_iff in Hp as [Hnormal Hp].
    specialize (Hnormal path eq_refl).
    cbn [scaffold_files]. unfold Py.dget at 1.
    cbn [Py.lookup String.eqb Ascii.eqb Bool.eqb sanitize_path_value bind].
    rewrite Hnormal.
    destruct path as [| a path'].
    { discriminate Hnormal. }
    cbn [files_size fold_right file_size] in Hle.
    unfold Py.dget in Hle.
    cbn [Py.lookup String.eqb Ascii.eqb Bool.eqb py_str] in Hle.
    pose proof (files_size_nonneg rest) as Hrest. unfold files_size in Hrest.
    unfold Py.dget at 1 2.
    cbn [Py.lookup String.eqb Ascii.eqb Bool.eqb py_str].
    destruct (MAX_SCAFFOLD_CONTENT_BYTES <? total + utf8_len content)%Z eqn:Hc.
    { apply Z.ltb_lt in Hc. lia. }
    rewrite IH; try assumption.
    + rewrite <- app_assoc. cbn [app]. do 3 f_equal.
      unfold generated_file, Py.dget.
      cbn [Py.lookup String.eqb Ascii.eqb Bool.eqb py_str].
      now rewrite Hlang, Hdescr.
    + unfold files_size. lia.
Qed.

(** The scaffold sanitiser returns unchanged a result of its own whose file
    paths the path filter leaves as they are: its only departure from
    idempotence lies in the paths. *)
Lemma validate_scaffold_idempotent_on_normal_paths (scaffold : JSON)
  (name tree : string) (files : list JSON) :
  _validate_scaffold E scaffold
  = Ok [ ("project_name", JStr name); ("files", JArr files);
         ("file_tree", JStr tree) ] ->
  Forall path_is_normal files ->
  _validate_scaffold E
    (JObj [ ("project_name", JStr name); ("files", JArr files);
            ("file_tree", JStr tree) ])
  = Ok [ ("project_name", JStr name); ("files", JArr files);
         ("file_tree", JStr tree) ].
Proof.
  unfold _validate_scaffold at 1.
  destruct scaffold as [| | | | | | d]; try discriminate. cbn [Py.get bind].
  destruct (Py.iter (Py.dget d "files" (JArr []))) as [raw_files |];
    [| discriminate]. cbn [bind].
  destruct (scaffold_files E raw_files [] 0) as [out |] eqn:Hrun;
    [| discriminate]. cbn [bind].
  remember (safe_project_name E (Py.dget d "project_name" (JStr "scaffold-project")))
    as name'.
  remember (take n5000 (py_str E (Py.dget d "file_tree" (JStr "")))) as tree'.
  intros H Hnormal. injection H as <- <- <-.
  destruct (scaffold_files_shape raw_files [] 0%Z out Hrun) as [Hv Hle];
    [constructor | reflexivity | discriminate |].
  unfold _validate_scaffold. cbn [Py.get bind]. unfold Py.dget.
  cbn [Py.lookup String.eqb Ascii.eqb Bool.eqb Py.iter bind].
  rewrite (scaffold_files_second_pass out [] 0%Z Hv Hnormal Hle).
  cbn [bind app py_str]. subst name' tree'.
  now rewrite safe_project_name_idempotent, take_take.
Qed.

End ScaffoldSecondPass.

(** C9. The scaffold sanitiser is not idempotent: a path that starts with a
    backslash and a slash comes out of the first pass with a leading slash,
    which the second pass removes; a blank after a leading slash likewise
    survives the first pass only. *)
Theorem scaffold_sanitizer_not_idempotent :
  _sanitize_path (String bs "/src/main.py") = Some "/src/main.py"
  /\ _sanitize_path "/src/main.py" = Some "src/main.py"
  /\ _validate_scaffold example_externals backslash_scaffold
     = Ok [ ("project_name", JStr "demoapp");
            ("files", JArr [validated_file "/src/main.py" "print(1)"]);
            ("file_tree", JStr "src/") ]
  /\ _validate_scaffold example_externals
       (JObj [ ("project_name", JStr "demoapp");
               ("files", JArr [validated_file "/src/main.py" "print(1)"]);
               ("file_tree", JStr "src/") ])
     = Ok [ ("project_name", JStr "demoapp");
            ("files", JArr [validated_file "src/main.py" "print(1)"]);
            ("file_tree", JStr "src/") ]
  /\ _validate_scaffold example_externals blank_scaffold
     = Ok [ ("project_name", JStr "scaffold-project");
            ("files", JArr [validated_file " notes.md" "hi"]);
            ("file_tree", JStr "") ]
  /\ _validate_scaffold example_externals
       (JObj [ ("project_name", JStr "scaffold-project");
               ("files", JArr [validated_file " notes.md" "hi"]);
               ("file_tree", JStr "") ])
     = Ok [ ("project_name", JStr "scaffold-project");
            ("files", JArr [validated_file "notes.md" "hi"]);
            ("file_tree", JStr "") ].
Proof. repeat split; vm_compute; reflexivity. Qed.

(** * Further properties of the code *)

(** ** What the path filter returns *)

Lemma join_cons_char (sep : string) (c : ascii) (p : string) (ps : list string) :
  join sep (String c p :: ps) = String c (join sep (p :: ps)).
Proof. destruct ps; reflexivity. Qed.

Lemma split_where_not_nil (sep : ascii -> bool) (s : string) :
  split_where sep s <> [].
Proof.
  induction s as [| c s IH]; cbn [split_where]; [discriminate |].
  destruct (sep c); [discriminate |].
  destruct (split_where sep s); discriminate.
Qed.

(** Joining the parts of a path with a slash rewrites its separators and
    nothing else. *)
Lemma join_segments (s : string) : join "/" (segments s) = slashes s.
Proof.
  unfold segments.
  induction s as [| c s IH]; [reflexivity |].
  cbn [split_where slashes]. destruct (is_path_sep c) eqn:Hc.
  - pose proof (split_where_not_nil is_path_sep s) as Hne.
    destruct (split_where is_path_sep s) as [| p ps] eqn:Hs; [congruence |].
    change (join "/" ("" :: p :: ps)) with ("/" ++ join "/" (p :: ps)).
    now rewrite IH.
  - pose proof (split_where_not_nil is_path_sep s) as Hne.
    destruct (split_where is_path_sep s) as [| p ps] eqn:Hs; [congruence |].
    now rewrite join_cons_char, IH.
Qed.

Lemma is_path_sep_slash (c : ascii) :
  is_path_sep (if is_path_sep c then "/"%char else c) = is_path_sep c.
Proof. destruct (is_path_sep c) eqn:Hc; [reflexivity | exact Hc]. Qed.

Lemma segments_slashes (s : string) : segments (slashes s) = segments s.
Proof.
  unfold segments.
  induction s as [| c s IH]; [reflexivity |].
  cbn [slashes split_where]. rewrite is_path_sep_slash, IH.
  destruct (is_path_sep c) eqn:Hc; [reflexivity |].
  destruct (split_where is_path_sep s); reflexivity.
Qed.

Lemma length_slashes (s : string) : String.length (slashes s) = String.length s.
Proof. induction s as [| c s IH]; cbn [slashes String.length]; congruence. Qed.

Lemma slashes_no_backslash (s : string) : contains_char bs (slashes s) = false.
Proof.
  induction s as [| c s IH]; [reflexivity |].
  cbn [slashes contains_char]. rewrite IH, orb_false_r.
  unfold is_path_sep. destruct (Ascii.eqb c "/") eqn:H1; [reflexivity |].
  cbn [orb]. destruct (Ascii.eqb c bs) eqn:H2; [reflexivity | exact H2].
Qed.

Lemma sanitize_path_some (raw p : string) :
  _sanitize_path raw = Some p ->
  p = slashes (path_trim raw) /\ ~ path_rejected (path_trim raw).
Proof.
  intros H. split.
  - assert (Hnot : ~ path_rejected (path_trim raw)).
    { intros Hr. apply sanitize_path_none_iff in Hr. congruence. }
    rewrite (sanitize_path_accepts raw Hnot), join_segments in H. congruence.
  - intros Hr. apply sanitize_path_none_iff in Hr. congruence.
Qed.

(** A path that the filter accepts is the trimmed input with its
    backslashes written as slashes, and nothing of what the filter checks
    is wrong with it. *)
Lemma sanitize_path_result (raw p : string) :
  _sanitize_path raw = Some p ->
  p = slashes (path_trim raw)
  /\ p <> ""
  /\ String.length p <= 300
  /\ contains_char bs p = false
  /\ (forall s, In s (segments p) ->
                ~ forbidden_segment s /\ ~ unlisted_dot_segment s)
  /\ (forall ext, extension (last (segments p) "") = Some ext ->
                  In ext ALLOWED_EXTENSIONS).
Proof.
  intros H. destruct (sanitize_path_some raw p H) as [-> Hnot].
  split; [reflexivity |].
  split.
  { intros He. apply Hnot. left.
    destruct (path_trim raw); [reflexivity | discriminate He]. }
  split.
  { rewrite length_slashes.
    destruct (Nat.le_gt_cases (String.length (path_trim raw)) 300) as [Hle | Hgt];
      [exact Hle |].
    exfalso. apply Hnot. right. left. exact Hgt. }
  split; [apply slashes_no_backslash |].
  rewrite segments_slashes. split.
  - intros s Hs. split; intros Hbad; apply Hnot.
    + right. right. left. now exists s.
    + right. right. right. left. now exists s.
  - intros ext Hext.
    destruct (in_dec string_dec ext ALLOWED_EXTENSIONS) as [Hin | Hout];
      [exact Hin |].
    exfalso. apply Hnot. right. right. right. right. now exists ext.
Qed.

(** X1. What the path filter returns, for every input.  An accepted
    path is the trimmed input with its backslashes written as slashes: it is
    not empty, at most 300 characters long and free of backslashes, none of
    its segments is a parent or home reference, a deny-listed directory or
    an unlisted dot name, and the extension of its last segment, if it has
    one, is on the allow-list.  A path is turned down for one of the five
    reasons only. *)
Theorem sanitize_path_characterised (raw : string) :
  match _sanitize_path raw with
  | Some p =>
      p = slashes (path_trim raw)
      /\ p <> ""
      /\ String.length p <= 300
      /\ contains_char bs p = false
      /\ (forall s, In s (segments p) ->
                    ~ forbidden_segment s /\ ~ unlisted_dot_segment s)
      /\ (forall ext, extension (last (segments p) "") = Some ext ->
                      In ext ALLOWED_EXTENSIONS)
  | None => path_rejected (path_trim raw)
  end.
Proof.
  destruct (_sanitize_path raw) as [p |] eqn:H.
  - now apply sanitize_path_result.
  - now apply sanitize_path_none_iff.
Qed.

(** ** What the scaffold validation returns *)

Lemma take_length_le (n : nat) (s : string) : String.length (take n s) <= n.
Proof.
  revert s. induction n as [| n IH]; intros [| c s]; cbn [take String.length];
    try lia. specialize (IH s). lia.
Qed.

Lemma slashes_idempotent (s : string) : slashes (slashes s) = slashes s.
Proof.
  induction s as [| c s IH]; [reflexivity |].
  cbn [slashes]. rewrite IH, is_path_sep_slash.
  destruct (is_path_sep c); reflexivity.
Qed.

(** An accepted path passes every check of the filter as it stands, and
    has no backslash left to rewrite. *)
Lemma accepted_path_clean (raw p : string) :
  _sanitize_path raw = Some p -> ~ path_rejected p /\ slashes p = p.
Proof.
  intros H.
  destruct (sanitize_path_result raw p H) as (Hp & Hne & Hlen & _ & Hseg & Hext).
  split.
  - intros [He | [Hl | [(s & Hs & Hf) | [(s & Hs & Hd) | (ext & He & Hx)]]]].
    + contradiction.
    + lia.
    + destruct (Hseg s Hs) as [Hn _]. contradiction.
    + destruct (Hseg s Hs) as [_ Hn]. contradiction.
    + apply Hx, Hext, He.
  - rewrite Hp. apply slashes_idempotent.
Qed.

Lemma clean_trimmed_path_accepted (p : string) :
  ~ path_rejected p -> slashes p = p -> path_trim p = p ->
  _sanitize_path p = Some p.
Proof.
  intros Hnot Hs Ht. rewrite <- Ht in Hnot.
  rewrite (sanitize_path_accepts p Hnot), Ht, join_segments. now rewrite Hs.
Qed.

(** X2. The filter returns unchanged an accepted path that has nothing to
    trim: a second pass can only change a path by trimming it. *)
Theorem sanitize_path_fixed_point (raw p : string) :
  _sanitize_path raw = Some p ->
  path_trim p = p ->
  _sanitize_path p = Some p.
Proof.
  intros H Ht. destruct (accepted_path_clean raw p H) as [Hnot Hs].
  now apply clean_trimmed_path_accepted.
Qed.

Lemma sanitize_path_fixed_point_witness :
  _sanitize_path "src/app/main.py" = Some "src/app/main.py".
Proof.
  apply (sanitize_path_fixed_point ("/src" ++ String bs "app/main.py"));
    vm_compute; reflexivity.
Defined.

Section ScaffoldResult.

Variable E : Externals.

Lemma scaffold_files_safe (raw_files : list JSON) :
  forall files total out,
    scaffold_files E raw_files files total = Ok out ->
    Forall safe_file files ->
    Forall safe_file out.
Proof.
  induction raw_files as [| raw_file rest IH]; intros files total out Hrun Hs.
  - cbn in Hrun. now injection Hrun as <-.
  - destruct raw_file as [| b | z | x | t | l | d];
      try (cbn [scaffold_files] in Hrun; now apply (IH files total out)).
    cbn [scaffold_files] in Hrun.
    destruct (Py.dget d "path" (JStr "")) as [| | | | raw | |] eqn:Hpath;
      cbn [sanitize_path_value bind] in Hrun; try discriminate Hrun.
    destruct (_sanitize_path raw) as [[| a path] |] eqn:Hsan;
      try now apply (IH files total out).
    destruct (MAX_SCAFFOLD_CONTENT_BYTES <? _)%Z.
    + now injection Hrun as <-.
    + apply (IH _ _ out Hrun). apply Forall_app. split; [assumption |].
      constructor; [| constructor].
      unfold generated_file. exists raw. eexists _, _, _, _.
      split; [reflexivity |]. split; [exact Hsan |].
      split; apply take_length_le.
Qed.

(** The dict that the validation returns, spelled out. *)
Lemma validate_scaffold_shape (scaffold : JSON) (out : dict) :
  _validate_scaffold E scaffold = Ok out ->
  exists d raw_files files,
    scaffold = JObj d
    /\ scaffold_files E raw_files [] 0 = Ok files
    /\ out = [ ("project_name",
                JStr (safe_project_name E
                        (Py.dget d "project_name" (JStr "scaffold-project"))));
               ("files", JArr files);
               ("file_tree",
                JStr (take n5000 (py_str E (Py.dget d "file_tree" (JStr ""))))) ].
Proof.
  unfold _validate_scaffold.
  destruct scaffold as [| | | | | | d]; try discriminate. cbn [Py.get bind].
  destruct (Py.iter (Py.dget d "files" (JArr []))) as [raw_files |];
    [| discriminate]. cbn [bind].
  destruct (scaffold_files E raw_files [] 0) as [files |] eqn:Hrun;
    [| discriminate]. cbn [bind].
  remember (safe_project_name E (Py.dget d "project_name" (JStr "scaffold-project")))
    as name.
  remember (take n5000 (py_str E (Py.dget d "file_tree" (JStr "")))) as tree.
  intros H. injection H as <-. exists d, raw_files, files.
  subst name tree. repeat split. exact Hrun.
Qed.

Lemma scaffold_run_safe (raw_files files : list JSON) :
  scaffold_files E raw_files [] 0 = Ok files ->
  Forall safe_file files
  /\ (files_size E files <= MAX_SCAFFOLD_CONTENT_BYTES)%Z.
Proof.
  intros Hrun. split.
  - apply (scaffold_files_safe raw_files [] 0%Z files Hrun). constructor.
  - apply (scaffold_files_shape E raw_files [] 0%Z files Hrun);
      [constructor | reflexivity | discriminate].
Qed.

Lemma safe_project_name_safe (v : JSON) :
  safe_project_name E v <> ""
  /\ String.length (safe_project_name E v) <= 80
  /\ all_chars is_name_char (safe_project_name E v) = true.
Proof.
  unfold safe_project_name.
  set (cut := take 80 (filter_chars is_name_char (lower (py_str E v)))).
  destruct (String.eqb_spec cut "") as [He | He].
  - split; [discriminate |]. split; [cbn; lia | reflexivity].
  - split; [exact He |]. split; [apply take_length_le |].
    apply all_chars_take, all_chars_filter.
Qed.

(** X3. Whatever the payload, the files that the scaffold validation
    returns have a path accepted by the path filter, a language of at most
    30 and a description of at most 300 characters, and contents that add
    up to no more than 512 KiB. *)
Theorem validate_scaffold_files (scaffold : JSON) (out : dict) :
  _validate_scaffold E scaffold = Ok out ->
  exists files,
    Py.lookup "files" out = Some (JArr files)
    /\ Forall safe_file files
    /\ (files_size E files <= MAX_SCAFFOLD_CONTENT_BYTES)%Z.
Proof.
  intros H.
  destruct (validate_scaffold_shape scaffold out H)
    as (d & raw_files & files & _ & Hrun & ->).
  exists files. split; [reflexivity | exact (scaffold_run_safe _ _ Hrun)].
Qed.

(** X4. Whatever the payload, the project name that the scaffold validation
    returns is not empty, at most 80 characters long and made of lower-case
    letters, digits and hyphens; the file tree has at most 5000
    characters. *)
Theorem validate_scaffold_name_and_tree (scaffold : JSON) (out : dict) :
  _validate_scaffold E scaffold = Ok out ->
  exists name tree,
    Py.lookup "project_name" out = Some (JStr name)
    /\ name <> ""
    /\ String.length name <= 80
    /\ all_chars is_name_char name = true
    /\ Py.lookup "file_tree" out = Some (JStr tree)
    /\ String.length tree <= n5000.
Proof.
  intros H.
  destruct (validate_scaffold_shape scaffold out H)
    as (d & raw_files & files & _ & _ & ->).
  eexists _, _. split; [reflexivity |].
  destruct (safe_project_name_safe
              (Py.dget d "project_name" (JStr "scaffold-project")))
    as (H1 & H2 & H3).
  repeat (split; [assumption |]).
  split; [reflexivity | apply take_length_le].
Qed.

Lemma safe_file_validated (f : JSON) : safe_file f -> is_validated_file f.
Proof.
  intros (raw & path & content & language & descr & -> & _ & Hl & Hd).
  exists path, content, language, descr. split; [reflexivity |].
  assert (Htake : forall n s, String.length s <= n -> take n s = s).
  { induction n as [| n IH]; intros [| c s]; cbn [take String.length];
      try reflexivity; try lia. intros Hle. f_equal. apply IH. lia. }
  split; now apply Htake.
Qed.

Lemma safe_trimmed_normal (f : JSON) :
  safe_file f -> path_is_trimmed f -> path_is_normal f.
Proof.
  intros (raw & path & content & language & descr & -> & Hsan & _) Ht p Hp.
  specialize (Ht p Hp). cbn in Hp. injection Hp as <-.
  destruct (accepted_path_clean raw path Hsan) as [Hnot Hs].
  now apply clean_trimmed_path_accepted.
Qed.

(** X5. The scaffold validation returns unchanged a result of its own
    whose file paths have nothing to trim (no leading or trailing white
    space, no leading separator). *)
Theorem validate_scaffold_second_pass (scaffold : JSON) (out : dict) :
  _validate_scaffold E scaffold = Ok out ->
  (forall files, Py.lookup "files" out = Some (JArr files) ->
                 Forall path_is_trimmed files) ->
  _validate_scaffold E (JObj out) = Ok out.
Proof.
  intros Hrun Htrim.
  destruct (validate_scaffold_shape scaffold out Hrun)
    as (d & raw_files & files & _ & Hfiles & Hout).
  destruct (scaffold_run_safe _ _ Hfiles) as [Hsafe _].
  remember (safe_project_name E (Py.dget d "project_name" (JStr "scaffold-project")))
    as name.
  remember (take n5000 (py_str E (Py.dget d "file_tree" (JStr "")))) as tree.
  subst out. specialize (Htrim files eq_refl).
  apply (validate_scaffold_idempotent_on_normal_paths E scaffold name tree files Hrun).
  rewrite Forall_forall in *. intros f Hin.
  apply safe_trimmed_normal; auto.
Qed.

(** X6. Whatever the generator answers, the files that the scaffold node
    returns have accepted paths and contents within the byte budget, and the
    project name it returns is built from lower-case letters, digits and
    hyphens. *)
Theorem scaffold_node_returns_safe_files (state : dict) (llm : generator)
  (d : dict) :
  result_of (scaffold_generator_node E state llm) = Ok d ->
  Py.lookup "current_phase" d = Some (JStr "scaffold_generation_complete") ->
  exists files name,
    Py.lookup "scaffold_files" d = Some (JArr files)
    /\ Forall safe_file files
    /\ (files_size E files <= MAX_SCAFFOLD_CONTENT_BYTES)%Z
    /\ Py.lookup "scaffold_project_name" d = Some (JStr name)
    /\ name <> ""
    /\ all_chars is_name_char name = true.
Proof.
  unfold scaffold_generator_node.
  destruct (initial_messages E Scaffold state) as [messages | e];
    [| cbn; intros H; injection H as <-; discriminate].
  destruct (llm messages) as [response | e];
    [| cbn; intros H; injection H as <-; discriminate].
  destruct (_parse_scaffold_response E response) as [raw | e]; cbn [bind];
    [| cbn; intros H; injection H as <-; discriminate].
  destruct (_validate_scaffold E raw) as [validated | e] eqn:Hv; cbn [bind];
    [| cbn; intros H; injection H as <-; discriminate].
  destruct (validate_scaffold_shape raw validated Hv)
    as (payload & raw_files & files & _ & Hrun & Hout).
  destruct (scaffold_run_safe _ _ Hrun) as [Hsafe Hsize].
  destruct (safe_project_name_safe
              (Py.dget payload "project_name" (JStr "scaffold-project")))
    as (Hne & _ & Hchars).
  remember (safe_project_name E
              (Py.dget payload "project_name" (JStr "scaffold-project"))) as name.
  remember (take n5000 (py_str E (Py.dget payload "file_tree" (JStr "")))) as tree.
  subst validated. cbn [result_of fst]. intros H _. injection H as <-.
  exists files, name. repeat split; assumption.
Qed.

End ScaffoldResult.

Lemma validate_scaffold_files_witness :
  exists files,
    Py.lookup "files"
      [ ("project_name", JStr "demoapp");
        ("files", JArr [validated_file "/src/main.py" "print(1)"]);
        ("file_tree", JStr "src/") ] = Some (JArr files)
    /\ Forall safe_file files
    /\ (files_size example_externals files <= MAX_SCAFFOLD_CONTENT_BYTES)%Z.
Proof.
  apply (validate_scaffold_files example_externals backslash_scaffold).
  vm_compute. reflexivity.
Defined.

Lemma validate_scaffold_name_and_tree_witness :
  exists name tree,
    Py.lookup "project_name"
      [ ("project_name", JStr "demoapp");
        ("files", JArr [validated_file "/src/main.py" "print(1)"]);
        ("file_tree", JStr "src/") ] = Some (JStr name)
    /\ name <> ""
    /\ String.length name <= 80
    /\ all_chars is_name_char name = true
    /\ Py.lookup "file_tree"
         [ ("project_name", JStr "demoapp");
           ("files", JArr [validated_file "/src/main.py" "print(1)"]);
           ("file_tree", JStr "src/") ] = Some (JStr tree)
    /\ String.length tree <= n5000.
Proof.
  apply (validate_scaffold_name_and_tree example_externals backslash_scaffold).
  vm_compute. reflexivity.
Defined.

Lemma validate_scaffold_second_pass_witness :
  _validate_scaffold example_externals
    (JObj [ ("project_name", JStr "scaffold-project");
            ("files", JArr [validated_file "notes.md" "hi"]);
            ("file_tree", JStr "") ])
  = Ok [ ("project_name", JStr "scaffold-project");
         ("files", JArr [validated_file "notes.md" "hi"]);
         ("file_tree", JStr "") ].
Proof.
  apply (validate_scaffold_second_pass example_externals
           (JObj [ ("files",
                    JArr [ JObj [ ("path", JStr "notes.md");
                                  ("content", JStr "hi") ] ]) ])).
  - vm_compute. reflexivity.
  - intros files H. cbn in H. injection H as <-.
    constructor; [| constructor].
    intros path Hp. cbn in Hp. injection Hp as <-. vm_compute. reflexivity.
Defined.

Lemma scaffold_node_returns_safe_files_witness :
  exists files name,
    Py.lookup "scaffold_files"
      [ ("scaffold_files", JArr [validated_file "src/main.py" "print(1)"]);
        ("scaffold_file_tree", JStr "src/");
        ("scaffold_project_name", JStr "demoapp");
        ("current_phase", JStr "scaffold_generation_complete");
        ("messages", JArr [JStr SCAFFOLD_ANSWER]) ] = Some (JArr files)
    /\ Forall safe_file files
    /\ (files_size example_externals files <= MAX_SCAFFOLD_CONTENT_BYTES)%Z
    /\ Py.lookup "scaffold_project_name"
         [ ("scaffold_files", JArr [validated_file "src/main.py" "print(1)"]);
           ("scaffold_file_tree", JStr "src/");
           ("scaffold_project_name", JStr "demoapp");
           ("current_phase", JStr "scaffold_generation_complete");
           ("messages", JArr [JStr SCAFFOLD_ANSWER]) ] = Some (JStr name)
    /\ name <> ""
    /\ all_chars is_name_char name = true.
Proof.
  apply (scaffold_node_returns_safe_files example_externals example_state
           (always SCAFFOLD_ANSWER)).
  - vm_compute. reflexivity.
  - reflexivity.
Defined.

(** X7. For a payload whose file entries have a string (or no)
    path, the files that the scaffold validation returns are built from a
    prefix of the accepted entries, in the order of the payload; while the
    contents of all of them fit the byte budget, none is left out. *)
Theorem validate_scaffold_keeps_order (E : Externals) (scaffold : dict)
  (raw_files : list JSON) :
  Py.dget scaffold "files" (JArr []) = JArr raw_files ->
  paths_are_text raw_files ->
  exists n out,
    _validate_scaffold E (JObj scaffold) = Ok out
    /\ Py.lookup "files" out
       = Some (JArr (map (accepted_file E) (firstn n (candidates raw_files))))
    /\ ((cumulative_size E (candidates raw_files) <= MAX_SCAFFOLD_CONTENT_BYTES)%Z ->
        n = List.length (candidates raw_files)).
Proof.
  intros Hfiles Htext.
  exists (fitting E (candidates raw_files) 0).
  unfold _validate_scaffold. cbn [Py.get bind]. rewrite Hfiles.
  cbn [Py.iter bind]. rewrite (scaffold_files_fitting E raw_files Htext).
  cbn [bind app]. eexists. split; [reflexivity |]. split; [reflexivity |].
  intros Hfit. apply fitting_all. cbn. exact Hfit.
Qed.

Lemma validate_scaffold_keeps_order_witness :
  exists n out,
    _validate_scaffold example_externals
      (JObj [("files", JArr (sample_files "ab" "cd"))]) = Ok out
    /\ Py.lookup "files" out
       = Some (JArr (map (accepted_file example_externals)
                       (firstn n (candidates (sample_files "ab" "cd")))))
    /\ ((cumulative_size example_externals (candidates (sample_files "ab" "cd"))
         <= MAX_SCAFFOLD_CONTENT_BYTES)%Z ->
        n = List.length (candidates (sample_files "ab" "cd"))).
Proof.
  apply (validate_scaffold_keeps_order example_externals
           [("files", JArr (sample_files "ab" "cd"))]).
  - reflexivity.
  - apply sample_paths_are_text.
Defined.

(** ** What the fitness normalisation returns *)

Lemma Qle_bool_false (x y : Q) : Qle_bool x y = false -> (y <= x)%Q.
Proof.
  intros H. apply Qlt_le_weak, Qnot_le_lt. intros Hle.
  apply Qle_bool_iff in Hle. congruence.
Qed.

Lemma clamp_score_range (score : Q) :
  exists x,
    Py.num_val (Py.max2 (JInt 0) (Py.min2 (JInt 100) (JFloat score))) = Some x
    /\ (0 <= x)%Q /\ (x <= 100)%Q.
Proof.
  unfold Py.min2. cbn [Py.num_val].
  destruct (Qle_bool (inject_Z 100) score) eqn:Hhi.
  - exists (inject_Z 100). repeat split; discriminate.
  - unfold Py.max2. cbn [Py.num_val].
    destruct (Qle_bool score (inject_Z 0)) eqn:Hlo.
    + exists (inject_Z 0). repeat split; discriminate.
    + exists score. split; [reflexivity |].
      split; [exact (Qle_bool_false _ _ Hlo) | exact (Qle_bool_false _ _ Hhi)].
Qed.

Lemma slice_to_length (n : nat) (v w : JSON) :
  Py.slice_to n v = Ok w -> exists m, Py.len w = Ok m /\ m <= n.
Proof.
  destruct v; cbn [Py.slice_to]; intros H; try discriminate H;
    injection H as <-; cbn [Py.len]; eexists; (split; [reflexivity |]).
  - apply take_length_le.
  - rewrite length_firstn. apply Nat.le_min_l.
Qed.

Lemma known_verdict_in (v : JSON) :
  exists s, known_verdict v = JStr s /\ In s VERDICTS.
Proof.
  destruct v as [| | | | s | |];
    try (exists "partial_fit"; split; [reflexivity | cbn; tauto]).
  cbn [known_verdict]. destruct (mem s VERDICTS) eqn:Hs.
  - exists s. split; [reflexivity | now apply mem_In].
  - exists "partial_fit". split; [reflexivity | cbn; tauto].
Qed.

(** The dict that the normalisation returns, spelled out. *)
Lemma fitness_normalize_shape (E : Externals) (result : JSON) (out : dict) :
  fitness_normalize E result = Ok out ->
  exists d score matched missing strengths improvements,
    result = JObj d
    /\ Py.slice_to 20 (Py.dget d "matched_skills" (JArr [])) = Ok matched
    /\ Py.slice_to 15 (Py.dget d "missing_skills" (JArr [])) = Ok missing
    /\ Py.slice_to 10 (Py.dget d "strengths" (JArr [])) = Ok strengths
    /\ Py.slice_to 10 (Py.dget d "improvements" (JArr [])) = Ok improvements
    /\ out = [ ("fitness_score",
                Py.max2 (JInt 0) (Py.min2 (JInt 100) (JFloat score)));
               ("verdict", known_verdict (Py.dget d "verdict" (JStr "weak_fit")));
               ("matched_skills", matched);
               ("missing_skills", missing);
               ("strengths", strengths);
               ("improvements", improvements);
               ("detailed_feedback",
                JStr (take n5000
                        (py_str E (Py.dget d "detailed_feedback" (JStr ""))))) ].
Proof.
  unfold fitness_normalize.
  destruct result as [| | | | | | d]; try discriminate. cbn [Py.get bind].
  destruct (py_float E (Py.dget d "fitness_score" (JInt 0))) as [score | ];
    [| discriminate]. cbn [bind].
  destruct (Py.slice_to 20 (Py.dget d "matched_skills" (JArr [])))
    as [matched |] eqn:H1; [| discriminate]. cbn [bind].
  destruct (Py.slice_to 15 (Py.dget d "missing_skills" (JArr [])))
    as [missing |] eqn:H2; [| discriminate]. cbn [bind].
  destruct (Py.slice_to 10 (Py.dget d "strengths" (JArr [])))
    as [strengths |] eqn:H3; [| discriminate]. cbn [bind].
  destruct (Py.slice_to 10 (Py.dget d "improvements" (JArr [])))
    as [improvements |] eqn:H4; [| discriminate]. cbn [bind].
  remember (Py.max2 (JInt 0) (Py.min2 (JInt 100) (JFloat score))) as clamped.
  remember (known_verdict (Py.dget d "verdict" (JStr "weak_fit"))) as verdict.
  remember (take n5000 (py_str E (Py.dget d "detailed_feedback" (JStr ""))))
    as feedback.
  intros H. injection H as <-.
  exists d, score, matched, missing, strengths, improvements.
  subst clamped verdict feedback. repeat split; assumption.
Qed.

(** The dict of lines 150-158, built from cut lists, is within bounds. *)
Lemma normalised_fields (score : Q) (verdict : JSON)
  (matched missing strengths improvements : JSON) (feedback : string)
  (m1 m2 m3 m4 : nat) :
  Py.len matched = Ok m1 -> m1 <= 20 ->
  Py.len missing = Ok m2 -> m2 <= 15 ->
  Py.len strengths = Ok m3 -> m3 <= 10 ->
  Py.len improvements = Ok m4 -> m4 <= 10 ->
  normalised_fitness
    [ ("fitness_score", Py.max2 (JInt 0) (Py.min2 (JInt 100) (JFloat score)));
      ("verdict", known_verdict verdict);
      ("matched_skills", matched);
      ("missing_skills", missing);
      ("strengths", strengths);
      ("improvements", improvements);
      ("detailed_feedback", JStr (take n5000 feedback)) ].
Proof.
  intros H1 L1 H2 L2 H3 L3 H4 L4.
  destruct (clamp_score_range score) as (x & Hx & Hlo & Hhi).
  destruct (known_verdict_in verdict) as (v & Hv & Hin).
  remember (Py.max2 (JInt 0) (Py.min2 (JInt 100) (JFloat score))) as clamped.
  remember (take n5000 feedback) as cut eqn:Hcut.
  unfold normalised_fitness.
  split; [exists clamped, x; now repeat split |].
  split; [exists v; split; [cbn; now rewrite Hv | exact Hin] |].
  split.
  - intros k n Hk. cbn in Hk.
    destruct Hk as [Hk | [Hk | [Hk | [Hk | []]]]]; injection Hk as <- <-.
    + now exists matched, m1.
    + now exists missing, m2.
    + now exists strengths, m3.
    + now exists improvements, m4.
  - exists cut. split; [reflexivity |]. subst cut. apply take_length_le.
Qed.

Lemma fitness_normalize_normalised (E : Externals) (result : JSON) (out : dict) :
  fitness_normalize E result = Ok out -> normalised_fitness out.
Proof.
  intros H.
  destruct (fitness_normalize_shape E result out H)
    as (d & score & matched & missing & strengths & improvements
        & _ & H1 & H2 & H3 & H4 & ->).
  destruct (slice_to_length _ _ _ H1) as (m1 & Hm1 & L1).
  destruct (slice_to_length _ _ _ H2) as (m2 & Hm2 & L2).
  destruct (slice_to_length _ _ _ H3) as (m3 & Hm3 & L3).
  destruct (slice_to_length _ _ _ H4) as (m4 & Hm4 & L4).
  exact (normalised_fields score _ _ _ _ _ _ m1 m2 m3 m4
           Hm1 L1 Hm2 L2 Hm3 L3 Hm4 L4).
Qed.

(** X8. Whatever the payload, a fitness result that the
    normalisation returns has a score between 0 and 100, one of the four
    verdicts, at most 20 matched skills, 15 missing skills, 10 strengths and
    10 improvements, and a feedback text of at most 5000 characters; the
    lists are the leading items of those of the payload. *)
Theorem fitness_normalize_bounds (E : Externals) (result : JSON) (out : dict) :
  fitness_normalize E result = Ok out ->
  normalised_fitness out
  /\ forall k n, In (k, n) FITNESS_LIST_BOUNDS ->
       Py.slice_to n (match Py.get result k (JArr []) with
                      | Ok v => v
                      | Raise _ => JNull
                      end) = Ok (Py.dget out k JNull).
Proof.
  intros H. split; [exact (fitness_normalize_normalised E result out H) |].
  destruct (fitness_normalize_shape E result out H)
    as (d & score & matched & missing & strengths & improvements
        & -> & H1 & H2 & H3 & H4 & ->).
  intros k n Hk. cbn in Hk.
  destruct Hk as [Hk | [Hk | [Hk | [Hk | []]]]]; injection Hk as <- <-;
    cbn [Py.get]; assumption.
Qed.

Lemma fitness_normalize_bounds_witness :
  normalised_fitness
    [ ("fitness_score", JInt 100); ("verdict", JStr "partial_fit");
      ("matched_skills", JArr []); ("missing_skills", JArr []);
      ("strengths", JArr [JStr "Python"]); ("improvements", JArr []);
      ("detailed_feedback", JStr "") ]
  /\ forall k n, In (k, n) FITNESS_LIST_BOUNDS ->
       Py.slice_to n
         (match Py.get (JObj [ ("fitness_score", JInt 250);
                               ("verdict", JStr "excellent");
                               ("strengths", JArr [JStr "Python"]) ])
                  k (JArr []) with
          | Ok v => v
          | Raise _ => JNull
          end)
       = Ok (Py.dget
               [ ("fitness_score", JInt 100); ("verdict", JStr "partial_fit");
                 ("matched_skills", JArr []); ("missing_skills", JArr []);
                 ("strengths", JArr [JStr "Python"]); ("improvements", JArr []);
                 ("detailed_feedback", JStr "") ] k JNull).
Proof.
  apply (fitness_normalize_bounds example_externals
           (JObj [ ("fitness_score", JInt 250); ("verdict", JStr "excellent");
                   ("strengths", JArr [JStr "Python"]) ])).
  vm_compute. reflexivity.
Defined.

Lemma fitness_normalize_idempotent_witness :
  fitness_normalize example_externals
    (JObj [ ("fitness_score", JInt 100); ("verdict", JStr "partial_fit");
            ("matched_skills", JArr []); ("missing_skills", JArr []);
            ("strengths", JArr [JStr "Python"]); ("improvements", JArr []);
            ("detailed_feedback", JStr "") ])
  = Ok [ ("fitness_score", JInt 100); ("verdict", JStr "partial_fit");
         ("matched_skills", JArr []); ("missing_skills", JArr []);
         ("strengths", JArr [JStr "Python"]); ("improvements", JArr []);
         ("detailed_feedback", JStr "") ].
Proof.
  apply (fitness_normalize_idempotent example_externals
           (JObj [ ("fitness_score", JInt 250); ("verdict", JStr "excellent");
                   ("strengths", JArr [JStr "Python"]) ])).
  vm_compute. reflexivity.
Defined.

(** X10. Whatever the state and the generator, a result of the
    fitness node holds either no fitness result and an error list, or a
    fitness result within the bounds of the normalisation and no error
    list. *)
Theorem fitness_node_result (E : Externals) (state : dict) (llm : generator)
  (d : dict) :
  result_of (fitness_scorer_node E state llm) = Ok d ->
  (Py.lookup "fitness_result" d = Some JNull
   /\ exists errors, reported_errors d = Some (JArr errors) /\ errors <> [])
  \/ (exists r, Py.lookup "fitness_result" d = Some (JObj r)
                /\ normalised_fitness r
                /\ reported_errors d = None).
Proof.
  assert (Hfail : forall e, fitness_failed state e = Ok d ->
            Py.lookup "fitness_result" d = Some JNull
            /\ exists errors, reported_errors d = Some (JArr errors) /\ errors <> []).
  { intros e. unfold fitness_failed, errors_plus.
    destruct (Py.or_else _ _) as [| | | | | l |]; cbn [bind]; try discriminate.
    intros H. injection H as <-. split; [reflexivity |].
    eexists. split; [reflexivity |]. now destruct l. }
  unfold fitness_scorer_node.
  destruct (initial_messages E Fitness state) as [messages | e];
    [| cbn [result_of fst]; intros H; left; exact (Hfail e H)].
  destruct (fitness_attempts E llm [0; 1] messages []) as [[[r | |] | e] calls];
    cbn [result_of fst].
  - destruct (fitness_normalize E r) as [fr | e] eqn:Hn.
    + intros H. injection H as <-. right. exists fr.
      split; [reflexivity |]. split; [| reflexivity].
      exact (fitness_normalize_normalised E r fr Hn).
    + intros H. left. exact (Hfail e H).
  - destruct (errors_plus state "Failed to parse fitness evaluation")
      as [errs | e] eqn:He.
    + unfold errors_plus in He.
      destruct (Py.or_else _ _) as [| | | | | l |]; try discriminate.
      injection He as <-. intros H. injection H as <-. left.
      split; [reflexivity |]. eexists. split; [reflexivity |]. now destruct l.
    + intros H. left. exact (Hfail e H).
  - intros H. left. exact (Hfail _ H).
  - intros H. left. exact (Hfail e H).
Qed.

Lemma fitness_node_result_witness :
  (Py.lookup "fitness_result"
     [ ("fitness_result",
        JObj [ ("fitness_score", JInt 100); ("verdict", JStr "partial_fit");
               ("matched_skills", JArr []); ("missing_skills", JArr []);
               ("strengths", JArr [JStr "Python"]); ("improvements", JArr []);
               ("detailed_feedback", JStr "") ]) ] = Some JNull
   /\ exists errors,
        reported_errors
          [ ("fitness_result",
             JObj [ ("fitness_score", JInt 100); ("verdict", JStr "partial_fit");
                    ("matched_skills", JArr []); ("missing_skills", JArr []);
                    ("strengths", JArr [JStr "Python"]); ("improvements", JArr []);
                    ("detailed_feedback", JStr "") ]) ] = Some (JArr errors)
        /\ errors <> [])
  \/ (exists r,
        Py.lookup "fitness_result"
          [ ("fitness_result",
             JObj [ ("fitness_score", JInt 100); ("verdict", JStr "partial_fit");
                    ("matched_skills", JArr []); ("missing_skills", JArr []);
                    ("strengths", JArr [JStr "Python"]); ("improvements", JArr []);
                    ("detailed_feedback", JStr "") ]) ] = Some (JObj r)
        /\ normalised_fitness r
        /\ reported_errors
             [ ("fitness_result",
                JObj [ ("fitness_score", JInt 100); ("verdict", JStr "partial_fit");
                       ("matched_skills", JArr []); ("missing_skills", JArr []);
                       ("strengths", JArr [JStr "Python"]); ("improvements", JArr []);
                       ("detailed_feedback", JStr "") ]) ] = None).
Proof.
  apply (fitness_node_result example_externals example_state
           (always FITNESS_ANSWER)).
  vm_compute. reflexivity.
Defined.

(** ** The company step: adjusted weights and returned modifiers *)

Lemma adjusted_weight_range (original : JSON) (adj : Q) (w : JSON) :
  adjusted_weight original adj = Ok w ->
  exists y, w = JFloat y /\ (0 <= y)%Q /\ (y <= 10)%Q.
Proof.
  unfold adjusted_weight. destruct (float_operand original) as [x |];
    [| discriminate].
  cbn [bind]. intros H. injection H as <-.
  destruct (PyFloat.add x adj) as [z | negative]; cbn [clamp_weight].
  2: { eexists. split; [reflexivity |].
       destruct negative; split; unfold Qle; cbn; lia. }
  unfold Py.min2. cbn [Py.num_val].
  destruct (Qle_bool 10 z) eqn:Hhi.
  - exists 10%Q. split; [reflexivity | split; unfold Qle; cbn; lia].
  - unfold Py.max2. cbn [Py.num_val].
    destruct (Qle_bool z 0) eqn:Hlo.
    + exists 0%Q. split; [reflexivity | split; unfold Qle; cbn; lia].
    + exists z. split; [reflexivity |].
      split; [exact (Qle_bool_false _ _ Hlo) | exact (Qle_bool_false _ _ Hhi)].
Qed.

Lemma apply_adjustments_effect (adjustments : list (string * Q)) (name : string) :
  forall d d',
    apply_adjustments adjustments name d = Ok d' ->
    (forall k, k <> "weight" -> Py.lookup k d' = Py.lookup k d)
    /\ (unmatched adjustments name -> d' = d)
    /\ (d' = d
        \/ exists y, Py.lookup "weight" d' = Some (JFloat y)
                     /\ (0 <= y)%Q /\ (y <= 10)%Q).
Proof.
  induction adjustments as [| [adj_key adj_value] rest IH]; intros d d' H.
  - cbn in H. injection H as <-. repeat split; auto.
  - cbn [apply_adjustments] in H.
    destruct (contains adj_key name) eqn:Hc.
    + destruct (adjusted_weight (Py.dget d "weight" (JFloat 5)) adj_value)
        as [w |] eqn:Hw; cbn [bind] in H; [| discriminate H].
      destruct (adjusted_weight_range _ _ _ Hw) as (y & -> & Hlo & Hhi).
      destruct (IH _ _ H) as (Hother & _ & Hweight).
      split; [| split].
      * intros k Hk. rewrite (Hother k Hk). apply lookup_set_other.
        intros He. now apply Hk.
      * intros Hun. specialize (Hun (adj_key, adj_value) (or_introl eq_refl)).
        cbn in Hun. congruence.
      * right. destruct Hweight as [-> | Hin]; [| exact Hin].
        exists y. split; [apply lookup_set_same | now split].
    + destruct (IH _ _ H) as (Hother & Hsame & Hweight).
      split; [exact Hother |]. split; [| exact Hweight].
      intros Hun. apply Hsame. intros kv Hkv. apply Hun. now right.
Qed.

(** X11. The adjustment of one skill by the company step changes
    nothing but its weight.  A skill whose name contains no key of the table
    is returned as it is; a weight that was adjusted lies between 0 and
    10. *)
Theorem adjust_skill_effect (adjustments : list (string * Q))
  (skill skill' : JSON) :
  adjust_skill adjustments skill = Ok skill' ->
  exists d d' name,
    skill = JObj d /\ skill' = JObj d'
    /\ Py.dget d "name" (JStr "") = JStr name
    /\ (forall k, k <> "weight" -> Py.lookup k d' = Py.lookup k d)
    /\ (unmatched adjustments (lower name) -> d' = d)
    /\ (d' = d
        \/ exists y, Py.lookup "weight" d' = Some (JFloat y)
                     /\ (0 <= y)%Q /\ (y <= 10)%Q).
Proof.
  unfold adjust_skill.
  destruct skill as [| | | | | | d]; try discriminate. cbn [Py.get bind].
  destruct (Py.dget d "name" (JStr "")) as [| | | | name | |] eqn:Hname;
    try discriminate. cbn [lower_value bind].
  destruct (apply_adjustments adjustments (lower name) d) as [d' |] eqn:Ha;
    [| discriminate]. cbn [bind].
  intros H. injection H as <-. exists d, d', name.
  destruct (apply_adjustments_effect _ _ _ _ Ha) as (H1 & H2 & H3).
  repeat split; auto.
Qed.

Lemma adjust_skill_effect_witness :
  exists d d' name,
    JObj [("name", JStr "System Design"); ("weight", JInt 9)] = JObj d
    /\ JObj [("name", JStr "System Design"); ("weight", JFloat 10)] = JObj d'
    /\ Py.dget d "name" (JStr "") = JStr name
    /\ (forall k, k <> "weight" -> Py.lookup k d' = Py.lookup k d)
    /\ (unmatched (weight_adjustments faang_modifiers) (lower name) -> d' = d)
    /\ (d' = d
        \/ exists y, Py.lookup "weight" d' = Some (JFloat y)
                     /\ (0 <= y)%Q /\ (y <= 10)%Q).
Proof.
  apply (adjust_skill_effect (weight_adjustments faang_modifiers)).
  vm_compute. reflexivity.
Defined.

Lemma modifiers_dict_written_out (company_type : string) :
  modifiers_dict company_type (modifiers_for company_type)
  = modifiers_output company_type.
Proof.
  unfold modifiers_for, COMPANY_MODIFIERS, modifiers_output.
  cbn [modifiers_lookup].
  destruct (String.eqb company_type "startup") eqn:H1;
    [apply String.eqb_eq in H1; now subst |].
  destruct (String.eqb company_type "mid_level") eqn:H2.
  { apply String.eqb_eq in H2. now subst. }
  destruct (String.eqb company_type "faang") eqn:H3;
    [apply String.eqb_eq in H3; now subst |].
  destruct (String.eqb company_type "research") eqn:H4;
    [apply String.eqb_eq in H4; now subst |].
  destruct (String.eqb company_type "enterprise") eqn:H5;
    [apply String.eqb_eq in H5; now subst |].
  reflexivity.
Qed.

(** X13. Whenever the company step returns, it returns, written out
    here, the entry of the table for the lower-cased company type, under
    that type as label (the entry [mid_level] for a type the table does not
    hold), with or without a skill profile, and marks the phase as
    complete: the lookup in the table does not depend on the case of the
    company type. *)
Theorem company_node_modifiers (state out : dict) :
  company_logic_node state = Ok out ->
  exists company_type,
    Py.dget state "company_type" (JStr "mid_level") = JStr company_type
    /\ Py.lookup "company_modifiers" out
       = Some (modifiers_output (lower company_type))
    /\ Py.lookup "current_phase" out = Some (JStr "company_logic_complete").
Proof.
  unfold company_logic_node.
  destruct (Py.dget state "company_type" (JStr "mid_level"))
    as [| | | | company_type | |]; try discriminate.
  cbn [lower_value bind]. intros H. exists company_type.
  split; [reflexivity |]. rewrite <- modifiers_dict_written_out. revert H.
  destruct (negb (Py.truthy _)).
  - intros H. injection H as <-. split; reflexivity.
  - destruct (Py.get _ "skills" (JArr [])) as [skills |]; cbn [bind];
      [| discriminate].
    destruct (Py.iter skills) as [items |]; cbn [bind]; [| discriminate].
    destruct (adjust_skills _ items) as [adjusted |]; cbn [bind];
      [| discriminate].
    destruct skills; try discriminate.
    destruct (Py.or_else _ _); try discriminate.
    destruct (sort_skills adjusted) as [sorted |]; cbn [bind]; [| discriminate].
    intros H. injection H as <-. split; reflexivity.
Qed.

Lemma company_node_modifiers_witness :
  exists company_type,
    Py.dget [("company_type", JStr "FAANG")] "company_type" (JStr "mid_level")
    = JStr company_type
    /\ Py.lookup "company_modifiers"
         [ ("skill_profile", JObj []); ("company_modifiers", FAANG_OUTPUT);
           ("current_phase", JStr "company_logic_complete");
           ("messages", JArr []) ]
       = Some (modifiers_output (lower company_type))
    /\ Py.lookup "current_phase"
         [ ("skill_profile", JObj []); ("company_modifiers", FAANG_OUTPUT);
           ("current_phase", JStr "company_logic_complete");
           ("messages", JArr []) ]
       = Some (JStr "company_logic_complete").
Proof.
  apply (company_node_modifiers [("company_type", JStr "FAANG")]).
  vm_compute. reflexivity.
Defined.

(** ** The re-validation of the skill profile (api/v1/jd.py) *)

Lemma collect_valid_Forall {A : Type} (make : JSON -> res A) (P : A -> Prop) :
  (forall x a, make x = Ok a -> P a) ->
  forall items, Forall P (collect_valid make items).
Proof.
  intros Hmake. induction items as [| x rest IH]; cbn [collect_valid];
    [constructor |].
  destruct (make x) as [a |] eqn:Hx; [| exact IH].
  constructor; [exact (Hmake x a Hx) | exact IH].
Qed.

Lemma bounded_field_range (field : string) (lo hi x y : Q) :
  bounded_field field lo hi x = Ok y -> (lo <= y)%Q /\ (y <= hi)%Q.
Proof.
  unfold bounded_field.
  destruct (Qle_bool lo x && Qle_bool x hi) eqn:Hb; [| discriminate].
  intros H. injection H as <-. apply andb_true_iff in Hb as [H1 H2].
  split; now apply Qle_bool_iff.
Qed.

(** One step of a computation in the error monad. *)
Ltac bind_step H :=
  match type of H with
  | bind ?m _ = Ok _ =>
      let Hm := fresh "Hm" in
      destruct m eqn:Hm; cbn [bind] in H; [| discriminate H]
  end.

Lemma make_skill_range (E : Externals) (s : JSON) (sk : Skill) :
  make_skill E s = Ok sk ->
  (0 <= skill_weight sk)%Q /\ (skill_weight sk <= 10)%Q.
Proof.
  unfold make_skill. intros H. do 8 bind_step H.
  match goal with
  | Hb : bounded_field _ _ _ _ = Ok _ |- _ =>
      apply bounded_field_range in Hb
  end.
  bind_step H. injection H as <-. assumption.
Qed.

Lemma make_expectation_range (E : Externals) (e : JSON)
  (ex : EngineeringExpectation) :
  make_expectation E e = Ok ex ->
  (0 <= importance ex)%Q /\ (importance ex <= 10)%Q
  /\ String.length (description ex) <= n500.
Proof.
  unfold make_expectation. intros H. do 6 bind_step H.
  match goal with
  | Hb : bounded_field _ _ _ _ = Ok _ |- _ =>
      apply bounded_field_range in Hb as [Hlo Hhi]
  end.
  bind_step H.
  match type of H with
  | (if ?c then _ else _) = _ => destruct c eqn:Hlen; [discriminate H |]
  end.
  injection H as <-. cbn [importance description].
  apply Nat.ltb_ge in Hlen. auto.
Qed.

(** X14. Whatever it is given, a skill profile that the
    re-validation returns keeps the bounds of the schema: every weight and
    every importance lies between 0 and 10, a description has at most 500
    and the summary at most 8000 characters, and the experience level is one
    of the six known levels. *)
Theorem safe_parse_skill_profile_bounds (E : Externals) (raw : JSON)
  (p : SkillProfile) :
  _safe_parse_skill_profile E raw = Ok p -> profile_within_bounds p.
Proof.
  unfold _safe_parse_skill_profile.
  match goal with
  | |- context [reextract_embedded E ?r] =>
      generalize (reextract_embedded E r)
  end.
  intros d H. do 4 bind_step H.
  match goal with
  | Hs : Py.slice_to n8000 _ = Ok ?j |- _ =>
      destruct (slice_to_length _ _ _ Hs) as (m & Hlen & Hle)
  end.
  match type of H with
  | bind (if ?c then _ else _) _ = _ =>
      destruct c eqn:Hlevel; cbn [bind] in H; [| discriminate H]
  end.
  do 3 bind_step H. injection H as <-. unfold profile_within_bounds.
  cbn [skills engineering_expectations experience_level summary].
  split; [apply collect_valid_Forall, make_skill_range |].
  split; [apply collect_valid_Forall, make_expectation_range |].
  split; [now apply mem_In |].
  match goal with
  | Hf : str_field "summary" ?j = Ok _ |- _ =>
      destruct j; try discriminate Hf; cbn in Hf; injection Hf as <-
  end.
  cbn in Hlen. injection Hlen as <-. exact Hle.
Qed.

Lemma safe_parse_skill_profile_bounds_witness :
  profile_within_bounds
    {| skills := [ {| skill_name := "Go"; skill_category := "concept";
                      skill_weight := 5; skill_source := "inferred" |} ];
       experience_level := "senior"; domain := "Software Engineering";
       engineering_expectations := []; key_responsibilities := [];
       summary := "Analysis complete." |}.
Proof.
  apply (safe_parse_skill_profile_bounds example_externals
           (JObj [ ("skills",
                    JArr [ JObj [("name", JStr "Go")];
                           JObj [("name", JStr "Rust"); ("weight", JInt 11)] ]);
                   ("experience_level", JStr "senior") ])).
  vm_compute. reflexivity.
Defined.

(** X15. Given nothing to read (a value that is neither a
    dict nor a text, an empty dict, a text without a JSON object), the
    re-validation returns the default profile: no skills, the level [mid],
    the domain [Software Engineering]. *)
Theorem safe_parse_skill_profile_default (E : Externals) (raw : JSON) :
  holds_no_profile E raw ->
  _safe_parse_skill_profile E raw = Ok DEFAULT_PROFILE.
Proof.
  assert (Hempty : forall r, r = [] ->
            (let raw := reextract_embedded E r in
             skill_items <- Py.iter (Py.dget raw "skills" (JArr [])) ;;
             let skills := collect_valid (make_skill E) skill_items in
             expectation_items <-
               Py.iter (Py.dget raw "engineering_expectations" (JArr [])) ;;
             let expectations :=
               collect_valid (make_expectation E) expectation_items in
             summary <- Py.slice_to n8000
                          (Py.dget raw "summary" (JStr "Analysis complete.")) ;;
             level <- str_field "experience_level"
                        (Py.dget raw "experience_level" (JStr "mid")) ;;
             level <- (if mem level EXPERIENCE_LEVELS then Ok level
                       else Raise (validation_error "experience_level")) ;;
             dom <- str_field "domain"
                      (Py.dget raw "domain" (JStr "Software Engineering")) ;;
             resp <- match Py.dget raw "key_responsibilities" (JArr []) with
                     | JArr l => str_list "key_responsibilities" l
                     | _ => Raise (validation_error "key_responsibilities")
                     end ;;
             summary <- str_field "summary" summary ;;
             Ok {| skills := skills; experience_level := level; domain := dom;
                   engineering_expectations := expectations;
                   key_responsibilities := resp; summary := summary |})
            = Ok DEFAULT_PROFILE).
  { intros r ->. vm_compute. reflexivity. }
  unfold holds_no_profile, _safe_parse_skill_profile.
  destruct raw as [| b | z | x | text | l | d]; intros H;
    try (apply Hempty; reflexivity).
  - destruct (_try_extract_json E text) as [[| kv parsed] |];
      [apply Hempty; reflexivity | contradiction | apply Hempty; reflexivity].
  - apply Hempty. exact H.
Qed.

Lemma safe_parse_skill_profile_default_witness :
  _safe_parse_skill_profile example_externals (JStr "I cannot help with that")
  = Ok DEFAULT_PROFILE.
Proof.
  apply (safe_parse_skill_profile_default example_externals).
  vm_compute. exact I.
Defined.

Lemma reextract_fallback (E : Externals) (state : dict) (answer : string)
  (embedded : dict) (s : JSON) (rest : list JSON) :
  _try_extract_json E (take n8000 answer) = Some embedded ->
  Py.dget embedded "skills" JNull = JArr (s :: rest) ->
  reextract_embedded E
    [ ("skills", JArr []);
      ("experience_level", JStr "mid");
      ("domain", Py.dget state "role" (JStr "Software Engineering"));
      ("engineering_expectations", JArr []);
      ("key_responsibilities", JArr []);
      ("summary", JStr (take n8000 answer)) ] = embedded
  /\ reextract_embedded E embedded = embedded.
Proof.
  intros Hx Hs. split.
  - unfold reextract_embedded.
    match goal with
    | |- context [Py.dget ?L "summary" JNull] =>
        change (Py.dget L "summary" JNull) with (JStr (take n8000 answer));
        change (Py.dget L "skills" JNull) with (JArr [])
    end.
    cbn [Py.truthy negb]. rewrite Hx.
    destruct embedded; [discriminate Hs | now rewrite Hs].
  - unfold reextract_embedded. rewrite Hs. cbn [Py.truthy negb].
    destruct (Py.dget embedded "summary" JNull); reflexivity.
Qed.

(** ** The calls of the generator *)

Section Calls.

Variable E : Externals.
Variable state : dict.
Variable llm : generator.

Lemma jd_attempts_calls (m : list message) :
  exists n, n <= 2
    /\ snd (jd_attempts E llm [0; 1] m "" [])
       = firstn n [m; (m ++ [(HumanMessage, JD_RETRY_MESSAGE)])%list]
    /\ (n = 0 -> False).
Proof.
  cbn [jd_attempts Nat.eqb app].
  destruct (llm m) as [a1 | e1]; [| exists 1; repeat split; auto; lia].
  destruct (json_loads E (jd_candidate a1)); [exists 1; repeat split; auto; lia |].
  destruct (llm _) as [a2 | e2]; [| exists 2; repeat split; auto; lia].
  destruct (json_loads E (jd_candidate a2)); exists 2; repeat split; auto; lia.
Qed.

Lemma fitness_attempts_calls (m : list message) :
  exists n, n <= 2
    /\ snd (fitness_attempts E llm [0; 1] m [])
       = firstn n [m; (m ++ [(HumanMessage, FITNESS_RETRY_MESSAGE)])%list].
Proof.
  cbn [fitness_attempts Nat.eqb app].
  destruct (llm m) as [a1 | e1]; [| exists 1; split; auto].
  destruct (json_loads E (fitness_candidate a1)); [exists 1; split; auto |].
  destruct (llm _) as [a2 | e2]; [| exists 2; split; auto].
  destruct (json_loads E (fitness_candidate a2)); exists 2; split; auto.
Qed.

Lemma capstone_attempts_calls (m : list message) (a : string) :
  exists n, n <= 2
    /\ snd (capstone_attempts E llm [0; 1] m a [m])
       = firstn n [m; (m ++ [(HumanMessage, CAPSTONE_RETRY_MESSAGE)])%list].
Proof.
  cbn [capstone_attempts Nat.eqb app].
  destruct (json_loads E (capstone_candidate a)); [exists 1; split; auto |].
  destruct (llm _) as [a2 | e2]; [| exists 2; split; auto].
  destruct (json_loads E (capstone_candidate a2)); exists 2; split; auto.
Qed.

Lemma repo_attempts_calls (m : list message) :
  exists n, n <= 2
    /\ snd (repo_attempts E llm [0; 1] m JNull [])
       = firstn n [m; (m ++ [(HumanMessage, REPO_RETRY_MESSAGE)])%list].
Proof.
  cbn [repo_attempts Nat.eqb app].
  destruct (llm m) as [a1 | e1]; [| exists 1; split; auto].
  destruct (looks_like_fallback 0 (_parse_scorecard E a1)) as [[|] | e];
    [| exists 1; split; auto | exists 1; split; auto].
  destruct (llm _) as [a2 | e2]; [| exists 2; split; auto].
  destruct (looks_like_fallback 1 (_parse_scorecard E a2)) as [[|] | e];
    exists 2; split; auto.
Qed.

(** X16. How often, and with what, a node invokes the generator,
    whatever the state and whatever the generator answers: never when the
    prompt cannot be built; otherwise at most twice (once for the scaffold
    and the portfolio task), first with the system and the user prompt,
    then with these two and the corrective message of the task. *)
Theorem generator_calls (t : task) :
  match user_prompt E t state with
  | Ok prompt =>
      exists n,
        n <= (if retries t then 2 else 1)
        /\ histories (node E t state llm)
           = firstn n [first_history E t prompt; second_history E t prompt]
  | Raise _ => histories (node E t state llm) = []
  end.
Proof.
  unfold histories, second_history, first_history.
  destruct t; cbn [node retries retry_message].
  - unfold jd_analysis_node, initial_messages.
    destruct (user_prompt E JdAnalysis state) as [prompt | e]; cbn [bind];
      [| reflexivity].
    destruct (jd_attempts_calls
                [(SystemMessage, system_prompt E JdAnalysis); (HumanMessage, prompt)])
      as (n & Hn & Hc & _).
    exists n. split; [exact Hn |]. rewrite <- Hc.
    destruct (jd_attempts E llm _ _ _ _) as [[[parsed response] | e] calls];
      [| reflexivity].
    cbn [snd]. now destruct (bind _ _).
  - unfold capstone_generator_node, initial_messages.
    destruct (user_prompt E Capstone state) as [prompt | e]; cbn [bind];
      [| reflexivity].
    destruct (llm _) as [a | e] eqn:Ha; [| exists 1; split; auto].
    destruct (capstone_attempts_calls
                [(SystemMessage, system_prompt E Capstone); (HumanMessage, prompt)] a)
      as (n & Hn & Hc).
    exists n. split; [exact Hn |]. rewrite <- Hc.
    destruct (capstone_attempts E llm _ _ _ _) as [[[parsed response] | e] calls];
      [| reflexivity].
    cbn [snd]. now destruct (Py.len _).
  - unfold scaffold_generator_node, initial_messages.
    destruct (user_prompt E Scaffold state) as [prompt | e]; cbn [bind];
      [| reflexivity].
    exists 1. split; [auto |].
    destruct (llm _) as [a | e]; [| reflexivity]. now destruct (bind _ _).
  - unfold portfolio_optimizer_node.
    destruct (user_prompt E Portfolio state) as [prompt | e].
    + destruct (negb _ || negb _); [exists 0; split; auto |].
      exists 1. split; [auto |].
      destruct (llm _) as [a | e]; [| reflexivity].
      destruct (bind _ _) as [v | e]; [reflexivity |].
      now destruct (exn_kind_of e).
    + now destruct (negb _ || negb _).
  - unfold fitness_scorer_node, initial_messages.
    destruct (user_prompt E Fitness state) as [prompt | e]; cbn [bind];
      [| reflexivity].
    destruct (fitness_attempts_calls
                [(SystemMessage, system_prompt E Fitness); (HumanMessage, prompt)])
      as (n & Hn & Hc).
    exists n. split; [exact Hn |]. rewrite <- Hc.
    destruct (fitness_attempts E llm _ _ _) as [[[r | |] | e] calls];
      try reflexivity.
    + now destruct (fitness_normalize E r).
    + now destruct (errors_plus state _).
  - unfold repo_analysis_node, initial_messages.
    destruct (user_prompt E RepoScorecard state) as [prompt | e]; cbn [bind].
    + destruct (negb _); [exists 0; split; auto |].
      destruct (analyze_github_repo E _) as [r | e]; [| exists 0; split; auto].
      destruct (repo_attempts_calls
                  [(SystemMessage, system_prompt E RepoScorecard);
                   (HumanMessage, prompt)]) as (n & Hn & Hc).
      exists n. split; [exact Hn |]. rewrite <- Hc.
      destruct (repo_attempts E llm _ _ _ _) as [[scorecard | e] calls];
        [| reflexivity].
      now destruct (with_metadata _ _ _).
    + destruct (negb _); [reflexivity |].
      now destruct (analyze_github_repo E _).
Qed.

(** X17. No exception escapes the JD, the capstone and the
    scaffold node, whatever the state and the generator; none escapes the
    fitness and the scorecard node when the error list of the state is a
    list (or absent). *)
Theorem nodes_catch_every_exception :
  raises (jd_analysis_node E state llm) = false
  /\ raises (capstone_generator_node E state llm) = false
  /\ raises (scaffold_generator_node E state llm) = false
  /\ ((exists l, Py.or_else (Py.dget state "errors" JNull) (JArr []) = JArr l) ->
      raises (fitness_scorer_node E state llm) = false
      /\ raises (repo_analysis_node E state llm) = false).
Proof.
  unfold raises, result_of.
  split; [| split; [| split]].
  - unfold jd_analysis_node.
    destruct (initial_messages E JdAnalysis state); [| reflexivity].
    destruct (jd_attempts E llm _ _ _ _) as [[[parsed response] | e] calls];
      [| reflexivity].
    now destruct (bind _ _).
  - unfold capstone_generator_node.
    destruct (initial_messages E Capstone state); [| reflexivity].
    destruct (llm _); [| reflexivity].
    destruct (capstone_attempts E llm _ _ _ _) as [[[parsed response] | e] calls];
      [| reflexivity].
    now destruct (Py.len _).
  - unfold scaffold_generator_node.
    destruct (initial_messages E Scaffold state); [| reflexivity].
    destruct (llm _); [| reflexivity]. now destruct (bind _ _).
  - intros [l Hl].
    assert (Hplus : forall msg, exists errs, errors_plus state msg = Ok errs).
    { intros msg. unfold errors_plus. rewrite Hl. eexists. reflexivity. }
    assert (Hfit : forall e, exists d, fitness_failed state e = Ok d).
    { intros e. unfold fitness_failed.
      destruct (Hplus ("Fitness evaluation failed: " ++ take n200 (exn_str e)))
        as [errs ->]. eexists. reflexivity. }
    assert (Hrepo : forall msg, exists d, repo_failed state msg = Ok d).
    { intros msg. unfold repo_failed. destruct (Hplus msg) as [errs ->].
      eexists. reflexivity. }
    assert (Hhandler : forall e, exists d, repo_handler state e = Ok d).
    { intros e. unfold repo_handler. destruct (exn_kind_of e); apply Hrepo. }
    split.
    + unfold fitness_scorer_node.
      destruct (initial_messages E Fitness state) as [m | e];
        [| destruct (Hfit e) as [d ->]; reflexivity].
      destruct (fitness_attempts E llm _ _ _) as [[[r | |] | e] calls]; cbn [fst].
      * destruct (fitness_normalize E r) as [fr | e]; [reflexivity |].
        cbn [fst]. now destruct (Hfit e) as [d ->].
      * destruct (Hplus "Failed to parse fitness evaluation") as [errs ->].
        reflexivity.
      * now destruct (Hfit (Exn OtherError "name 'result' is not defined"))
          as [d ->].
      * now destruct (Hfit e) as [d ->].
    + unfold repo_analysis_node.
      destruct (negb _);
        [cbn [fst]; now destruct (Hrepo "No repository URL provided") as [d ->] |].
      destruct (analyze_github_repo E _) as [r | e];
        [| cbn [fst]; now destruct (Hhandler e) as [d ->]].
      destruct (initial_messages E RepoScorecard state) as [m | e];
        [| cbn [fst]; now destruct (Hhandler e) as [d ->]].
      destruct (repo_attempts E llm _ _ _ _) as [[scorecard | e] calls];
        [| cbn [fst]; now destruct (Hhandler e) as [d ->]].
      destruct (with_metadata _ _ _) as [sc | e]; [reflexivity |].
      cbn [fst]. now destruct (Hhandler e) as [d ->].
Qed.

End Calls.

(** ** Answers that parse *)

(** X18. For the JD, the capstone and the fitness task the
    result is that of the first answer whose candidate text parses: when
    the first answer parses, the node makes one call and returns what it
    returns for a generator that always gives that answer; when only the
    second parses, the result is the one for a generator that gives the
    second answer at once, so the failed attempt leaves no trace in it. *)
Theorem first_parsed_answer_decides (E : Externals) (state : dict)
  (llm : generator) (t : task) (prompt a1 : string) :
  takes_first_parse t = true ->
  user_prompt E t state = Ok prompt ->
  llm (first_history E t prompt) = Ok a1 ->
  (json_loads E (candidate_of t a1) <> None ->
   node E t state llm = node E t state (always a1)
   /\ histories (node E t state llm) = [first_history E t prompt])
  /\ (forall a2,
        json_loads E (candidate_of t a1) = None ->
        llm (second_history E t prompt) = Ok a2 ->
        json_loads E (candidate_of t a2) <> None ->
        result_of (node E t state llm) = result_of (node E t state (always a2))
        /\ histories (node E t state llm)
           = [first_history E t prompt; second_history E t prompt]).
Proof.
  intros Ht Hp H1.
  unfold histories, second_history, first_history in *.
  destruct t; try discriminate Ht; cbn [node candidate_of retry_message] in *.
  - unfold jd_analysis_node, initial_messages. rewrite Hp. cbn [bind].
    cbn [jd_attempts Nat.eqb app]. unfold always at 1. rewrite H1. split.
    + destruct (json_loads E (jd_candidate a1)) as [v |]; [| congruence].
      intros _. split; [reflexivity |]. now destruct (bind _ _).
    + intros a2 Hn1 H2 Hn2. rewrite Hn1. cbn [app] in H2. rewrite H2.
      unfold always.
      destruct (json_loads E (jd_candidate a2)) as [v |]; [| congruence].
      split; now destruct (bind _ _).
  - unfold capstone_generator_node, initial_messages. rewrite Hp. cbn [bind].
    unfold always at 1. rewrite H1.
    cbn [capstone_attempts Nat.eqb app]. split.
    + destruct (json_loads E (capstone_candidate a1)) as [v |]; [| congruence].
      intros _. split; [reflexivity |]. now destruct (Py.len _).
    + intros a2 Hn1 H2 Hn2. rewrite Hn1. cbn [app] in H2. rewrite H2.
      unfold always.
      destruct (json_loads E (capstone_candidate a2)) as [v |]; [| congruence].
      split; now destruct (Py.len _).
  - unfold fitness_scorer_node, initial_messages. rewrite Hp. cbn [bind].
    cbn [fitness_attempts Nat.eqb app]. unfold always at 1. rewrite H1. split.
    + destruct (json_loads E (fitness_candidate a1)) as [v |]; [| congruence].
      intros _. split; [reflexivity |]. now destruct (fitness_normalize E v).
    + intros a2 Hn1 H2 Hn2. rewrite Hn1. cbn [app] in H2. rewrite H2.
      unfold always.
      destruct (json_loads E (fitness_candidate a2)) as [v |]; [| congruence].
      split; now destruct (fitness_normalize E v).
Qed.

Lemma first_parsed_answer_decides_witness :
  result_of (node example_externals JdAnalysis example_state refuses_first)
  = result_of (node example_externals JdAnalysis example_state
                 (always python_payload))
  /\ histories (node example_externals JdAnalysis example_state refuses_first)
     = [ first_history example_externals JdAnalysis "user prompt";
         second_history example_externals JdAnalysis "user prompt" ].
Proof.
  destruct (first_parsed_answer_decides example_externals example_state
              refuses_first JdAnalysis "user prompt" REFUSAL
              eq_refl eq_refl eq_refl) as [_ Hsecond].
  apply (Hsecond python_payload); [reflexivity | reflexivity |].
  vm_compute. discriminate.
Defined.

(** X19. The JD node validates nothing of what it parses: an object
    whose skills have a length is returned as the skill profile as it is,
    with its expectations beside it, after a single call. *)
Theorem jd_node_passes_parsed_object_on (E : Externals) (state : dict)
  (llm : generator) (prompt a : string) (d : dict) (n : nat) :
  user_prompt E JdAnalysis state = Ok prompt ->
  llm (first_history E JdAnalysis prompt) = Ok a ->
  json_loads E (jd_candidate a) = Some (JObj d) ->
  Py.len (Py.dget d "skills" (JArr [])) = Ok n ->
  jd_analysis_node E state llm
  = (Ok [ ("skill_profile", JObj d);
          ("engineering_expectations",
           Py.dget d "engineering_expectations" (JArr []));
          ("current_phase", JStr "jd_analysis_complete");
          ("messages", JArr [JStr a]) ],
     [first_history E JdAnalysis prompt]).
Proof.
  intros Hp H1 Hl Hn. unfold first_history in H1.
  unfold jd_analysis_node, initial_messages. rewrite Hp. cbn [bind].
  cbn [jd_attempts]. rewrite H1, Hl. cbn [Py.get bind]. rewrite Hn.
  reflexivity.
Qed.

Lemma jd_node_passes_parsed_object_on_witness :
  jd_analysis_node example_externals example_state (always python_payload)
  = (Ok [ ("skill_profile", python_profile);
          ("engineering_expectations", JArr []);
          ("current_phase", JStr "jd_analysis_complete");
          ("messages", JArr [JStr python_payload]) ],
     [first_history example_externals JdAnalysis "user prompt"]).
Proof.
  apply (jd_node_passes_parsed_object_on example_externals example_state
           (always python_payload) "user prompt" python_payload
           [ ("skills",
              JArr [JObj [("name", JStr "Python"); ("weight", JInt 15)]]) ] 1);
    vm_compute; reflexivity.
Defined.

(** X20. The portfolio node catches parse failures only:
    when the answer is valid JSON but no object, the [AttributeError] of
    the validation escapes the node instead of becoming an error result. *)
Theorem portfolio_node_lets_non_object_escape (E : Externals) (state : dict)
  (llm : generator) (prompt a : string) (v : JSON) :
  Py.truthy (Py.dget state "portfolio_project_title" (JStr "")) = true ->
  Py.truthy (Py.dget state "portfolio_project_description" (JStr "")) = true ->
  user_prompt E Portfolio state = Ok prompt ->
  llm (first_history E Portfolio prompt) = Ok a ->
  _parse_portfolio_response E a = Ok v ->
  (forall d, v <> JObj d) ->
  portfolio_optimizer_node E state llm
  = (Raise (Py.attribute_error v "get"), [first_history E Portfolio prompt]).
Proof.
  intros Ht Hd Hp H1 Hv Hno. unfold first_history in *.
  unfold portfolio_optimizer_node. rewrite Ht, Hd, Hp. cbn [negb orb].
  rewrite H1, Hv. cbn [bind].
  destruct v; try reflexivity. now destruct (Hno fields).
Qed.

Lemma portfolio_node_lets_non_object_escape_witness :
  portfolio_optimizer_node example_externals example_state (always ARRAY_ANSWER)
  = (Raise (Py.attribute_error (JArr [JInt 1; JInt 2]) "get"),
     [first_history example_externals Portfolio "user prompt"]).
Proof.
  apply (portfolio_node_lets_non_object_escape example_externals example_state
           (always ARRAY_ANSWER) "user prompt" ARRAY_ANSWER);
    try (vm_compute; reflexivity).
  intros d. discriminate.
Defined.

(** X21. An answer that is valid JSON of the wrong shape ends
    the scaffold node with an error that says so: unlike an answer that is
    no JSON, which is reported as an invalid response, a value that is no
    object or an object without a list of files is reported by name. *)
Theorem scaffold_node_reports_wrong_shape (E : Externals) (state : dict)
  (llm : generator) (prompt a : string) (v : JSON) :
  user_prompt E Scaffold state = Ok prompt ->
  llm (first_history E Scaffold prompt) = Ok a ->
  json_loads E (scaffold_candidate a) = Some v ->
  (forall d files, v = JObj d -> Py.lookup "files" d <> Some (JArr files)) ->
  exists msg,
    scaffold_generator_node E state llm
    = (Ok [ ("errors", JArr [JStr ("Scaffold generation failed: " ++ msg)]);
            ("current_phase", JStr "scaffold_generation_failed");
            ("messages", JArr []) ],
       [first_history E Scaffold prompt])
    /\ (msg = "Scaffold response is not a JSON object"
        \/ msg = "Scaffold response missing 'files' array").
Proof.
  intros Hp H1 Hl Hshape. unfold first_history in *.
  unfold scaffold_generator_node, initial_messages. rewrite Hp. cbn [bind].
  rewrite H1. unfold _parse_scaffold_response, loads. rewrite Hl. cbn [bind].
  destruct v as [| | | | | | d];
    try (exists "Scaffold response is not a JSON object"; split;
         [reflexivity | now left]).
  exists "Scaffold response missing 'files' array".
  split; [| now right].
  destruct (Py.lookup "files" d) as [[| | | | | files |] |] eqn:Hf;
    try reflexivity.
  now destruct (Hshape d files eq_refl).
Qed.

Lemma scaffold_node_reports_wrong_shape_witness :
  exists msg,
    scaffold_generator_node example_externals example_state (always ARRAY_ANSWER)
    = (Ok [ ("errors", JArr [JStr ("Scaffold generation failed: " ++ msg)]);
            ("current_phase", JStr "scaffold_generation_failed");
            ("messages", JArr []) ],
       [first_history example_externals Scaffold "user prompt"])
    /\ (msg = "Scaffold response is not a JSON object"
        \/ msg = "Scaffold response missing 'files' array").
Proof.
  apply (scaffold_node_reports_wrong_shape example_externals example_state
           (always ARRAY_ANSWER) "user prompt" ARRAY_ANSWER
           (JArr [JInt 1; JInt 2]));
    try (vm_compute; reflexivity).
  intros d files H. discriminate H.
Defined.

(** ** Fenced answers *)

Lemma rstrip_fence (a : string) : rstrip (a ++ "```") = a ++ "```".
Proof.
  change (a ++ "```") with (a ++ "``" ++ String bt "").
  rewrite <- append_assoc. now rewrite rstrip_app_nonspace.
Qed.

Lemma endswith_fence (a : string) : endswith FENCE (a ++ "```") = true.
Proof.
  induction a as [| c a IH]; [reflexivity |].
  cbn [append endswith]. rewrite IH. apply orb_true_r.
Qed.

Lemma drop_last_fence (a : string) : drop_last 3 (a ++ "```") = a.
Proof.
  unfold drop_last. rewrite length_append. cbn [String.length].
  replace (String.length a + 3 - 3) with (String.length a) by lia.
  apply take_app_length.
Qed.

Lemma rstrip_brace_newline (a : string) :
  rstrip (a ++ "}" ++ chr nl) = a ++ "}".
Proof.
  change (a ++ "}" ++ chr nl) with (a ++ String "}" (chr nl)).
  now rewrite rstrip_app_nonspace.
Qed.

Lemma rstrip_brace (a : string) : rstrip (a ++ "}") = a ++ "}".
Proof.
  change (a ++ "}") with (a ++ String "}" "").
  now rewrite rstrip_app_nonspace.
Qed.

Lemma fenced_braced (inner : string) :
  fenced (braced inner)
  = "```json" ++ chr nl ++ (("{" ++ inner) ++ "}" ++ chr nl) ++ "```".
Proof.
  unfold fenced, braced. now rewrite !append_assoc.
Qed.

Lemma strip_fenced (inner : string) :
  strip (fenced (braced inner)) = fenced (braced inner).
Proof.
  unfold strip.
  assert (H : fenced (braced inner)
              = ("```json" ++ chr nl ++ braced inner ++ chr nl) ++ "```").
  { unfold fenced. now rewrite !append_assoc. }
  rewrite H at 1. rewrite rstrip_fence, <- H. reflexivity.
Qed.

Lemma fence_right (body : string) :
  body ++ chr nl ++ "```" = (body ++ chr nl) ++ "```".
Proof. now rewrite append_assoc. Qed.

Lemma strip_braced_newline (inner : string) :
  strip (braced inner ++ chr nl) = braced inner.
Proof.
  unfold strip, braced.
  replace (("{" ++ inner ++ "}") ++ chr nl) with (("{" ++ inner) ++ "}" ++ chr nl)
    by now rewrite !append_assoc.
  rewrite rstrip_brace_newline, append_assoc. reflexivity.
Qed.

Lemma strip_braced (inner : string) : strip (braced inner) = braced inner.
Proof.
  unfold strip, braced.
  replace ("{" ++ inner ++ "}") with (("{" ++ inner) ++ "}")
    by now rewrite !append_assoc.
  rewrite rstrip_brace, append_assoc. reflexivity.
Qed.

Lemma jd_candidate_fenced (inner : string) :
  jd_candidate (fenced (braced inner)) = braced inner.
Proof.
  unfold jd_candidate. rewrite strip_fenced.
  change (sub_leading_fence (fenced (braced inner)))
    with (braced inner ++ chr nl ++ "```").
  rewrite fence_right.
  unfold sub_trailing_fence. rewrite rstrip_fence, endswith_fence, drop_last_fence.
  rewrite strip_braced_newline. reflexivity.
Qed.

Lemma fitness_candidate_fenced (inner : string) :
  fitness_candidate (fenced (braced inner)) = braced inner.
Proof.
  unfold fitness_candidate. rewrite strip_fenced.
  change (sub_leading_json_fence (fenced (braced inner)))
    with (braced inner ++ chr nl ++ "```").
  rewrite fence_right.
  unfold sub_trailing_fence_ws.
  rewrite rstrip_fence, endswith_fence, drop_last_fence.
  pose proof (strip_braced_newline inner) as H. unfold strip in H.
  unfold braced in *.
  replace (("{" ++ inner ++ "}") ++ chr nl) with (("{" ++ inner) ++ "}" ++ chr nl)
    by now rewrite !append_assoc.
  rewrite rstrip_brace_newline, append_assoc. reflexivity.
Qed.

Lemma strip_fence_block_fenced (inner : string) :
  strip_fence_block (strip (fenced (braced inner))) = braced inner.
Proof.
  rewrite strip_fenced. unfold strip_fence_block.
  change (startswith FENCE (fenced (braced inner))) with true.
  change (find_char nl (fenced (braced inner))) with (Some 7).
  cbv zeta. cbv iota.
  change (drop 7 (fenced (braced inner)))
    with (chr nl ++ braced inner ++ chr nl ++ "```").
  replace (chr nl ++ braced inner ++ chr nl ++ "```")
    with ((chr nl ++ braced inner ++ chr nl) ++ "```")
    by now rewrite !append_assoc.
  rewrite endswith_fence, drop_last_fence.
  unfold strip.
  replace (chr nl ++ braced inner ++ chr nl)
    with ((chr nl ++ "{" ++ inner) ++ "}" ++ chr nl)
    by (unfold braced; now rewrite !append_assoc).
  rewrite rstrip_brace_newline. unfold braced.
  rewrite !append_assoc. reflexivity.
Qed.

Lemma startswith_fence_newline (s r : string) :
  startswith FENCE (s ++ String nl r) = startswith FENCE s.
Proof.
  destruct s as [| c1 [| c2 [| c3 s]]]; cbn [append]; unfold FENCE;
    cbn [startswith]; change (Ascii.eqb "`" nl) with false;
    rewrite ?andb_false_r; reflexivity.
Qed.

Lemma find_fence_closing (b : string) :
  find FENCE b = None ->
  find FENCE (b ++ chr nl ++ "```") = Some (S (String.length b)).
Proof.
  induction b as [| c b IH]; [reflexivity |].
  cbn [find]. destruct (startswith FENCE (String c b)) eqn:Hs; [discriminate |].
  destruct (find FENCE b) eqn:Hf; [discriminate |]. intros _.
  cbn [append find].
  change (String c (b ++ chr nl ++ "```"))
    with (String c b ++ String nl "```").
  rewrite startswith_fence_newline, Hs.
  change (find FENCE (b ++ String nl "```"))
    with (find FENCE (b ++ chr nl ++ "```")).
  now rewrite (IH eq_refl).
Qed.

Lemma scaffold_candidate_fenced (inner : string) :
  find FENCE (braced inner) = None ->
  scaffold_candidate (fenced (braced inner)) = braced inner.
Proof.
  intros Hno. unfold scaffold_candidate. rewrite strip_fenced. cbv zeta.
  change (find FENCE (fenced (braced inner))) with (Some 0).
  cbv iota.
  change (drop (0 + 3) (fenced (braced inner)))
    with ("json" ++ chr nl ++ braced inner ++ chr nl ++ "```").
  change (startswith "json" ("json" ++ chr nl ++ braced inner ++ chr nl ++ "```"))
    with true.
  cbv iota.
  change (drop_while isspace
            (drop 4 ("json" ++ chr nl ++ braced inner ++ chr nl ++ "```")))
    with (braced inner ++ chr nl ++ "```").
  rewrite (find_fence_closing _ Hno).
  rewrite fence_right.
  replace (S (String.length (braced inner)))
    with (String.length (braced inner ++ chr nl))
    by (rewrite length_append; cbn [String.length chr]; lia).
  rewrite take_app_length. apply strip_braced_newline.
Qed.

Lemma split_where_app (sep : ascii -> bool) (x : string) (c : ascii) (y : string) :
  sep c = true ->
  split_where sep (x ++ String c y)
  = (split_where sep x ++ split_where sep y)%list.
Proof.
  intros Hc. induction x as [| a x IH]; cbn [append split_where].
  - now rewrite Hc.
  - rewrite IH. destruct (sep a); [reflexivity |].
    pose proof (split_where_not_nil sep x) as Hne.
    destruct (split_where sep x); [congruence | reflexivity].
Qed.

Lemma join_lines (s : string) :
  join (chr nl) (split_where (Ascii.eqb nl) s) = s.
Proof.
  induction s as [| c s IH]; [reflexivity |].
  cbn [split_where]. pose proof (split_where_not_nil (Ascii.eqb nl) s) as Hne.
  destruct (Ascii.eqb nl c) eqn:Hc.
  - apply Ascii.eqb_eq in Hc as <-.
    destruct (split_where (Ascii.eqb nl) s) as [| p ps] eqn:Hs; [congruence |].
    change (join (chr nl) ("" :: p :: ps))
      with (String nl (join (chr nl) (p :: ps))).
    now rewrite IH.
  - destruct (split_where (Ascii.eqb nl) s) as [| p ps] eqn:Hs; [congruence |].
    now rewrite join_cons_char, IH.
Qed.

Lemma scorecard_candidate_fenced (inner : string) :
  scorecard_candidate (fenced (braced inner)) = braced inner.
Proof.
  unfold scorecard_candidate. rewrite strip_fenced. cbv zeta.
  change (startswith FENCE (fenced (braced inner))) with true. cbv iota.
  assert (Hlines : split_where (Ascii.eqb nl) (fenced (braced inner))
                   = "```json"
                     :: (split_where (Ascii.eqb nl) (braced inner) ++ ["```"])%list).
  { unfold fenced.
    change ("```json" ++ chr nl ++ braced inner ++ chr nl ++ "```")
      with ("```json" ++ String nl (braced inner ++ String nl "```")).
    rewrite split_where_app by reflexivity.
    rewrite split_where_app by reflexivity. reflexivity. }
  rewrite Hlines. cbn [tl].
  assert (Hlast : last ("```json"
                        :: (split_where (Ascii.eqb nl) (braced inner) ++ ["```"])%list)
                    "" = "```").
  { change ("```json" :: (split_where (Ascii.eqb nl) (braced inner) ++ ["```"])%list)
      with (("```json" :: split_where (Ascii.eqb nl) (braced inner)) ++ ["```"])%list.
    apply last_last. }
  rewrite Hlast. change (String.eqb (strip "```") FENCE) with true. cbv iota.
  rewrite removelast_last, join_lines. apply strip_braced.
Qed.

(** X22. Every task unwraps an answer that comes as a JSON object
    inside a fence tagged [json]: the text handed to the parser is the
    object itself.  For the scaffold task this holds when the object
    contains no fence of its own; else the text is cut at that fence. *)
Theorem fenced_answer_is_unwrapped (t : task) (inner : string) :
  (t = Scaffold -> find FENCE (braced inner) = None) ->
  candidate_of t (fenced (braced inner)) = braced inner.
Proof.
  intros Hno. destruct t; cbn [candidate_of].
  - apply jd_candidate_fenced.
  - apply strip_fence_block_fenced.
  - now apply scaffold_candidate_fenced, Hno.
  - apply strip_fence_block_fenced.
  - apply fitness_candidate_fenced.
  - apply scorecard_candidate_fenced.
Qed.

Lemma fenced_answer_is_unwrapped_witness :
  candidate_of Scaffold (fenced (braced (q "'files': []")))
  = braced (q "'files': []")
  /\ scaffold_candidate
       (fenced (braced (q "'files': [{'path': 'README.md', 'content': '```sh'}]")))
     = q "{'files': [{'path': 'README.md', 'content': '".
Proof.
  split.
  - apply (fenced_answer_is_unwrapped Scaffold). intros _. vm_compute. reflexivity.
  - vm_compute. reflexivity.
Defined.

(** ** The scorecard and the portfolio parser *)

(** X23. The scorecard and the portfolio parser find a JSON object
    that stands in prose: when the whole answer does not parse and has no
    opening fence, the slice from its first opening to its last closing
    brace is parsed, and that value is the result. *)
Theorem object_in_prose_is_found (E : Externals) (content inner : string)
  (v : JSON) :
  framed (braced inner) content ->
  startswith FENCE (strip content) = false ->
  json_loads E (strip content) = None ->
  json_loads E (braced inner) = Some v ->
  _parse_scorecard E content = v
  /\ _parse_portfolio_response E content = Ok v.
Proof.
  intros Hf Hfence Hwhole Hbody.
  apply framed_strip in Hf.
  destruct (framed_slice _ _ Hf) as (start & stop & H1 & H2 & H3 & H4).
  assert (Hlt : (start <? S stop) = true).
  { apply Nat.leb_gt in H3. apply Nat.ltb_lt. lia. }
  split.
  - unfold _parse_scorecard, scorecard_candidate. cbv zeta. rewrite Hfence.
    now rewrite Hwhole, H1, H2, Hlt, H4, Hbody.
  - unfold _parse_portfolio_response, strip_fence_block. cbv zeta.
    rewrite Hfence. now rewrite Hwhole, H1, H2, Hlt, H4, Hbody.
Qed.

Lemma object_in_prose_is_found_witness :
  _parse_scorecard example_externals PROSE_ANSWER
  = JObj [("overall_score", JInt 7); ("summary", JStr "Solid.")]
  /\ _parse_portfolio_response example_externals PROSE_ANSWER
     = Ok (JObj [("overall_score", JInt 7); ("summary", JStr "Solid.")]).
Proof.
  apply (object_in_prose_is_found example_externals PROSE_ANSWER
           (q "'overall_score': 7, 'summary': 'Solid.'")).
  - exists "Here is the result: ", " Let me know if you need more.".
    repeat split; reflexivity.
  - reflexivity.
  - vm_compute. reflexivity.
  - vm_compute. reflexivity.
Defined.

Lemma with_metadata_lookup (scorecard : JSON) (url : JSON)
  (r : RepoAnalysisResult) (out : JSON) :
  with_metadata scorecard url r = Ok out ->
  exists sc,
    out = JObj sc
    /\ Py.lookup "repo_url" sc = Some url
    /\ Py.lookup "repo_name" sc = Some (full_name r)
    /\ Py.lookup "primary_language" sc = Some (primary_language r)
    /\ Py.lookup "total_files" sc = Some (total_files r)
    /\ Py.lookup "total_lines" sc = Some (estimated_loc r).
Proof.
  destruct scorecard as [| | | | | | d]; try discriminate.
  cbn [with_metadata]. intros H. injection H as <-. eexists.
  split; [reflexivity |].
  repeat split;
    repeat (rewrite lookup_set_other by discriminate);
    apply lookup_set_same.
Qed.

(** X24. Whatever the generator answers, a scorecard that the
    repository node returns carries the URL of the state and the name, the
    language, the file count and the line count of the repository analysis:
    what the answer says under these keys is overwritten. *)
Theorem repo_node_sets_metadata (E : Externals) (state : dict)
  (llm : generator) (d : dict) :
  result_of (repo_analysis_node E state llm) = Ok d ->
  Py.lookup "current_phase" d = Some (JStr "repo_analysis_complete") ->
  exists sc r,
    Py.lookup "repo_scorecard" d = Some (JObj sc)
    /\ analyze_github_repo E (Py.dget state "repo_url" JNull) = Ok r
    /\ Py.lookup "repo_url" sc = Some (Py.dget state "repo_url" JNull)
    /\ Py.lookup "repo_name" sc = Some (full_name r)
    /\ Py.lookup "primary_language" sc = Some (primary_language r)
    /\ Py.lookup "total_files" sc = Some (total_files r)
    /\ Py.lookup "total_lines" sc = Some (estimated_loc r).
Proof.
  assert (Hfailed : forall msg, repo_failed state msg = Ok d ->
            Py.lookup "current_phase" d
            <> Some (JStr "repo_analysis_complete")).
  { intros msg. unfold repo_failed.
    destruct (errors_plus state msg); cbn [bind]; [| discriminate].
    intros H. injection H as <-. discriminate. }
  assert (Hhandler : forall e, repo_handler state e = Ok d ->
            Py.lookup "current_phase" d
            <> Some (JStr "repo_analysis_complete")).
  { intros e. unfold repo_handler. destruct (exn_kind_of e); apply Hfailed. }
  unfold repo_analysis_node. cbv zeta.
  destruct (negb _); cbn [result_of fst];
    [intros H Hphase; now destruct (Hfailed _ H) |].
  destruct (analyze_github_repo E _) as [r | e] eqn:Hr; cbn [fst];
    [| intros H Hphase; now destruct (Hhandler _ H)].
  destruct (initial_messages E RepoScorecard state) as [m | e]; cbn [fst];
    [| intros H Hphase; now destruct (Hhandler _ H)].
  destruct (repo_attempts E llm _ _ _ _) as [[scorecard | e] calls]; cbn [fst];
    [| intros H Hphase; now destruct (Hhandler _ H)].
  destruct (with_metadata _ _ _) as [out | e] eqn:Hm; cbn [fst];
    [| intros H Hphase; now destruct (Hhandler _ H)].
  destruct (with_metadata_lookup _ _ _ _ Hm) as (sc & -> & Hmeta).
  intros H _. injection H as <-. exists sc, r.
  split; [reflexivity |]. split; [reflexivity | exact Hmeta].
Qed.

Lemma repo_node_sets_metadata_witness :
  exists sc r,
    Py.lookup "repo_scorecard"
      [ ("repo_scorecard",
         JObj [ ("overall_score", JInt 7); ("summary", JStr "Solid.");
                ("repo_name", JStr "owner/repo");
                ("repo_url", JStr "https://github.com/owner/repo");
                ("primary_language", JStr "Python");
                ("total_files", JInt 12); ("total_lines", JInt 3400) ]);
        ("current_phase", JStr "repo_analysis_complete");
        ("messages", JArr []) ] = Some (JObj sc)
    /\ analyze_github_repo example_externals
         (Py.dget example_state "repo_url" JNull) = Ok r
    /\ Py.lookup "repo_url" sc = Some (Py.dget example_state "repo_url" JNull)
    /\ Py.lookup "repo_name" sc = Some (full_name r)
    /\ Py.lookup "primary_language" sc = Some (primary_language r)
    /\ Py.lookup "total_files" sc = Some (total_files r)
    /\ Py.lookup "total_lines" sc = Some (estimated_loc r).
Proof.
  apply (repo_node_sets_metadata example_externals example_state
           (always SCORECARD_ANSWER)).
  - vm_compute. reflexivity.
  - reflexivity.
Defined.

(** ** What the portfolio validation returns *)

Lemma validate_portfolio_steps (E : Externals) (data : dict) :
  _validate_portfolio E (JObj data)
  = Ok (JObj (cut_post_body E (cut_demo_steps
                (keep_valid_bullets E (cut_readme data))))).
Proof. reflexivity. Qed.

Lemma valid_bullets_bounded (E : Externals) (bullets : list JSON) :
  Forall bounded_bullet (valid_bullets E bullets).
Proof.
  induction bullets as [| b rest IH]; cbn [valid_bullets]; [constructor |].
  destruct b as [| | | | | | d]; try exact IH.
  destruct (Py.truthy (Py.dget d "bullet" JNull)); [| exact IH].
  constructor; [| exact IH].
  eexists _, _, _. split; [reflexivity | apply take_length_le].
Qed.

Lemma dget_lookup_str (d : dict) (k default s : string) :
  Py.lookup k d = Some (JStr s) -> Py.dget d k (JStr default) = JStr s.
Proof. intros H. unfold Py.dget. now rewrite H. Qed.

Lemma cut_readme_limit (data : dict) (readme : string) :
  Py.lookup "readme_markdown" (cut_readme data) = Some (JStr readme) ->
  String.length readme <= MAX_README_LENGTH.
Proof.
  unfold cut_readme.
  destruct (Py.dget data "readme_markdown" (JStr "")) as [| | | | r | |] eqn:Hd;
    try (intros H; rewrite (dget_lookup_str _ _ _ _ H) in Hd; discriminate Hd).
  destruct (negb (String.eqb r "") && (MAX_README_LENGTH <? String.length r))
    eqn:Hc.
  - rewrite lookup_set_same. intros H.
    assert (Hr : readme = take MAX_README_LENGTH r) by congruence.
    rewrite Hr. apply take_length_le.
  - intros H. rewrite (dget_lookup_str _ _ _ _ H) in Hd. injection Hd as ->.
    apply andb_false_iff in Hc as [Hc | Hc].
    + apply negb_false_iff, String.eqb_eq in Hc. subst r. apply Nat.le_0_l.
    + now apply Nat.ltb_ge in Hc.
Qed.

Lemma keep_valid_bullets_limit (E : Externals) (data : dict) (bullets : list JSON) :
  Py.lookup "resume_bullets" (keep_valid_bullets E data) = Some (JArr bullets) ->
  Forall bounded_bullet bullets.
Proof.
  unfold keep_valid_bullets.
  destruct (Py.dget data "resume_bullets" (JArr [])) as [| | | | | l |] eqn:Hd;
    try (intros H; unfold Py.dget in Hd; rewrite H in Hd; discriminate Hd).
  destruct l as [| b bs].
  - intros H. unfold Py.dget in Hd. rewrite H in Hd. injection Hd as ->.
    constructor.
  - rewrite lookup_set_same. intros H.
    assert (Hb : bullets = valid_bullets E (b :: bs)) by congruence.
    rewrite Hb. apply valid_bullets_bounded.
Qed.

Lemma keep_valid_bullets_other (E : Externals) (data : dict) (k : string) :
  k <> "resume_bullets" ->
  Py.lookup k (keep_valid_bullets E data) = Py.lookup k data.
Proof.
  intros Hk. unfold keep_valid_bullets.
  destruct (Py.dget data "resume_bullets" (JArr [])) as [| | | | | [| b bs] |];
    try reflexivity.
  apply lookup_set_other. congruence.
Qed.

Lemma cut_demo_steps_limit (data demo : dict) (steps : list JSON) :
  Py.lookup "demo_script" (cut_demo_steps data) = Some (JObj demo) ->
  Py.lookup "steps" demo = Some (JArr steps) ->
  List.length steps <= MAX_DEMO_STEPS.
Proof.
  unfold cut_demo_steps.
  destruct (Py.dget data "demo_script" (JObj [])) as [| | | | | | raw] eqn:Hd;
    try (intros H; unfold Py.dget in Hd; rewrite H in Hd; discriminate Hd).
  cbv zeta. rewrite lookup_set_same.
  match goal with
  | |- Some (JObj ?x) = _ -> _ =>
      intros H; assert (Hdemo : demo = x) by congruence; clear H; subst demo
  end.
  destruct (Py.dget raw "steps" (JArr [])) as [| | | | | l |] eqn:Hs;
    try (intros H; unfold Py.dget in Hs; rewrite H in Hs; discriminate Hs).
  destruct (MAX_DEMO_STEPS <? List.length l) eqn:Hc.
  - rewrite lookup_set_same. intros H.
    assert (Hsteps : steps = firstn MAX_DEMO_STEPS l) by congruence.
    rewrite Hsteps, length_firstn. apply Nat.le_min_l.
  - intros H. unfold Py.dget in Hs. rewrite H in Hs. injection Hs as ->.
    now apply Nat.ltb_ge in Hc.
Qed.

Lemma cut_demo_steps_other (data : dict) (k : string) :
  k <> "demo_script" ->
  Py.lookup k (cut_demo_steps data) = Py.lookup k data.
Proof.
  intros Hk. unfold cut_demo_steps.
  destruct (Py.dget data "demo_script" (JObj [])); try reflexivity.
  apply lookup_set_other. congruence.
Qed.

Lemma cut_post_body_limit (E : Externals) (data post : dict) :
  Py.lookup "linkedin_post" (cut_post_body E data) = Some (JObj post) ->
  String.length (py_str E (Py.dget post "body" (JStr "")))
  <= MAX_POST_BODY_LENGTH.
Proof.
  unfold cut_post_body.
  destruct (Py.dget data "linkedin_post" (JObj [])) as [| | | | | | raw] eqn:Hd;
    try (intros H; unfold Py.dget in Hd; rewrite H in Hd; discriminate Hd).
  cbv zeta. rewrite lookup_set_same.
  match goal with
  | |- Some (JObj ?x) = _ -> _ =>
      intros H; assert (Hpost : post = x) by congruence; clear H; subst post
  end.
  destruct (MAX_POST_BODY_LENGTH
            <? String.length (py_str E (Py.dget raw "body" (JStr "")))) eqn:Hc.
  - unfold Py.dget at 1. rewrite lookup_set_same. cbn [py_str].
    apply take_length_le.
  - now apply Nat.ltb_ge in Hc.
Qed.

Lemma cut_post_body_other (E : Externals) (data : dict) (k : string) :
  k <> "linkedin_post" ->
  Py.lookup k (cut_post_body E data) = Py.lookup k data.
Proof.
  intros Hk. unfold cut_post_body.
  destruct (Py.dget data "linkedin_post" (JObj [])); try reflexivity.
  apply lookup_set_other. congruence.
Qed.

(** X25. Whatever the payload, a portfolio that the validation
    returns keeps the limits of the node: a README of at most 20000
    characters, bullets rebuilt with a text of at most 300 characters, at
    most 15 demo steps and a post body of at most 3000 characters. *)
Theorem validate_portfolio_limits (E : Externals) (data out : JSON) :
  _validate_portfolio E data = Ok out ->
  exists d, out = JObj d /\ portfolio_within_limits E d.
Proof.
  destruct data as [| | | | | | data]; try discriminate.
  rewrite validate_portfolio_steps. intros H. injection H as <-.
  eexists. split; [reflexivity |]. unfold portfolio_within_limits.
  split; [| split; [| split]].
  - intros readme.
    rewrite cut_post_body_other, cut_demo_steps_other, keep_valid_bullets_other
      by discriminate.
    apply cut_readme_limit.
  - intros bullets.
    rewrite cut_post_body_other, cut_demo_steps_other by discriminate.
    apply keep_valid_bullets_limit.
  - intros demo steps. rewrite cut_post_body_other by discriminate.
    apply cut_demo_steps_limit.
  - intros post. apply cut_post_body_limit.
Qed.

Lemma validate_portfolio_limits_witness :
  exists d,
    JObj [ ("readme_markdown", JStr "# Demo");
           ("resume_bullets",
            JArr [ JObj [ ("bullet", JStr (replicate 300 "x"));
                          ("keywords", JArr []);
                          ("impact_type", JStr "technical") ] ]);
           ("linkedin_post", JObj [("body", JStr "Shipped.")]);
           ("demo_script", JObj []) ] = JObj d
    /\ portfolio_within_limits example_externals d.
Proof.
  apply (validate_portfolio_limits example_externals portfolio_payload).
  vm_compute. reflexivity.
Defined.

(** ** The job description of a request (schemas/jd.py) *)

Lemma lstrip_idempotent (s : string) : lstrip (lstrip s) = lstrip s.
Proof.
  induction s as [| c s IH]; [reflexivity |].
  cbn [lstrip]. destruct (isspace c) eqn:Hc; [exact IH |].
  cbn [lstrip]. now rewrite Hc.
Qed.

Lemma rstrip_idempotent (s : string) : rstrip (rstrip s) = rstrip s.
Proof.
  induction s as [| c s IH]; [reflexivity |].
  cbn [rstrip]. destruct (rstrip s) as [| a r] eqn:Hr.
  - destruct (isspace c) eqn:Hc; [reflexivity |].
    cbn [rstrip]. now rewrite Hc.
  - cbn [rstrip] in *. now rewrite IH.
Qed.

Lemma lstrip_nonspace (c : ascii) (s : string) :
  isspace c = false -> lstrip (String c s) = String c s.
Proof. intros H. cbn [lstrip]. now rewrite H. Qed.

Lemma rstrip_lstrip (s : string) : rstrip (lstrip s) = lstrip (rstrip s).
Proof.
  induction s as [| c s IH]; [reflexivity |].
  destruct (isspace c) eqn:Hc.
  - cbn [lstrip rstrip]. rewrite Hc, IH.
    destruct (rstrip s) as [| a r]; [reflexivity |].
    cbn [lstrip]. now rewrite Hc.
  - rewrite (lstrip_nonspace c s Hc). cbn [rstrip].
    destruct (rstrip s) as [| a r]; rewrite ?Hc; now rewrite lstrip_nonspace.
Qed.

Lemma strip_idempotent (s : string) : strip (strip s) = strip s.
Proof.
  unfold strip.
  now rewrite rstrip_lstrip, rstrip_idempotent, lstrip_idempotent.
Qed.

Lemma length_lstrip (s : string) : String.length (lstrip s) <= String.length s.
Proof.
  induction s as [| c s IH]; [apply Nat.le_refl |].
  cbn [lstrip]. destruct (isspace c); cbn [String.length]; lia.
Qed.

Lemma length_rstrip (s : string) : String.length (rstrip s) <= String.length s.
Proof.
  induction s as [| c s IH]; [apply Nat.le_refl |].
  cbn [rstrip]. destruct (rstrip s) as [| a r].
  - destruct (isspace c); cbn [String.length]; lia.
  - cbn [String.length] in *. lia.
Qed.

Lemma length_strip (s : string) : String.length (strip s) <= String.length s.
Proof.
  unfold strip. pose proof (length_lstrip (rstrip s)).
  pose proof (length_rstrip s). lia.
Qed.

Lemma length_filter_chars (p : ascii -> bool) (s : string) :
  String.length (filter_chars p s) <= String.length s.
Proof.
  induction s as [| c s IH]; [apply Nat.le_refl |].
  cbn [filter_chars]. destruct (p c); cbn [String.length]; lia.
Qed.

Lemma all_chars_lstrip (p : ascii -> bool) (s : string) :
  all_chars p s = true -> all_chars p (lstrip s) = true.
Proof.
  induction s as [| c s IH]; [reflexivity |].
  cbn [lstrip]. destruct (isspace c); [| trivial].
  cbn [all_chars]. intros H. apply andb_true_iff in H as [_ H]. now apply IH.
Qed.

Lemma all_chars_rstrip (p : ascii -> bool) (s : string) :
  all_chars p s = true -> all_chars p (rstrip s) = true.
Proof.
  induction s as [| c s IH]; [reflexivity |].
  cbn [all_chars rstrip]. intros H. apply andb_true_iff in H as [Hc Hs].
  specialize (IH Hs). destruct (rstrip s) as [| a r].
  - destruct (isspace c); [reflexivity |]. cbn [all_chars]. now rewrite Hc.
  - cbn [all_chars] in *. now rewrite Hc, IH.
Qed.

Lemma all_chars_not_char (ch : ascii) (s : string) :
  all_chars (fun c => negb (Ascii.eqb c ch)) s = true ->
  contains_char ch s = false.
Proof.
  induction s as [| c s IH]; [reflexivity |].
  cbn [all_chars contains_char]. intros H. apply andb_true_iff in H as [Hc Hs].
  apply negb_true_iff in Hc. now rewrite Hc, (IH Hs).
Qed.

(** X26. A job description that the request validation accepts is
    a string of 50 to 15000 characters without null byte and without white
    space at either end, and it is accepted unchanged when it is validated
    again. *)
Theorem jd_text_accepted (v : JSON) (r : string) :
  jd_text_field v = Ok r ->
  50 <= String.length r
  /\ String.length r <= n15000
  /\ contains_char NUL r = false
  /\ strip r = r
  /\ jd_text_field (JStr r) = Ok r.
Proof.
  unfold jd_text_field.
  destruct v as [| | | | s | |]; try discriminate. cbn [str_field bind].
  destruct ((String.length s <? 50) || (n15000 <? String.length s)) eqn:Hlen;
    [discriminate |].
  apply orb_false_iff in Hlen as [_ Hmax]. apply Nat.ltb_ge in Hmax.
  unfold sanitize_jd. cbv zeta.
  set (clean := filter_chars (fun c => negb (Ascii.eqb c NUL)) s).
  destruct (String.length (strip clean) <? 50) eqn:Hmin; [discriminate |].
  intros H. injection H as <-. apply Nat.ltb_ge in Hmin.
  assert (Hall : all_chars (fun c => negb (Ascii.eqb c NUL)) (strip clean) = true).
  { unfold strip. apply all_chars_lstrip, all_chars_rstrip, all_chars_filter. }
  assert (Hle : String.length (strip clean) <= n15000).
  { pose proof (length_strip clean).
    pose proof (length_filter_chars (fun c => negb (Ascii.eqb c NUL)) s).
    fold clean in H0. lia. }
  split; [exact Hmin |]. split; [exact Hle |].
  split; [now apply all_chars_not_char |].
  split; [apply strip_idempotent |].
  rewrite (filter_all_chars _ _ Hall), strip_idempotent.
  apply Nat.ltb_ge in Hmin. apply Nat.ltb_ge in Hle. now rewrite Hmin, Hle.
Qed.

Lemma jd_text_accepted_witness :
  let r := "We are hiring a backend engineer who knows Python and Go." in
  50 <= String.length r
  /\ String.length r <= n15000
  /\ contains_char NUL r = false
  /\ strip r = r
  /\ jd_text_field (JStr r) = Ok r.
Proof.
  apply (jd_text_accepted (JStr PADDED_JD)). vm_compute. reflexivity.
Defined.

(** ** The JD pipeline, end to end *)

(** The answer of the endpoint is its answer to the final state of the
    run. *)
Lemma jd_pipeline_profile_of_run (E : Externals) (state : dict) (llm : generator) :
  jd_pipeline_profile E state llm
  = jd_response E (snd (jd_pipeline_run E state llm)).
Proof.
  unfold jd_pipeline_profile, jd_pipeline_run, jd_response, result_of.
  destruct (jd_analysis_node E state llm) as [[analysed | e] calls];
    cbn [fst bind]; [| reflexivity].
  destruct (company_logic_node _) as [adjusted | e]; cbn [bind snd];
    [| reflexivity].
  destruct (Py.truthy (Py.dget _ "errors" (JArr []))) eqn:Herr; cbn [bind snd].
  - now rewrite Herr.
  - destruct (capstone_generator_node E _ llm) as [[generated | e] calls'];
      reflexivity.
Qed.

(** The state after a failed JD analysis and after the company step that
    follows it. *)
Ltac through_sets :=
  repeat (rewrite dget_set_other by discriminate);
  try rewrite dget_set_same.

Lemma merge_jd_failed (state : dict) (e : exn) :
  merge_state state (jd_failed e)
  = Py.set "current_phase" (JStr "jd_analysis_failed")
      (Py.set "errors" (JArr [JStr ("JD analysis failed: " ++ exn_str e)]) state).
Proof. reflexivity. Qed.

Lemma merge_company_result (state : dict) (label : string) (m : modifiers)
  (profile : JSON) :
  merge_state state (company_result label m profile)
  = Py.set "current_phase" (JStr "company_logic_complete")
      (Py.set "company_modifiers" (modifiers_dict label m)
         (Py.set "skill_profile" profile state)).
Proof. reflexivity. Qed.

Lemma merge_jd_fallback (state : dict) (answer : string) :
  merge_state state (jd_fallback_result state answer)
  = Py.set "current_phase" (JStr "jd_analysis_complete")
      (Py.set "engineering_expectations" (JArr [])
         (Py.set "skill_profile" (jd_fallback state answer) state)).
Proof. reflexivity. Qed.

(** X27. A failed JD analysis ends the pipeline of the endpoint after the
    company step: the run visits the JD node and the company node and no
    other, the generator is invoked by the JD node alone, the final state
    holds the error of the analysis and the modifiers of the company type,
    and the request is answered with the error 422, whatever the generator
    would have answered to the capstone step. *)
Theorem failed_analysis_ends_pipeline (E : Externals) (state : dict)
  (llm : generator) (company_type : string) (e : exn)
  (calls : list (list message)) :
  fresh_jd_state state company_type ->
  jd_analysis_node E state llm = (Ok (jd_failed e), calls) ->
  jd_pipeline_run E state llm
  = ([JdAnalysisStep; CompanyLogicStep], calls,
     Ok (failed_analysis_state state e (modifiers_output (lower company_type))))
  /\ jd_pipeline_profile E state llm
     = Raise HTTP_422.
Proof.
  intros (Hct & Hprofile & _) Hnode.
  assert (Hco : company_logic_node
                  (Py.set "current_phase" (JStr "jd_analysis_failed")
                     (Py.set "errors"
                        (JArr [JStr ("JD analysis failed: " ++ exn_str e)]) state))
                = Ok (company_result (lower company_type)
                        (modifiers_for (lower company_type)) (JObj []))).
  { assert (Hsp : Py.dget state "skill_profile" JNull = JNull)
      by (unfold Py.dget; now rewrite Hprofile).
    unfold company_logic_node. through_sets. rewrite Hct, Hsp. reflexivity. }
  assert (Hrun : jd_pipeline_run E state llm
                 = ([JdAnalysisStep; CompanyLogicStep], calls,
                    Ok (failed_analysis_state state e
                          (modifiers_output (lower company_type))))).
  { unfold jd_pipeline_run. rewrite Hnode, merge_jd_failed, Hco.
    rewrite merge_company_result, modifiers_dict_written_out.
    through_sets. reflexivity. }
  split; [exact Hrun |].
  rewrite jd_pipeline_profile_of_run, Hrun. unfold jd_response, failed_analysis_state.
  cbn [snd bind]. through_sets. reflexivity.
Qed.

Lemma failed_analysis_ends_pipeline_witness :
  jd_pipeline_run example_externals (jd_state "faang") fails_first
  = ([JdAnalysisStep; CompanyLogicStep],
     [first_history example_externals JdAnalysis "user prompt"],
     Ok (failed_analysis_state (jd_state "faang")
           (Exn OtherError "Request timed out.")
           (modifiers_output (lower "faang"))))
  /\ jd_pipeline_profile example_externals (jd_state "faang") fails_first
     = Raise HTTP_422.
Proof.
  apply (failed_analysis_ends_pipeline example_externals (jd_state "faang")
           fails_first "faang" (Exn OtherError "Request timed out.")).
  - repeat split.
  - vm_compute. reflexivity.
Defined.

Lemma capstone_result_shape (E : Externals) (state : dict) (llm : generator) :
  (exists e, result_of (capstone_generator_node E state llm)
             = Ok (capstone_failed e))
  \/ (exists projects response,
        result_of (capstone_generator_node E state llm)
        = Ok [ ("generated_projects", projects);
               ("current_phase", JStr "capstone_generation_complete");
               ("messages", JArr [JStr response]) ]).
Proof.
  unfold capstone_generator_node.
  destruct (initial_messages E Capstone state) as [m | e]; [| left; now exists e].
  destruct (llm m) as [a | e]; [| left; now exists e].
  destruct (capstone_attempts E llm _ _ _ _) as [[[parsed response] | e] calls];
    [| left; now exists e].
  destruct (Py.len _) as [n | e]; [| left; now exists e].
  right. now eexists _, _.
Qed.


